(** * Patient inquiry automation: a shallow embedding of [patient_automation.py]

    The script reads the rows of a form-responses spreadsheet, normalises the
    header names, selects the rows that are not marked as processed, summarises
    each of them, notifies by e-mail and chat, marks the row as processed and
    appends a record to an archive worksheet.

    Python strings are modelled by [string]; a character is one of the 256
    values of [ascii], read as the code point of that number.  Code points
    above 255 are outside the model. *)

From Stdlib Require Import ZArith NArith Ascii String Bool Lia.
From Stdlib Require Import DecimalString DecimalZ DecimalPos DecimalFacts.
From stdpp Require Import gmap strings list.

Set Warnings "-register-all".

(** ** Python string methods *)

Module Py.

(** [str.isspace] on one character, for the code points below 256. *)
Definition isspace (c : ascii) : bool :=
  let n := N_of_ascii c in
  ((9 <=? n) && (n <=? 13) || (28 <=? n) && (n <=? 32)
   || (n =? 133) || (n =? 160))%N.

(** [str.lower] on one character, for the code points below 256. *)
Definition lower_char (c : ascii) : ascii :=
  let n := N_of_ascii c in
  if ((65 <=? n) && (n <=? 90)
      || (192 <=? n) && (n <=? 222) && negb (n =? 215))%N
  then ascii_of_N (n + 32) else c.

(** [s.lower()] *)
Fixpoint lower (s : string) : string :=
  match s with
  | EmptyString => EmptyString
  | String c r => String (lower_char c) (lower r)
  end.

(** [s.lstrip()] *)
Fixpoint lstrip (s : string) : string :=
  match s with
  | EmptyString => EmptyString
  | String c r => if isspace c then lstrip r else s
  end.

(** [s.rstrip()] *)
Fixpoint rstrip (s : string) : string :=
  match s with
  | EmptyString => EmptyString
  | String c r =>
      match rstrip r with
      | EmptyString => if isspace c then EmptyString else String c EmptyString
      | r' => String c r'
      end
  end.

(** [s.strip()] *)
Definition strip (s : string) : string := rstrip (lstrip s).

(** Truth value of a string: [bool(s)]. *)
Definition truthy (s : string) : bool :=
  match s with EmptyString => false | _ => true end.

(** [a or b] on strings. *)
Definition or_else (a b : string) : string := if truthy a then a else b.

(** [s[:n]] for a non-negative [n]. *)
Fixpoint slice_to (n : nat) (s : string) : string :=
  match n, s with
  | S k, String c r => String c (slice_to k r)
  | _, _ => EmptyString
  end.

(** [s.replace(old, new)] where [old] and [new] are single characters. *)
Fixpoint replace_char (old new : ascii) (s : string) : string :=
  match s with
  | EmptyString => EmptyString
  | String c r =>
      String (if Ascii.eqb c old then new else c) (replace_char old new r)
  end.

(** Every character of [s] satisfies [p]. *)
Fixpoint all_chars (p : ascii -> bool) (s : string) : bool :=
  match s with
  | EmptyString => true
  | String c r => p c && all_chars p r
  end.

End Py.

(** ** Header normalizer (section 3 of the script) *)

(** [aliases]: canonical name, then its spellings in priority order. *)
Definition aliases : list (string * list string) :=
  [ ("Timestamp", ["timestamp"; "time"; "date/time"; "date"]);
    ("Name",      ["name"; "full name"; "your name"]);
    ("Email",     ["email"; "e-mail"; "mail"; "your email"]);
    ("Symptoms",  ["symptoms"; "message"; "symptoms / message";
                   "symptom details"; "description"; "issue"; "problem";
                   "notes"; "details"; "comments"; "messages";
                   "patient message"]);
    ("Urgency",   ["urgency"; "priority"; "severity"; "how urgent"]) ].

Definition required_cols : list string :=
  ["Timestamp"; "Name"; "Email"; "Symptoms"; "Urgency"].

(** [x.lower().strip()], the key under which a header or a spelling is
    looked up. *)
Definition norm (s : string) : string := Py.strip (Py.lower s).

(** [lower_map = {c.lower().strip(): c for c in df.columns}]: a later column
    with the same key replaces an earlier one. *)
Definition lower_map (columns : list string) : gmap string string :=
  foldl (fun m c => <[norm c := c]> m) ∅ columns.

(** The inner loop over [variants]: the first spelling whose key is in
    [lower_map] with a non-empty column name. *)
Fixpoint find_src (lm : gmap string string) (variants : list string)
  : option string :=
  match variants with
  | [] => None
  | v :: vs =>
      match lm !! norm v with
      | Some src => if Py.truthy src then Some src else find_src lm vs
      | None => find_src lm vs
      end
  end.

(** One iteration of the outer loop over [aliases.items()]. *)
Definition renames_step (columns : list string) (lm : gmap string string)
    (renames : gmap string string) (entry : string * list string)
  : gmap string string :=
  let '(canonical, variants) := entry in
  if bool_decide (canonical ∈ columns) then renames
  else match find_src lm variants with
       | Some found_src => <[found_src := canonical]> renames
       | None => renames
       end.

Definition build_renames_from (tbl : list (string * list string))
    (columns : list string) : gmap string string :=
  foldl (renames_step columns (lower_map columns)) ∅ tbl.

Definition build_renames : list string -> gmap string string :=
  build_renames_from aliases.

(** [df.rename(columns=renames)] on the column labels. *)
Definition rename_columns (renames : gmap string string)
    (columns : list string) : list string :=
  map (fun h => default h (renames !! h)) columns.

(** The column labels after [if renames: df = df.rename(columns=renames)]. *)
Definition normalize_from (tbl : list (string * list string))
    (columns : list string) : list string :=
  let renames := build_renames_from tbl columns in
  if bool_decide (renames = ∅) then columns
  else rename_columns renames columns.

Definition normalize_columns : list string -> list string :=
  normalize_from aliases.

(** [missing = [c for c in required_cols if c not in df.columns]] *)
Definition missing_cols (columns : list string) : list string :=
  filter (fun c => c ∉ columns) required_cols.

(** ** The spreadsheet backend

    A worksheet is the list of its rows, row 1 first; a row is the list of
    its cells, column 1 first; a cell that is not in the list is empty.
    Cell values are modelled as their text.  [get_all_records] turns the
    text of a cell that reads as a number into that number; this conversion
    is not modelled (no text is turned into ["Yes"] by it, and the header
    row is not converted), so the texts the loop takes from such a cell are
    those of the sheet. *)

Definition worksheet : Type := list (list string).

(** [xs.index(x)] *)
Fixpoint index_of (x : string) (xs : list string) : option nat :=
  match xs with
  | [] => None
  | y :: ys => if String.eqb y x then Some 0 else S <$> index_of x ys
  end.

(** A row without its trailing empty cells. *)
Fixpoint trim_row (cells : list string) : list string :=
  match cells with
  | [] => []
  | c :: cs =>
      match trim_row cs with
      | [] => if Py.truthy c then [c] else []
      | cs' => c :: cs'
      end
  end.

(** [sheet.row_values(r)], [r] counted from 1. *)
Definition row_values (ws : worksheet) (r : nat) : list string :=
  trim_row (nth (pred r) ws []).

(** A list extended to [n] elements with [d]. *)
Definition pad_to {A} (n : nat) (d : A) (xs : list A) : list A :=
  xs ++ replicate (n - length xs) d.

(** [sheet.update_cell(r, c, v)], [r] and [c] counted from 1: the grid is
    extended with empty cells where needed. *)
Definition update_cell (ws : worksheet) (r c : nat) (v : string) : worksheet :=
  let rows := pad_to r [] ws in
  alter (fun cells => <[pred c := v]> (pad_to c "" cells)) (pred r) rows.

(** [sheet.append_row(values)] *)
Definition append_row (ws : worksheet) (values : list string) : worksheet :=
  ws ++ [values].

(** [ensure_column(sheet, header_name)]: the worksheet afterwards and the
    1-based index of the header; [None] stands for the [ValueError] of
    [headers.index]. *)
Definition ensure_column (ws : worksheet) (header_name : string)
  : worksheet * option nat :=
  let headers := row_values ws 1 in
  if bool_decide (header_name ∈ headers)
  then (ws, S <$> index_of header_name headers)
  else
    let ws' := update_cell ws 1 (length headers + 1) header_name in
    let headers' := row_values ws' 1 in
    (ws', S <$> index_of header_name headers').

(** A workbook: the first worksheet ([wb.sheet1]) and the others, each with
    its title.  Worksheet objects are handles into the workbook. *)
Record workbook := {
  wb_sheet1 : string * worksheet;
  wb_others : list (string * worksheet)
}.

Inductive handle := Sheet1 | Other (i : nat).

Definition wb_read (h : handle) (wb : workbook) : worksheet :=
  match h with
  | Sheet1 => snd (wb_sheet1 wb)
  | Other i => default [] (snd <$> wb_others wb !! i)
  end.

Definition wb_write (h : handle) (ws : worksheet) (wb : workbook) : workbook :=
  match h with
  | Sheet1 => {| wb_sheet1 := (fst (wb_sheet1 wb), ws);
                 wb_others := wb_others wb |}
  | Other i => {| wb_sheet1 := wb_sheet1 wb;
                  wb_others := alter (fun p => (fst p, ws)) i (wb_others wb) |}
  end.

(** [wb.worksheet(title)]; [None] stands for [WorksheetNotFound]. *)
Definition wb_worksheet (title : string) (wb : workbook) : option handle :=
  if String.eqb (fst (wb_sheet1 wb)) title then Some Sheet1
  else Other <$> index_of title (map fst (wb_others wb)).

(** [wb.add_worksheet(title=title, rows=200, cols=10)] *)
Definition wb_add_worksheet (title : string) (wb : workbook)
  : workbook * handle :=
  ({| wb_sheet1 := wb_sheet1 wb;
      wb_others := wb_others wb ++ [(title, [])] |},
   Other (length (wb_others wb))).

Definition archive_header : list string :=
  ["Timestamp"; "Name"; "Email"; "Summary"; "Urgency"; "Status"].

(** ** Data frames *)

(** A data frame: the column labels, and the rows with their index label.
    [pd.DataFrame(records)] labels the rows 0, 1, 2, ... and a selection keeps
    the labels. *)
Record DataFrame := {
  df_columns : list string;
  df_rows : list (nat * list string)
}.

(** [df.empty]: some axis has length 0. *)
Definition df_empty (df : DataFrame) : bool :=
  match df_columns df, df_rows df with
  | _ :: _, _ :: _ => false
  | _, _ => true
  end.

(** A row that holds no value. *)
Definition blank_row (cells : list string) : bool :=
  match trim_row cells with [] => true | _ => false end.

(** The rows the values of a worksheet are read from: the rows up to the
    last one that holds a value. *)
Fixpoint used_rows (ws : worksheet) : worksheet :=
  match ws with
  | [] => []
  | r :: rs =>
      match used_rows rs with
      | [] => if blank_row r then [] else [r]
      | rs' => r :: rs'
      end
  end.

(** The width of the values: the length of the longest row, each row read
    without its trailing empty cells. *)
Definition sheet_width (ws : worksheet) : nat :=
  foldr (fun r n => Nat.max (length (trim_row r)) n) 0 ws.

(** A row of the values: [gspread] fills every row with empty cells up to
    the width. *)
Definition fill_row (width : nat) (cells : list string) : list string :=
  take width (pad_to width "" cells).

(** The keys of [get_all_records]: the header row, filled up to the width
    of the values. *)
Definition header_keys (ws : worksheet) : list string :=
  fill_row (sheet_width ws) (nth 0 ws []).

(** [sheet.get_all_records()] raises [GSpreadException] ("the header row in
    the worksheet is not unique"): the sheet holds records and two of the
    keys are equal.  Two header cells with the same text are such keys, and
    so are two empty cells, as when a record is two cells longer than the
    header row.  The check is modelled where the sheet holds records. *)
Definition records_raise (ws : worksheet) : bool :=
  match used_rows ws with
  | _ :: _ :: _ => negb (bool_decide (NoDup (header_keys ws)))
  | _ => false
  end.

(** [pd.DataFrame(sheet.get_all_records())] when [get_all_records] returns:
    row 1 holds the keys, every later row up to the last one that holds a
    value is one record, read under the keys.  Without a record the frame
    has no column. *)
Definition load_df (ws : worksheet) : DataFrame :=
  match used_rows ws with
  | _ :: ((_ :: _) as data) =>
      {| df_columns := header_keys ws;
         df_rows := imap (fun i cells => (i, fill_row (sheet_width ws) cells))
                      data |}
  | _ => {| df_columns := []; df_rows := [] |}
  end.

(** [row.get(label, "")] on a row of a frame with the given columns. *)
Definition row_get (columns : list string) (cells : list string)
    (label : string) : string :=
  match index_of label columns with
  | Some j => nth j cells ""
  | None => ""
  end.

(** ** Ledger filter *)

(** [df[df.get("Processed", "") != "Yes"]].  Without a [Processed] column
    the mask is the single value [True] and the selection raises
    [KeyError]: [None]. *)
Definition new_rows_df (df : DataFrame) : option DataFrame :=
  match index_of "Processed" (df_columns df) with
  | Some j =>
      Some {| df_columns := df_columns df;
              df_rows := filter (fun r => negb (String.eqb (nth j (snd r) "") "Yes"))
                           (df_rows df) |}
  | None => None
  end.

(** ** JSON values and the [json] module *)

(** The values [json.loads] builds: [None], [bool], numbers, [str], [list]
    and [dict] (its items in insertion order). *)
Inductive json (number : Type) : Type :=
| JNull
| JBool (b : bool)
| JNum (n : number)
| JStr (s : string)
| JArr (items : list (json number))
| JObj (items : list (string * json number)).

Arguments JNull {number}.
Arguments JBool {number} b.
Arguments JNum {number} n.
Arguments JStr {number} s.
Arguments JArr {number} items.
Arguments JObj {number} items.

(** The interface of Python's [json] module and of its numbers. *)
Class JsonLib := {
  number : Type;
  (** [bool(n)] *)
  number_truthy : number -> bool;
  (** [json.loads(s)]; [None] stands for [JSONDecodeError] *)
  json_loads : string -> option (json number);
  (** [json.dumps(v, ensure_ascii=False)] *)
  json_dumps : json number -> string
}.

(** The values a [dict]-building reader can return: in every object the keys
    are pairwise distinct. *)
Fixpoint dict_like {number : Type} (v : json number) : bool :=
  match v with
  | JArr items => forallb dict_like items
  | JObj items =>
      bool_decide (NoDup (map fst items))
      && forallb (fun kv => dict_like (snd kv)) items
  | _ => true
  end.

(** What the script relies on when it reads back its own output: the text
    written for a value is read back as that value.  A [dict] has no two
    equal keys, so this is asked of the values of [dict_like] only. *)
Definition loads_dumps (J : JsonLib) : Prop :=
  forall v : json number,
    dict_like v = true -> json_loads (json_dumps v) = Some v.

(** [json.loads] builds [dict]s: in what it returns no object has two equal
    keys. *)
Definition loads_dict_like (J : JsonLib) : Prop :=
  forall (s : string) (v : json number),
    json_loads s = Some v -> dict_like v = true.

Section Summarizer.
Context {J : JsonLib}.

(** [bool(v)] *)
Definition json_truthy (v : json number) : bool :=
  match v with
  | JNull => false
  | JBool b => b
  | JNum n => number_truthy n
  | JStr s => Py.truthy s
  | JArr items => match items with [] => false | _ => true end
  | JObj items => match items with [] => false | _ => true end
  end.

(** [d.get(key, dflt)] on the items of a [dict]. *)
Fixpoint items_get (items : list (string * json number)) (key : string)
    (dflt : json number) : json number :=
  match items with
  | [] => dflt
  | (k, v) :: rest => if String.eqb k key then v else items_get rest key dflt
  end.

(** [v.get(key, dflt)]; [None] stands for the [AttributeError] of a value
    that is not a [dict]. *)
Definition json_get (v : json number) (key : string) (dflt : json number)
  : option (json number) :=
  match v with
  | JObj items => Some (items_get items key dflt)
  | _ => None
  end.

(** [v.strip()]; [None] stands for the [AttributeError] of a value that is
    not a [str]. *)
Definition json_strip (v : json number) : option string :=
  match v with
  | JStr s => Some (Py.strip s)
  | _ => None
  end.

(** The record every branch of [ai_summarize] serialises. *)
Definition summary_record (summary urgency : string) (keywords : json number)
  : json number :=
  JObj [("summary", JStr summary); ("urgency", JStr urgency);
        ("keywords", keywords)].

(** What [openai.chat.completions.create] does: it raises, or it returns a
    response whose choices each carry a message content ([None] for a
    content that is [None]). *)
Inductive backend_result :=
| BackendRaises (e : string)
| BackendReturns (choices : list (option string)).

(** The inner [try] of [ai_summarize]: [None] stands for an exception. *)
Definition structured (content urgency : string) : option (json number) :=
  parsed ← json_loads content;
  s ← json_get parsed "summary" (JStr "");
  summary ← json_strip s;
  u ← json_get parsed "urgency" JNull;
  urg ← json_strip (if json_truthy u then u
                    else JStr (Py.or_else urgency "Unknown"));
  keywords ← json_get parsed "keywords" (JArr []);
  Some (summary_record summary urg keywords).

(** The answers that have "the expected structure": the text of a JSON
    object in which [summary], when it is there, is a string, and [urgency],
    when it is there and counts as true, is a string.  A field that is
    missing is made up for field by field. *)
Definition expected_structure (content : string) : Prop :=
  exists items,
    json_loads content = Some (JObj items) /\
    (exists s, items_get items "summary" (JStr "") = JStr s) /\
    (json_truthy (items_get items "urgency" JNull) = true ->
     exists u, items_get items "urgency" JNull = JStr u).

Definition newline : ascii := "010"%char.
Definition space : ascii := " "%char.

(** [ai_summarize(symptoms, urgency)], given the global [use_openai] and what
    the backend call does. *)
Definition ai_summarize (use_openai : bool) (resp : backend_result)
    (symptoms urgency : string) : string :=
  if negb use_openai then
    let trunc :=
      Py.replace_char newline space (Py.slice_to 200 (Py.or_else symptoms "")) in
    json_dumps (summary_record ("Reported symptoms: " +:+ trunc +:+ "...")
                  (Py.or_else urgency "Unknown") (JArr []))
  else
    let on_error e :=
      json_dumps (summary_record ("(OpenAI error: " +:+ e +:+ ")")
                    (Py.or_else urgency "Unknown") (JArr [])) in
    match resp with
    | BackendRaises e => on_error e
    | BackendReturns [] => on_error "list index out of range"
    | BackendReturns (None :: _) =>
        on_error "'NoneType' object has no attribute 'strip'"
    | BackendReturns (Some raw :: _) =>
        let content := Py.strip raw in
        match structured content urgency with
        | Some out => json_dumps out
        | None =>
            json_dumps (summary_record (Py.slice_to 600 content)
                          (Py.or_else urgency "Unknown") (JArr []))
        end
    end.

(** The re-parse before the archive append: [(summary_text, urgency_final)]
    and whether the [except] branch was taken. *)
Definition reparse (ai_json urgency : string)
  : json number * json number * bool :=
  let attempt :=
    parsed ← json_loads ai_json;
    summary_text ← json_get parsed "summary" (JStr "");
    urgency_final ← json_get parsed "urgency"
                      (JStr (Py.or_else urgency "Unknown"));
    Some (summary_text, urgency_final) in
  match attempt with
  | Some (s, u) => (s, u, false)
  | None => (JStr ai_json, JStr (Py.or_else urgency "Unknown"), true)
  end.

(** The text of a value in an appended row.  The values the loop appends are
    strings; another value is written as its JSON text. *)
Definition cell_text (v : json number) : string :=
  match v with
  | JStr s => s
  | _ => json_dumps v
  end.

End Summarizer.

(** ** The run *)

(** The settings read from the environment, each already stripped. *)
Record Config := {
  OPENAI_API_KEY : string;
  EMAIL_USER : string;
  EMAIL_PASS : string;
  SPREADSHEET_ID : string;
  SPREADSHEET_NAME : string;
  PROCESSED_SHEET : string;
  SLACK_BOT_TOKEN : string;
  SLACK_CHANNEL_ID : string
}.

(** What the outside world does during one run.  [Some e] (or [inl e]) is a
    call that raises an exception with text [e].  The calls of the loop are
    indexed by the label of the row they are made for. *)
Record World := {
  creds_json_exists : bool;
  open_spreadsheet : string + workbook;
  smtp_ssl_465 : option string;
  smtp_starttls_587 : option string;
  slack_sdk : option string;
  openai_sdk : option string;
  completion : nat -> backend_result;
  yag_send : nat -> option string;
  chat_postMessage : nat -> option string;
  mark_update : nat -> option string;
  archive_append : nat -> option string
}.

(** What a run prints, and the calls its loop makes to the outside. *)
Inductive event :=
| DieNoLocator
| DieNoCreds
| DieCannotOpen (id name e : string)
| DieMissingColumns (missing : list string)
| PrintSheetEmpty
| PrintColumnsPresent (columns : list string)
| PrintNoNewInquiries
| PrintSsl465Failed (e : string)
| PrintEmailLoginFailed (e : string)
| PrintSlackUnavailable (e : string)
| PrintOpenAIUnavailable (e : string)
| PrintEmailSent (name : string)
| PrintEmailSendFailed (name e : string)
| PrintSkippingEmail (name : string)
| PrintSlackSendFailed (e : string)
| PrintCouldNotMark (row : nat) (e : string)
| PrintCouldNotAppend (sheet e : string)
| PrintAllProcessed (updates_made : nat)
| CallCompletion (symptoms urgency : string)
| CallSend (to subject contents : string)
| CallPostMessage (channel text : string)
| CallUpdateCell (sheet : handle) (r c : nat) (v : string)
| CallAppendRow (sheet : handle) (values : list string).

(** How the process ends: [sys.exit(code)] (or the end of the script, code
    0), or an exception nobody catches. *)
Inductive status := Exit (code : nat) | Uncaught.

Record state := {
  book : workbook;
  out : list event;
  updates_made : nat
}.

Record result := {
  res_status : status;
  res_state : state
}.

Definition emit (e : event) (st : state) : state :=
  {| book := book st; out := out st ++ [e]; updates_made := updates_made st |}.

Definition set_book (wb : workbook) (st : state) : state :=
  {| book := wb; out := out st; updates_made := updates_made st |}.

Definition count_one (st : state) : state :=
  {| book := book st; out := out st; updates_made := S (updates_made st) |}.

(** [die(msg)] *)
Definition die (msg : event) (st : state) : result :=
  {| res_status := Exit 1; res_state := emit msg st |}.

(** "Ensure Processed sheet exists": the archive worksheet, created with its
    header row when there is none of that title. *)
Definition open_archive (cfg : Config) (wb : workbook) : workbook * handle :=
  match wb_worksheet (PROCESSED_SHEET cfg) wb with
  | Some h => (wb, h)
  | None =>
      let '(wb', h) := wb_add_worksheet (PROCESSED_SHEET cfg) wb in
      (wb_write h [archive_header] wb', h)
  end.

(** [connect_yagmail()] under the [try] of section 4: what is printed and
    whether [yag] is set. *)
Definition setup_email (cfg : Config) (w : World) : list event * bool :=
  if Py.truthy (EMAIL_USER cfg) && Py.truthy (EMAIL_PASS cfg) then
    match smtp_ssl_465 w with
    | None => ([], true)
    | Some e1 =>
        match smtp_starttls_587 w with
        | None => ([PrintSsl465Failed e1], true)
        | Some e => ([PrintSsl465Failed e1; PrintEmailLoginFailed e], false)
        end
    end
  else ([], false).

(** Section 5: whether [slack] is set. *)
Definition setup_slack (cfg : Config) (w : World) : list event * bool :=
  if Py.truthy (SLACK_BOT_TOKEN cfg) && Py.truthy (SLACK_CHANNEL_ID cfg) then
    match slack_sdk w with
    | None => ([], true)
    | Some e => ([PrintSlackUnavailable e], false)
    end
  else ([], false).

(** Section 6: the final value of [use_openai]. *)
Definition setup_openai (cfg : Config) (w : World) : list event * bool :=
  if Py.truthy (OPENAI_API_KEY cfg) then
    match openai_sdk w with
    | None => ([], true)
    | Some e => ([PrintOpenAIUnavailable e], false)
    end
  else ([], false).

Definition emit_all (es : list event) (st : state) : state :=
  {| book := book st; out := out st ++ es; updates_made := updates_made st |}.

(** [s.replace(old, new)] where [old] is a single character. *)
Fixpoint replace_with (old : ascii) (new : string) (s : string) : string :=
  match s with
  | EmptyString => EmptyString
  | String c r =>
      if Ascii.eqb c old then new +:+ replace_with old new r
      else String c (replace_with old new r)
  end.

Definition dquote : string := String "034"%char EmptyString.
Definition nl : string := String newline EmptyString.

(** The dash of the subject line, U+2014.  It lies outside the code points
    below 256 of the strings of this file and stands here as the three
    bytes of its UTF-8 text; nothing below depends on the length of a text
    that holds it. *)
Definition em_dash : string := "—".

Definition email_subject (urgency name : string) : string :=
  "New Patient Inquiry " +:+ em_dash +:+ " " +:+ Py.or_else urgency "Unknown"
  +:+ " " +:+ em_dash +:+ " " +:+ Py.or_else name "Unknown".

Definition email_body (name email urgency ai_json timestamp symptoms : string)
  : string :=
  nl +:+ "    <h3>New Patient Inquiry</h3>" +:+ nl
  +:+ "    <b>Name:</b> " +:+ Py.or_else name "-" +:+ "<br>" +:+ nl
  +:+ "    <b>Email:</b> " +:+ Py.or_else email "-" +:+ "<br>" +:+ nl
  +:+ "    <b>Reported Urgency:</b> " +:+ Py.or_else urgency "-"
  +:+ "<br><br>" +:+ nl
  +:+ "    <b>AI Summary (JSON):</b><br><pre style=" +:+ dquote
  +:+ "white-space:pre-wrap;" +:+ dquote +:+ ">" +:+ ai_json +:+ "</pre>" +:+ nl
  +:+ "    <hr>" +:+ nl
  +:+ "    <small>Timestamp: " +:+ Py.or_else timestamp "-" +:+ "</small><br>"
  +:+ nl
  +:+ "    <small>Raw Symptoms: "
  +:+ replace_with ">"%char "&gt;"
        (replace_with "<"%char "&lt;" (Py.or_else symptoms "-"))
  +:+ "</small>" +:+ nl +:+ "    ".

Definition slack_text (subject timestamp name email ai_json : string) : string :=
  "*" +:+ subject +:+ "*" +:+ nl +:+ timestamp +:+ nl +:+ name +:+ " <"
  +:+ email +:+ ">" +:+ nl +:+ "```" +:+ ai_json +:+ "```".

Section Run.
Context {J : JsonLib}.
Variable cfg : Config.
Variable w : World.

(** [slack_notify(text)] for the row labelled [idx]. *)
Definition slack_notify (slack : bool) (idx : nat) (text : string)
    (st : state) : state :=
  if slack then
    let st := emit (CallPostMessage (SLACK_CHANNEL_ID cfg) text) st in
    match chat_postMessage w idx with
    | None => st
    | Some e => emit (PrintSlackSendFailed e) st
    end
  else st.

(** "AI JSON summary": the call to the backend, made when [use_openai]. *)
Definition backend_step (use_openai : bool) (symptoms urgency : string)
    (st : state) : state :=
  if use_openai then emit (CallCompletion symptoms urgency) st else st.

(** "Send email if possible" *)
Definition email_step (yag : bool) (idx : nat) (name subject body : string)
    (st : state) : state :=
  if yag then
    let st := emit (CallSend (EMAIL_USER cfg) subject body) st in
    match yag_send w idx with
    | None => emit (PrintEmailSent (Py.or_else name "(no name)")) st
    | Some e => emit (PrintEmailSendFailed (Py.or_else name "(no name)") e) st
    end
  else emit (PrintSkippingEmail (Py.or_else name "(no name)")) st.

(** "Mark processed in responses sheet (+2 for header and df zero-index)" *)
Definition mark_step (sheet : handle) (processed_col_idx idx : nat)
    (st : state) : state :=
  let st := emit (CallUpdateCell sheet (idx + 2) processed_col_idx "Yes") st in
  match mark_update w idx with
  | None =>
      set_book (wb_write sheet
                  (update_cell (wb_read sheet (book st)) (idx + 2)
                     processed_col_idx "Yes") (book st)) st
  | Some e => emit (PrintCouldNotMark (idx + 2) e) st
  end.

(** "Append to Processed sheet": the [append_row] under its [try]. *)
Definition append_step (processed_ws : handle) (idx : nat)
    (values : list string) (st : state) : state :=
  let st := emit (CallAppendRow processed_ws values) st in
  match archive_append w idx with
  | None =>
      set_book (wb_write processed_ws
                  (append_row (wb_read processed_ws (book st)) values)
                  (book st)) st
  | Some e => emit (PrintCouldNotAppend (PROCESSED_SHEET cfg) e) st
  end.

(** The body of the loop of section 7, for the row [(idx, row)] of the
    frame with the given columns. *)
Definition process_row (columns : list string) (yag slack use_openai : bool)
    (sheet processed_ws : handle) (processed_col_idx : nat)
    (st : state) (r : nat * list string) : state :=
  let '(idx, row) := r in
  let name := Py.strip (row_get columns row "Name") in
  let email := Py.strip (row_get columns row "Email") in
  let symptoms := Py.strip (row_get columns row "Symptoms") in
  let urgency := Py.strip (row_get columns row "Urgency") in
  let timestamp := Py.strip (row_get columns row "Timestamp") in
  let st := backend_step use_openai symptoms urgency st in
  let ai_json := ai_summarize use_openai (completion w idx) symptoms urgency in
  let subject := email_subject urgency name in
  let body := email_body name email urgency ai_json timestamp symptoms in
  let st := email_step yag idx name subject body st in
  let st :=
    slack_notify slack idx (slack_text subject timestamp name email ai_json) st in
  let st := mark_step sheet processed_col_idx idx st in
  let '(summary_text, urgency_final, _) := reparse ai_json urgency in
  let st :=
    append_step processed_ws idx
      [timestamp; name; email; cell_text summary_text;
       cell_text urgency_final; "Processed"] st in
  count_one st.

(** "Ensure a 'Processed' column exists (both sheet & df)": the state and the
    frame afterwards, or the state in which [ensure_column] or the second
    [get_all_records] raises. *)
Definition ensure_processed (sheet : handle) (st : state) (df : DataFrame)
  : state + (state * DataFrame) :=
  if bool_decide ("Processed" ∈ df_columns df) then inr (st, df)
  else
    let '(ws', found) := ensure_column (wb_read sheet (book st)) "Processed" in
    let st := set_book (wb_write sheet ws' (book st)) st in
    match found with
    | None => inl st
    | Some _ =>
        if records_raise (wb_read sheet (book st)) then inl st
        else inr (st, load_df (wb_read sheet (book st)))
    end.

(** Sections 2 (from "Ensure Processed sheet exists") and 3 of the script, run
    on the opened workbook: the way the run ends there, or the state, the
    archive worksheet and the frame of unprocessed rows it goes on with. *)
Definition select (wb : workbook) : result + (state * handle * DataFrame) :=
  let sheet := Sheet1 in
  let '(wb, processed_ws) := open_archive cfg wb in
  let st := {| book := wb; out := []; updates_made := 0 |} in
  if records_raise (wb_read sheet wb) then
    inl {| res_status := Uncaught; res_state := st |}
  else
  let df := load_df (wb_read sheet wb) in
  if df_empty df then
    inl {| res_status := Exit 0; res_state := emit PrintSheetEmpty st |}
  else
  match ensure_processed sheet st df with
  | inl st => inl {| res_status := Uncaught; res_state := st |}
  | inr (st, df) =>
  let df := {| df_columns := normalize_columns (df_columns df);
               df_rows := df_rows df |} in
  let missing := missing_cols (df_columns df) in
  match missing with
  | _ :: _ =>
      inl (die (DieMissingColumns missing)
             (emit (PrintColumnsPresent (df_columns df)) st))
  | [] =>
  (* Unprocessed rows *)
  match new_rows_df df with
  | None => inl {| res_status := Uncaught; res_state := st |}
  | Some new_rows =>
  if df_empty new_rows then
    inl {| res_status := Exit 0; res_state := emit PrintNoNewInquiries st |}
  else inr (st, processed_ws, new_rows)
  end
  end
  end.

(** Sections 4 to 7 of the script. *)
Definition process (st : state) (processed_ws : handle)
    (new_rows : DataFrame) : result :=
  let sheet := Sheet1 in
  let '(printed, yag) := setup_email cfg w in
  let st := emit_all printed st in
  let '(printed, slack) := setup_slack cfg w in
  let st := emit_all printed st in
  let '(printed, use_openai) := setup_openai cfg w in
  let st := emit_all printed st in
  let '(ws', found) := ensure_column (wb_read sheet (book st)) "Processed" in
  let st := set_book (wb_write sheet ws' (book st)) st in
  match found with
  | None => {| res_status := Uncaught; res_state := st |}
  | Some processed_col_idx =>
      let st :=
        foldl (process_row (df_columns new_rows) yag slack use_openai sheet
                 processed_ws processed_col_idx) st (df_rows new_rows) in
      {| res_status := Exit 0;
         res_state := emit (PrintAllProcessed (updates_made st)) st |}
  end.

(** The script on the opened workbook. *)
Definition script (wb : workbook) : result :=
  match select wb with
  | inl r => r
  | inr (st, processed_ws, new_rows) => process st processed_ws new_rows
  end.

(** Sections 1 and 2 of the script up to the opened workbook: the message
    of the [die] that ends the run with exit code 1, or the workbook on
    which [script] then runs. *)
Definition startup : event + workbook :=
  if negb (Py.truthy (SPREADSHEET_ID cfg) || Py.truthy (SPREADSHEET_NAME cfg))
  then inl DieNoLocator
  else if negb (creds_json_exists w) then inl DieNoCreds
  else
    match open_spreadsheet w with
    | inl e =>
        inl (DieCannotOpen (Py.or_else (SPREADSHEET_ID cfg) "None")
               (Py.or_else (SPREADSHEET_NAME cfg) "None") e)
    | inr wb => inr wb
    end.

End Run.

(** ** A JSON library with integer numbers

    An instance of [JsonLib]: the writer follows [json.dumps] with
    [ensure_ascii=False] (separators [", "] and [": "], the short escapes,
    [\u00XX] for the other control characters); the reader accepts JSON
    text whose numbers are integers. *)

Module MiniJson.

Definition backslash : ascii := "\"%char.
Definition quote : ascii := "034"%char.

Definition hex_digit (n : N) : ascii :=
  if (n <? 10)%N then ascii_of_N (48 + n) else ascii_of_N (87 + n).

Definition hex_value (c : ascii) : option N :=
  let n := N_of_ascii c in
  if ((48 <=? n) && (n <=? 57))%N then Some (n - 48)%N
  else if ((97 <=? n) && (n <=? 102))%N then Some (n - 87)%N
  else if ((65 <=? n) && (n <=? 70))%N then Some (n - 55)%N
  else None.

(** The escape sequence of one character of a string. *)
Definition escape_char (c : ascii) : string :=
  let n := N_of_ascii c in
  if Ascii.eqb c quote then String backslash (String quote EmptyString)
  else if Ascii.eqb c backslash then String backslash (String backslash EmptyString)
  else if (n =? 10)%N then String backslash "n"
  else if (n =? 13)%N then String backslash "r"
  else if (n =? 9)%N then String backslash "t"
  else if (n =? 8)%N then String backslash "b"
  else if (n =? 12)%N then String backslash "f"
  else if (n <? 32)%N then
    String backslash
      (String "u" (String "0" (String "0"
         (String (hex_digit (n / 16)) (String (hex_digit (n mod 16))
            EmptyString)))))
  else String c EmptyString.

Fixpoint escape (s : string) : string :=
  match s with
  | EmptyString => EmptyString
  | String c r => escape_char c +:+ escape r
  end.

Definition dumps_string (s : string) : string :=
  String quote (escape s +:+ String quote EmptyString).

Definition dumps_int (z : Z) : string :=
  NilEmpty.string_of_int (Z.to_int z).

(** The items of a list or dict, joined with [", "] and closed. *)
Definition join_items {A} (pr : A -> string) (close : string)
  : list A -> string :=
  fix go (l : list A) : string :=
    match l with
    | [] => close
    | [x] => pr x +:+ close
    | x :: rest => pr x +:+ ", " +:+ go rest
    end.

(** [json.dumps] *)
Fixpoint dumps (v : json Z) : string :=
  match v with
  | JNull => "null"
  | JBool true => "true"
  | JBool false => "false"
  | JNum z => dumps_int z
  | JStr s => dumps_string s
  | JArr items => "[" +:+ join_items dumps "]" items
  | JObj items =>
      "{" +:+
      join_items (fun kv => dumps_string kv.1 +:+ ": " +:+ dumps kv.2) "}" items
  end.

Definition is_ws (c : ascii) : bool :=
  let n := N_of_ascii c in
  ((n =? 32) || (n =? 9) || (n =? 10) || (n =? 13))%N.

Fixpoint skip_ws (s : string) : string :=
  match s with
  | String c r => if is_ws c then skip_ws r else s
  | EmptyString => EmptyString
  end.

Definition is_digit (c : ascii) : bool :=
  let n := N_of_ascii c in ((48 <=? n) && (n <=? 57))%N.

(** The longest prefix of digits, and the rest. *)
Fixpoint span_digits (s : string) : string * string :=
  match s with
  | String c r =>
      if is_digit c then
        let '(ds, rest) := span_digits r in (String c ds, rest)
      else (EmptyString, s)
  | EmptyString => (EmptyString, EmptyString)
  end.

(** The character an escape letter stands for. *)
Definition unescape (e : ascii) : option ascii :=
  let n := N_of_ascii e in
  if Ascii.eqb e quote then Some quote
  else if Ascii.eqb e backslash then Some backslash
  else if Ascii.eqb e "/" then Some "/"%char
  else if Ascii.eqb e "n" then Some "010"%char
  else if Ascii.eqb e "r" then Some "013"%char
  else if Ascii.eqb e "t" then Some "009"%char
  else if Ascii.eqb e "b" then Some "008"%char
  else if Ascii.eqb e "f" then Some "012"%char
  else None.

Definition hex4 (a b c d : ascii) : option N :=
  x ← hex_value a; y ← hex_value b; z ← hex_value c; t ← hex_value d;
  Some (((x * 16 + y) * 16 + z) * 16 + t)%N.

(** The characters of a string after its opening quote, up to the closing
    quote, and the text after it. *)
Fixpoint parse_chars (s : string) : option (string * string) :=
  match s with
  | EmptyString => None
  | String c r =>
      if Ascii.eqb c quote then Some (EmptyString, r)
      else if Ascii.eqb c backslash then
        match r with
        | EmptyString => None
        | String e r1 =>
            if Ascii.eqb e "u" then
              match r1 with
              | String a (String b (String c2 (String d r2))) =>
                  n ← hex4 a b c2 d;
                  if (n <? 256)%N then
                    '(t, rest) ← parse_chars r2;
                    Some (String (ascii_of_N n) t, rest)
                  else None
              | _ => None
              end
            else
              ch ← unescape e;
              '(t, rest) ← parse_chars r1;
              Some (String ch t, rest)
        end
      else if (N_of_ascii c <? 32)%N then None
      else
        '(t, rest) ← parse_chars r;
        Some (String c t, rest)
  end.

(** Digits that start with a zero and go on. *)
Definition leading_zero (ds : string) : bool :=
  match ds with
  | String c (String _ _) => Ascii.eqb c "0"
  | _ => false
  end.

(** Digits that do not start with a zero that another digit follows. *)
Definition plain_digits (d : Decimal.uint) : Prop :=
  match d with
  | Decimal.D0 Decimal.Nil => True
  | Decimal.D0 _ => False
  | _ => True
  end.

(** An integer: an optional minus sign and at least one digit, with no zero
    in front of another digit. *)
Definition parse_int (s : string) : option (Z * string) :=
  match s with
  | String c r =>
      if Ascii.eqb c "-" then
        let '(ds, rest) := span_digits r in
        match ds with
        | EmptyString => None
        | _ => if leading_zero ds then None
               else d ← NilEmpty.uint_of_string ds;
                    Some (Z.of_int (Decimal.Neg d), rest)
        end
      else
        let '(ds, rest) := span_digits s in
        match ds with
        | EmptyString => None
        | _ => if leading_zero ds then None
               else d ← NilEmpty.uint_of_string ds;
                    Some (Z.of_int (Decimal.Pos d), rest)
        end
  | EmptyString => None
  end.

(** [d[k] = v] on the items of a [dict]: a key that is there keeps its place
    and takes the new value, another key goes to the end. *)
Fixpoint dict_set {A} (k : string) (v : A) (d : list (string * A))
  : list (string * A) :=
  match d with
  | [] => [(k, v)]
  | (k', v') :: rest =>
      if String.eqb k' k then (k', v) :: rest
      else (k', v') :: dict_set k v rest
  end.

(** The [dict] built from the members of an object in the order of the
    text. *)
Definition dict_of {A} (members : list (string * A)) : list (string * A) :=
  foldl (fun d kv => dict_set (fst kv) (snd kv) d) [] members.

(** [p] removed from the front of [s]. *)
Fixpoint strip_prefix (p s : string) : option string :=
  match p, s with
  | EmptyString, _ => Some s
  | String a p', String b s' =>
      if Ascii.eqb a b then strip_prefix p' s' else None
  | _, _ => None
  end.

(** One value at the front of [s], and the text after it. *)
Fixpoint parse_value (fuel : nat) (s : string) : option (json Z * string) :=
  match fuel with
  | 0 => None
  | S fuel =>
      match skip_ws s with
      | EmptyString => None
      | String c r =>
          if Ascii.eqb c quote then
            '(t, rest) ← parse_chars r; Some (JStr t, rest)
          else if Ascii.eqb c "[" then
            match skip_ws r with
            | String c1 r1 =>
                if Ascii.eqb c1 "]" then Some (JArr [], r1)
                else '(items, rest) ← parse_items fuel r;
                     Some (JArr items, rest)
            | EmptyString => None
            end
          else if Ascii.eqb c "{" then
            match skip_ws r with
            | String c1 r1 =>
                if Ascii.eqb c1 "}" then Some (JObj [], r1)
                else '(members, rest) ← parse_members fuel r;
                     Some (JObj (dict_of members), rest)
            | EmptyString => None
            end
          else if Ascii.eqb c "n" then
            rest ← strip_prefix "ull" r; Some (JNull, rest)
          else if Ascii.eqb c "t" then
            rest ← strip_prefix "rue" r; Some (JBool true, rest)
          else if Ascii.eqb c "f" then
            rest ← strip_prefix "alse" r; Some (JBool false, rest)
          else
            '(z, rest) ← parse_int (String c r); Some (JNum z, rest)
      end
  end
with parse_items (fuel : nat) (s : string)
  : option (list (json Z) * string) :=
  match fuel with
  | 0 => None
  | S fuel =>
      '(v, rest) ← parse_value fuel s;
      match skip_ws rest with
      | String c r =>
          if Ascii.eqb c "," then
            '(vs, rest') ← parse_items fuel r; Some (v :: vs, rest')
          else if Ascii.eqb c "]" then Some ([v], r)
          else None
      | EmptyString => None
      end
  end
with parse_members (fuel : nat) (s : string)
  : option (list (string * json Z) * string) :=
  match fuel with
  | 0 => None
  | S fuel =>
      match skip_ws s with
      | String q r =>
          if Ascii.eqb q quote then
            '(k, rest) ← parse_chars r;
            match skip_ws rest with
            | String c1 r1 =>
                if Ascii.eqb c1 ":" then
                  '(v, rest1) ← parse_value fuel r1;
                  match skip_ws rest1 with
                  | String c2 r2 =>
                      if Ascii.eqb c2 "," then
                        '(kvs, rest2) ← parse_members fuel r2;
                        Some ((k, v) :: kvs, rest2)
                      else if Ascii.eqb c2 "}" then Some ([(k, v)], r2)
                      else None
                  | EmptyString => None
                  end
                else None
            | EmptyString => None
            end
          else None
      | EmptyString => None
      end
  end.

(** [json.loads] on the texts whose numbers are integers: one value and
    nothing but white space after it.  A text with a fraction or an exponent
    is not read ([None], where Python returns a [float]). *)
Definition loads (s : string) : option (json Z) :=
  '(v, rest) ← parse_value (S (String.length s)) s;
  match skip_ws rest with
  | EmptyString => Some v
  | _ => None
  end.

(** The text does not go on with a digit. *)
Definition no_digit_ahead (s : string) : Prop :=
  match s with
  | String c _ => is_digit c = false
  | EmptyString => True
  end.

(** The reader returns [v] from the text of [v], whatever follows it. *)
Definition reads_back (v : json Z) : Prop :=
  forall rest fuel,
    no_digit_ahead rest -> String.length (dumps v) <= fuel ->
    parse_value fuel (dumps v +:+ rest) = Some (v, rest).

#[export] Instance lib : JsonLib := {|
  number := Z;
  number_truthy := fun z => negb (Z.eqb z 0);
  json_loads := loads;
  json_dumps := dumps
|}.

End MiniJson.

(** ** Notions used to state the properties *)

(** [h] is the spelling [v] up to the case of its letters and to white space
    around it. *)
Definition variant_of (h v : string) : Prop :=
  exists pre body post,
    h = pre +:+ body +:+ post /\
    Py.all_chars Py.isspace pre = true /\
    Py.all_chars Py.isspace post = true /\
    Py.lower body = Py.lower v.

(** The headers supply the canonical field of an entry of [aliases]: under
    its canonical name, or under a variant of one of its spellings. *)
Definition resolved (columns : list string) (entry : string * list string)
  : Prop :=
  entry.1 ∈ columns \/
  exists h v, h ∈ columns /\ v ∈ entry.2 /\ variant_of h v.

(** The spelling at position [j] of [variants] is the earliest one of which
    the headers hold a variant. *)
Definition earliest_present (columns variants : list string) (j : nat)
    (v : string) : Prop :=
  variants !! j = Some v /\
  (exists h, h ∈ columns /\ variant_of h v) /\
  forall j' v' h, j' < j -> variants !! j' = Some v' -> h ∈ columns ->
    ~ variant_of h v'.

(** The cell of column [j] (counted from 0) set to [v] in a row. *)
Definition set_cell (j : nat) (v : string) (cells : list string) : list string :=
  <[j := v]> (pad_to (S j) "" cells).

(** The frame in which [Processed] has been set to ["Yes"] on every row
    whose label is in [labels]. *)
Definition mark_rows (df : DataFrame) (labels : list nat) : DataFrame :=
  match index_of "Processed" (df_columns df) with
  | Some j =>
      {| df_columns := df_columns df;
         df_rows := map (fun r => if bool_decide (r.1 ∈ labels)
                                  then (r.1, set_cell j "Yes" r.2) else r)
                      (df_rows df) |}
  | None => df
  end.

(** The cell at row [r] and column [c] of a worksheet, both counted from 1. *)
Definition cell_at (ws : worksheet) (r c : nat) : string :=
  nth (pred c) (nth (pred r) ws []) "".

(** The source worksheet has no record: no row after the header row. *)
Definition no_data_rows (ws : worksheet) : Prop := tail ws = [].

(** The source worksheet holds a record: some row after the header row holds
    a value. *)
Definition has_records (ws : worksheet) : Prop :=
  exists cells, cells ∈ tail ws /\ blank_row cells = false.

(** A step of the run that only adds [es] to the output and [n] to the
    counter, whatever the state. *)
Definition appends (f : state -> state) (es : list event) (n : nat) : Prop :=
  forall st, out (f st) = out st ++ es /\
             updates_made (f st) = updates_made st + n.

Definition blank_state : state :=
  {| book := {| wb_sheet1 := ("", []); wb_others := [] |};
     out := []; updates_made := 0 |}.

Section RowEvents.
Context {J : JsonLib}.

(** What the loop prints and calls for one row. *)
Definition row_events (cfg : Config) (w : World) (columns : list string)
    (yag slack use_openai : bool) (sheet processed_ws : handle)
    (processed_col_idx : nat) (r : nat * list string) : list event :=
  out (process_row cfg w columns yag slack use_openai sheet processed_ws
         processed_col_idx blank_state r).

(** The events of one row in a run with the given settings and world. *)
Definition run_row_events (cfg : Config) (w : World) (sel : DataFrame)
    (processed_ws : handle) (processed_col_idx : nat) (r : nat * list string)
  : list event :=
  row_events cfg w (df_columns sel) (setup_email cfg w).2 (setup_slack cfg w).2
    (setup_openai cfg w).2 Sheet1 processed_ws processed_col_idx r.

(** The values the loop appends to the archive for one row. *)
Definition archive_values (w : World) (columns : list string)
    (use_openai : bool) (r : nat * list string) : list string :=
  let name := Py.strip (row_get columns r.2 "Name") in
  let email := Py.strip (row_get columns r.2 "Email") in
  let symptoms := Py.strip (row_get columns r.2 "Symptoms") in
  let urgency := Py.strip (row_get columns r.2 "Urgency") in
  let timestamp := Py.strip (row_get columns r.2 "Timestamp") in
  let ai_json := ai_summarize use_openai (completion w r.1) symptoms urgency in
  [timestamp; name; email; cell_text (reparse ai_json urgency).1.1;
   cell_text (reparse ai_json urgency).1.2; "Processed"].

End RowEvents.

(** What the two writes of one row do to the workbook. *)
Definition ledger_step (w : World) (sheet processed_ws : handle)
    (processed_col_idx idx : nat) (values : list string) (b : workbook)
  : workbook :=
  let b1 :=
    match mark_update w idx with
    | None =>
        wb_write sheet
          (update_cell (wb_read sheet b) (idx + 2) processed_col_idx "Yes") b
    | Some _ => b
    end in
  match archive_append w idx with
  | None => wb_write processed_ws (append_row (wb_read processed_ws b1) values) b1
  | Some _ => b1
  end.

(** The calls that write the processed mark. *)
Definition is_update_call (e : event) : bool :=
  match e with
  | CallUpdateCell _ _ _ _ => true
  | _ => false
  end.

(** The reports of a write that failed in the loop. *)
Definition is_write_failure (e : event) : bool :=
  match e with
  | PrintCouldNotMark _ _ | PrintCouldNotAppend _ _ => true
  | _ => false
  end.

(** The reports the loop owes for the writes that fail, row by row. *)
Definition write_failures (cfg : Config) (w : World)
    (rows : list (nat * list string)) : list event :=
  flat_map (fun r =>
              match mark_update w r.1 with
              | Some e => [PrintCouldNotMark (r.1 + 2) e]
              | None => []
              end ++
              match archive_append w r.1 with
              | Some e => [PrintCouldNotAppend (PROCESSED_SHEET cfg) e]
              | None => []
              end) rows.

(** The row position a report names, if it names one. *)
Definition reported_row (e : event) : option nat :=
  match e with
  | PrintCouldNotMark row _ => Some row
  | _ => None
  end.

(** Two runs differ at most in their notification channels. *)
Definition same_ledger_side (cfg cfg' : Config) (w w' : World) : Prop :=
  PROCESSED_SHEET cfg = PROCESSED_SHEET cfg' /\
  OPENAI_API_KEY cfg = OPENAI_API_KEY cfg' /\
  openai_sdk w = openai_sdk w' /\
  (forall i, completion w i = completion w' i) /\
  (forall i, mark_update w i = mark_update w' i) /\
  (forall i, archive_append w i = archive_append w' i).

(** The workbook a run on the opened workbook leaves behind. *)
Definition book_after {J : JsonLib} (cfg : Config) (w : World)
    (wb : workbook) : workbook :=
  book (res_state (script cfg w wb)).

(** ** Sample runs *)

Module Sample.

(** No summarization backend, no e-mail account, no chat credential. *)
Definition cfg : Config := {|
  OPENAI_API_KEY := ""; EMAIL_USER := ""; EMAIL_PASS := "";
  SPREADSHEET_ID := "1AbCDef"; SPREADSHEET_NAME := "";
  PROCESSED_SHEET := "Processed";
  SLACK_BOT_TOKEN := ""; SLACK_CHANNEL_ID := "" |}.

(** Every channel and the backend configured. *)
Definition cfg_full : Config := {|
  OPENAI_API_KEY := "sk-test"; EMAIL_USER := "clinic@example.org";
  EMAIL_PASS := "secret";
  SPREADSHEET_ID := "1AbCDef"; SPREADSHEET_NAME := "";
  PROCESSED_SHEET := "Processed";
  SLACK_BOT_TOKEN := "xoxb-test"; SLACK_CHANNEL_ID := "C0123456789" |}.

(** A world in which every call succeeds; the backend answers with text
    that is not JSON. *)
Definition calm : World := {|
  creds_json_exists := true;
  open_spreadsheet := inl "not opened";
  smtp_ssl_465 := None; smtp_starttls_587 := None;
  slack_sdk := None; openai_sdk := None;
  completion := fun _ => BackendReturns [Some " oops"];
  yag_send := fun _ => None;
  chat_postMessage := fun _ => None;
  mark_update := fun _ => None;
  archive_append := fun _ => None |}.

(** A world in which both notification channels and both writes fail. *)
Definition stormy : World := {|
  creds_json_exists := true;
  open_spreadsheet := inl "not opened";
  smtp_ssl_465 := Some "timed out"; smtp_starttls_587 := None;
  slack_sdk := None; openai_sdk := None;
  completion := fun _ => BackendRaises "rate limit";
  yag_send := fun _ => Some "relay refused";
  chat_postMessage := fun _ => Some "channel_not_found";
  mark_update := fun _ => Some "quota";
  archive_append := fun _ => Some "quota" |}.

(** The backend configured, no e-mail account, no chat credential. *)
Definition cfg_muted : Config := {|
  OPENAI_API_KEY := "sk-test"; EMAIL_USER := ""; EMAIL_PASS := "";
  SPREADSHEET_ID := "1AbCDef"; SPREADSHEET_NAME := "";
  PROCESSED_SHEET := "Processed";
  SLACK_BOT_TOKEN := ""; SLACK_CHANNEL_ID := "" |}.

(** The world of [calm] with a mail relay and a chat service that fail. *)
Definition noisy : World := {|
  creds_json_exists := true;
  open_spreadsheet := inl "not opened";
  smtp_ssl_465 := Some "timed out"; smtp_starttls_587 := Some "refused";
  slack_sdk := Some "No module named 'slack_sdk'"; openai_sdk := None;
  completion := fun _ => BackendReturns [Some " oops"];
  yag_send := fun _ => Some "relay refused";
  chat_postMessage := fun _ => Some "channel_not_found";
  mark_update := fun _ => None;
  archive_append := fun _ => None |}.


Definition one_row : workbook := {|
  wb_sheet1 :=
    ("Form Responses 1",
     [["Timestamp"; "Name"; "Email"; "Symptoms"; "Urgency"; "Processed"];
      ["T1"; "Jo"; "jo@x.com"; "fever for 3 days"; "High"; ""]]);
  wb_others := [] |}.

(** Variant headers, no [Processed] column, the first row handled before. *)
Definition two_rows : workbook := {|
  wb_sheet1 :=
    ("Form Responses 1",
     [["Date"; " Full Name"; "E-MAIL"; "Message"; "Priority"];
      ["T0"; "Al"; "al@x.com"; "cough"; "Low"];
      ["T1"; "Jo"; "jo@x.com"; "fever for 3 days"; "High"]]);
  wb_others := [] |}.

Definition second_row_new : workbook := {|
  wb_sheet1 :=
    ("Form Responses 1",
     [["Timestamp"; "Name"; "Email"; "Symptoms"; "Urgency"; "Processed"];
      ["T0"; "Al"; "al@x.com"; "cough"; "Low"; "Yes"];
      ["T1"; "Jo"; "jo@x.com"; "fever for 3 days"; "High"; ""]]);
  wb_others := [("Processed", [archive_header])] |}.

Definition frame : DataFrame :=
  {| df_columns := ["Name"; "Processed"];
     df_rows := [(0, ["Al"; "Yes"]); (1, ["Jo"; ""]); (2, ["Di"; "yes"])] |}.

Definition variant_headers : list string :=
  ["Date"; " Full Name"; "E-MAIL"; "Message"; "Priority"].


(** Two headers that are variants of the same spelling. *)
Definition twice_spelled : list string := [" email"; "Name"; "EMAIL"].

(** Two header cells with the same text above one record. *)
Definition repeated_header : workbook := {|
  wb_sheet1 :=
    ("Form Responses 1",
     [["Name"; "Email"; "Name"]; ["Jo"; "jo@x.com"; "J."]]);
  wb_others := [] |}.

(** A record two cells longer than the header row. *)
Definition long_record : workbook := {|
  wb_sheet1 :=
    ("Form Responses 1", [["Name"]; ["Jo"; "jo@x.com"; "fever"]]);
  wb_others := [] |}.

(** An empty header row above one record. *)
Definition blank_header : workbook := {|
  wb_sheet1 := ("Form Responses 1", [[]; ["Jo"]]);
  wb_others := [] |}.

(** Rows without a value after the header row. *)
Definition blank_rows : workbook := {|
  wb_sheet1 := ("Form Responses 1", [["Name"; "Email"]; []; [""; ""]]);
  wb_others := [] |}.

(** Symptoms of 250 characters with a line break after the first word. *)
Definition long_symptoms : string :=
  "fever" +:+
  String newline (string_of_list_ascii (replicate 244 "x"%char)).

(** An answer of 700 characters that is not JSON. *)
Definition long_answer : string :=
  string_of_list_ascii (replicate 700 "z"%char).

(** An answer of the expected structure. *)
Definition structured_answer : string :=
  MiniJson.dumps
    (JObj [("summary", JStr " mild fever "); ("urgency", JStr "High");
           ("keywords", JArr [JStr "fever"])]).

(** A first worksheet that carries the title of the archive. *)
Definition same_sheet : workbook := {|
  wb_sheet1 :=
    ("Processed",
     [["Timestamp"; "Name"; "Email"; "Symptoms"; "Urgency"; "Processed"];
      ["T1"; "Jo"; "jo@x.com"; "fever for 3 days"; "High"; ""]]);
  wb_others := [] |}.

End Sample.

(** * Properties *)


(** * Strings *)

Lemma isspace_lower_char c : Py.isspace (Py.lower_char c) = Py.isspace c.
Proof. destruct c as [[] [] [] [] [] [] [] []]; reflexivity. Qed.

Lemma app_String c a b : String c a +:+ b = String c (a +:+ b).
Proof. reflexivity. Qed.

Lemma lower_app a b : Py.lower (a +:+ b) = Py.lower a +:+ Py.lower b.
Proof. induction a as [|c a IH]; simpl; [done | by rewrite IH]. Qed.

Lemma all_space_lower s :
  Py.all_chars Py.isspace (Py.lower s) = Py.all_chars Py.isspace s.
Proof.
  induction s as [|c s IH]; simpl; [done |].
  by rewrite isspace_lower_char, IH.
Qed.

Lemma lstrip_space_app pre s :
  Py.all_chars Py.isspace pre = true -> Py.lstrip (pre +:+ s) = Py.lstrip s.
Proof.
  induction pre as [|c pre IH]; simpl; [done |].
  intros [Hc Hpre]%andb_true_iff. rewrite Hc. auto.
Qed.

Lemma rstrip_all_space post :
  Py.all_chars Py.isspace post = true -> Py.rstrip post = EmptyString.
Proof.
  induction post as [|c post IH]; simpl; [done |].
  intros [Hc Hpost]%andb_true_iff. rewrite (IH Hpost). by rewrite Hc.
Qed.

Lemma rstrip_app_space s post :
  Py.all_chars Py.isspace post = true -> Py.rstrip (s +:+ post) = Py.rstrip s.
Proof.
  intros Hpost. induction s as [|c s IH]; simpl.
  - by apply rstrip_all_space.
  - by rewrite IH.
Qed.

Lemma lstrip_all_space s :
  Py.all_chars Py.isspace s = true -> Py.lstrip s = EmptyString.
Proof.
  induction s as [|c s IH]; simpl; [done |].
  intros [Hc Hs]%andb_true_iff. rewrite Hc. auto.
Qed.

Lemma all_chars_app p a b :
  Py.all_chars p (a +:+ b) = Py.all_chars p a && Py.all_chars p b.
Proof. induction a as [|c a IH]; simpl; [done |]. by rewrite IH, andb_assoc. Qed.

Lemma strip_app_space s post :
  Py.all_chars Py.isspace post = true -> Py.strip (s +:+ post) = Py.strip s.
Proof.
  intros Hpost. unfold Py.strip. induction s as [|c s IH]; simpl.
  - by rewrite lstrip_all_space.
  - destruct (Py.isspace c); [done |].
    change (String c (s +:+ post)) with (String c s +:+ post).
    by apply rstrip_app_space.
Qed.

Lemma strip_space_app pre s :
  Py.all_chars Py.isspace pre = true -> Py.strip (pre +:+ s) = Py.strip s.
Proof. intros H. unfold Py.strip. by rewrite lstrip_space_app. Qed.

Lemma variant_norm h v : variant_of h v -> norm h = norm v.
Proof.
  intros (pre & body & post & -> & Hpre & Hpost & Hbody).
  unfold norm. rewrite !lower_app, Hbody.
  rewrite strip_space_app by by rewrite all_space_lower.
  apply strip_app_space. by rewrite all_space_lower.
Qed.

(** Every string is its stripped part between two runs of white space. *)
Lemma lstrip_split s :
  exists pre, s = pre +:+ Py.lstrip s /\ Py.all_chars Py.isspace pre = true.
Proof.
  induction s as [|c s (pre & Hs & Hpre)]; simpl.
  - by exists EmptyString.
  - destruct (Py.isspace c) eqn:Hc.
    + exists (String c pre). simpl. rewrite Hc, Hpre. split; [| done].
      change (String c s = String c (pre +:+ Py.lstrip s)). by f_equal.
    + by exists EmptyString.
Qed.

Lemma rstrip_split s :
  exists post, s = Py.rstrip s +:+ post /\ Py.all_chars Py.isspace post = true.
Proof.
  induction s as [|c s (post & Hs & Hpost)]; simpl.
  - by exists EmptyString.
  - destruct (Py.rstrip s) eqn:Hr.
    + destruct (Py.isspace c) eqn:Hc.
      * exists (String c post). simpl in *. subst s. simpl. by rewrite Hc, Hpost.
      * exists post. simpl in *. by subst s.
    + exists post. split; [| done]. rewrite app_String. by f_equal.
Qed.

Lemma strip_split s :
  exists pre post, s = pre +:+ Py.strip s +:+ post /\
    Py.all_chars Py.isspace pre = true /\ Py.all_chars Py.isspace post = true.
Proof.
  destruct (lstrip_split s) as (pre & Hs & Hpre).
  destruct (rstrip_split (Py.lstrip s)) as (post & Hl & Hpost).
  exists pre, post. unfold Py.strip. by rewrite <- Hl.
Qed.

Lemma lower_app_inv s a b :
  Py.lower s = a +:+ b ->
  exists a' b', s = a' +:+ b' /\ Py.lower a' = a /\ Py.lower b' = b.
Proof.
  revert s. induction a as [|c a IH]; intros s Hs; simpl in *.
  - by exists EmptyString, s.
  - destruct s as [|d s]; simpl in Hs; [done |].
    injection Hs as Hd Hs. destruct (IH _ Hs) as (a' & b' & -> & Ha & Hb).
    exists (String d a'), b'. simpl. by rewrite Hd, Ha.
Qed.

Lemma norm_variant h v :
  norm v = Py.lower v -> norm h = norm v -> variant_of h v.
Proof.
  intros Hv Hh. rewrite Hv in Hh. unfold norm in Hh.
  destruct (strip_split (Py.lower h)) as (w1 & w2 & Hl & Hw1 & Hw2).
  rewrite Hh in Hl.
  destruct (lower_app_inv _ _ _ Hl) as (pre & r & -> & Hpre & Hr).
  destruct (lower_app_inv _ _ _ Hr) as (body & post & -> & Hbody & Hpost).
  exists pre, body, post. split; [done |].
  subst w1 w2. rewrite all_space_lower in Hw1, Hw2. done.
Qed.


(** * Header normalizer *)

Lemma norm_empty_inv_lookup (columns : list string) k src :
  lower_map columns !! k = Some src -> src ∈ columns /\ norm src = k.
Proof.
  unfold lower_map. induction columns as [|c columns IH] using rev_ind.
  - simpl. by rewrite lookup_empty.
  - rewrite foldl_snoc. destruct (decide (norm c = k)) as [<-|Hne].
    + rewrite lookup_insert_eq. intros [= <-]. split; [| done].
      apply elem_of_app. right. by apply list_elem_of_singleton.
    + rewrite lookup_insert_ne by done. intros H. destruct (IH H) as [H1 H2].
      split; [| done]. apply elem_of_app. by left.
Qed.

Lemma lower_map_is_Some (columns : list string) h :
  h ∈ columns -> is_Some (lower_map columns !! norm h).
Proof.
  unfold lower_map. induction columns as [|c columns IH] using rev_ind.
  - by intros ?%elem_of_nil.
  - rewrite foldl_snoc. intros [Hin| ->%list_elem_of_singleton]%elem_of_app.
    + destruct (decide (norm c = norm h)) as [->|Hne].
      * rewrite lookup_insert_eq. eauto.
      * rewrite lookup_insert_ne by done. auto.
    + rewrite lookup_insert_eq. eauto.
Qed.

(** The map remembers, for each key, the last column with that key. *)
Lemma lower_map_last (columns : list string) k src :
  lower_map columns !! k = Some src ->
  exists l1 l2, columns = l1 ++ src :: l2 /\ forall h, h ∈ l2 -> norm h <> k.
Proof.
  unfold lower_map. induction columns as [|c columns IH] using rev_ind.
  - simpl. by rewrite lookup_empty.
  - rewrite foldl_snoc. destruct (decide (norm c = k)) as [<-|Hne].
    + rewrite lookup_insert_eq. intros [= <-]. exists columns, [].
      split; [done |]. by intros h ?%elem_of_nil.
    + rewrite lookup_insert_ne by done. intros H.
      destruct (IH H) as (l1 & l2 & -> & Hl2).
      exists l1, (l2 ++ [c]). split; [by rewrite <- app_assoc |].
      intros h [?| ->%list_elem_of_singleton]%elem_of_app; auto.
Qed.

Lemma find_src_Some lm vs src :
  find_src lm vs = Some src ->
  exists j v, vs !! j = Some v /\ lm !! norm v = Some src /\ src <> EmptyString /\
    forall j' v', j' < j -> vs !! j' = Some v' ->
      lm !! norm v' = None \/ lm !! norm v' = Some EmptyString.
Proof.
  induction vs as [|v vs IH]; simpl; [done |].
  destruct (lm !! norm v) as [s|] eqn:Hv.
  - destruct s as [|a s]; simpl.
    + intros H. destruct (IH H) as (j & v0 & Hj & Hl & Hne & Hbefore).
      exists (S j), v0. repeat split; try done.
      intros [|j'] v' Hlt; simpl.
      * intros [= <-]. by right.
      * apply Hbefore. lia.
    + intros [= <-]. exists 0, v. repeat split; try done. intros; lia.
  - intros H. destruct (IH H) as (j & v0 & Hj & Hl & Hne & Hbefore).
    exists (S j), v0. repeat split; try done.
    intros [|j'] v' Hlt; simpl.
    + intros [= <-]. by left.
    + apply Hbefore. lia.
Qed.

Lemma find_src_None lm vs v :
  find_src lm vs = None -> v ∈ vs ->
  lm !! norm v = None \/ lm !! norm v = Some EmptyString.
Proof.
  induction vs as [|v0 vs IH]; simpl; [by intros _ ?%elem_of_nil |].
  intros Hf [->|Hin]%elem_of_cons;
    destruct (lm !! norm v0) as [[|a s]|]; simpl in *; auto; done.
Qed.

Lemma same_entry (tbl : list (string * list string)) e1 e2 v1 v2 :
  NoDup (norm <$> mjoin tbl.*2) ->
  e1 ∈ tbl -> e2 ∈ tbl -> v1 ∈ e1.2 -> v2 ∈ e2.2 -> norm v1 = norm v2 ->
  e1 = e2.
Proof.
  induction tbl as [|e tbl IH]; [by intros _ ?%elem_of_nil |].
  simpl. rewrite fmap_app. intros (Hd & Hx & Ht)%NoDup_app.
  intros [->|H1]%elem_of_cons [->|H2]%elem_of_cons Hv1 Hv2 Hn; auto.
  - exfalso. apply (Hx (norm v1)).
    + by apply list_elem_of_fmap_2.
    + rewrite Hn. apply list_elem_of_fmap_2, list_elem_of_join.
      exists e2.2. split; [done |]. by apply list_elem_of_fmap_2.
  - exfalso. apply (Hx (norm v2)).
    + by apply list_elem_of_fmap_2.
    + rewrite <- Hn. apply list_elem_of_fmap_2, list_elem_of_join.
      exists e1.2. split; [done |]. by apply list_elem_of_fmap_2.
Qed.


Lemma nodup_fst_same (t : list (string * list string)) c vs vs' :
  NoDup t.*1 -> (c, vs) ∈ t -> (c, vs') ∈ t -> vs = vs'.
Proof.
  induction t as [|[c0 vs0] t IH]; [by intros _ ?%elem_of_nil |].
  simpl. intros [Hfresh Hnd]%NoDup_cons.
  intros [E1|H1]%elem_of_cons [E2|H2]%elem_of_cons; auto.
  - congruence.
  - exfalso. apply Hfresh. injection E1 as <- <-.
    by apply (list_elem_of_fmap_2 fst _ (c, vs')).
  - exfalso. apply Hfresh. injection E2 as <- <-.
    by apply (list_elem_of_fmap_2 fst _ (c, vs)).
Qed.

Section Table.
Variable tbl : list (string * list string).
Variable columns : list string.

Hypothesis canon_nodup : NoDup tbl.*1.
Hypothesis spellings_nodup : NoDup (norm <$> mjoin tbl.*2).
Hypothesis canon_spelled :
  forall c vs, (c, vs) ∈ tbl -> exists v, vs !! 0 = Some v /\ norm c = norm v.
Hypothesis spellings_plain :
  forall c vs v, (c, vs) ∈ tbl -> v ∈ vs ->
    norm v = Py.lower v /\ norm v <> EmptyString.

Let lm := lower_map columns.

Lemma lm_nonempty c vs v src :
  (c, vs) ∈ tbl -> v ∈ vs -> lm !! norm v = Some src -> src <> EmptyString.
Proof.
  intros He Hv Hl. destruct (norm_empty_inv_lookup _ _ _ Hl) as [_ Hn].
  intros ->. destruct (spellings_plain _ _ _ He Hv) as [_ Hne].
  apply Hne. rewrite <- Hn. reflexivity.
Qed.

Lemma same_canon c vs vs' : (c, vs) ∈ tbl -> (c, vs') ∈ tbl -> vs = vs'.
Proof. by apply nodup_fst_same. Qed.

(** The renames built from a prefix of the table. *)
Lemma renames_prefix pre suf src c :
  tbl = pre ++ suf ->
  foldl (renames_step columns lm) ∅ pre !! src = Some c <->
  (exists vs, (c, vs) ∈ pre /\ (c ∉ columns) /\ find_src lm vs = Some src).
Proof.
  revert suf. induction pre as [|[ce vse] pre IH] using rev_ind; intros suf Htbl.
  - simpl. rewrite lookup_empty. split; [done |].
    by intros (vs & ?%elem_of_nil & _).
  - rewrite foldl_snoc. rewrite <- app_assoc in Htbl. specialize (IH _ Htbl).
    assert (Hin_e : (ce, vse) ∈ tbl).
    { rewrite Htbl. apply elem_of_app. right. apply elem_of_cons. by left. }
    assert (Hpre_in : forall e, e ∈ pre -> e ∈ tbl).
    { intros e He. rewrite Htbl. apply elem_of_app. by left. }
    assert (Hfresh : forall vs, (ce, vs) ∉ pre).
    { intros vs Hvs. rewrite Htbl, fmap_app in canon_nodup.
      apply NoDup_app in canon_nodup as (_ & Hx & _).
      apply (Hx ce).
      - by apply (list_elem_of_fmap_2 fst _ (ce, vs)).
      - simpl. apply elem_of_cons. by left. }
    unfold renames_step at 1. case_bool_decide as Hce.
    + rewrite IH. split.
      * intros (vs & Hvs & Hc & Hf). exists vs. split; [| done].
        apply elem_of_app. by left.
      * intros (vs & [Hvs|[= -> ->]%list_elem_of_singleton]%elem_of_app & Hc & Hf);
          [by exists vs | done].
    + destruct (find_src lm vse) as [s|] eqn:Hs.
      * destruct (decide (s = src)) as [->|Hne].
        -- rewrite lookup_insert_eq. split.
           ++ intros [= <-]. exists vse. split; [| done].
              apply elem_of_app. right. by apply list_elem_of_singleton.
           ++ intros (vs & [Hvs|[= -> ->]%list_elem_of_singleton]%elem_of_app & Hc & Hf);
                [| done].
              exfalso.
              destruct (find_src_Some _ _ _ Hs) as (j1 & v1 & Hj1 & Hl1 & _).
              destruct (find_src_Some _ _ _ Hf) as (j2 & v2 & Hj2 & Hl2 & _).
              apply list_elem_of_lookup_2 in Hj1, Hj2.
              destruct (norm_empty_inv_lookup _ _ _ Hl1) as [_ Hn1].
              destruct (norm_empty_inv_lookup _ _ _ Hl2) as [_ Hn2].
              assert (Heq : (ce, vse) = (c, vs)).
              { apply (same_entry tbl _ _ v1 v2); auto. congruence. }
              injection Heq as -> ->. by apply (Hfresh vs).
        -- rewrite lookup_insert_ne by done. rewrite IH. split.
           ++ intros (vs & Hvs & Hc & Hf). exists vs. split; [| done].
              apply elem_of_app. by left.
           ++ intros (vs & [Hvs|[= -> ->]%list_elem_of_singleton]%elem_of_app & Hc & Hf);
                [by exists vs | congruence].
      * rewrite IH. split.
        -- intros (vs & Hvs & Hc & Hf). exists vs. split; [| done].
           apply elem_of_app. by left.
        -- intros (vs & [Hvs|[= -> ->]%list_elem_of_singleton]%elem_of_app & Hc & Hf);
             [by exists vs | congruence].
Qed.

Lemma renames_lookup src c :
  build_renames_from tbl columns !! src = Some c <->
  (exists vs, (c, vs) ∈ tbl /\ (c ∉ columns) /\ find_src lm vs = Some src).
Proof. apply (renames_prefix tbl []). by rewrite app_nil_r. Qed.

Lemma normalize_rename :
  normalize_from tbl columns =
  rename_columns (build_renames_from tbl columns) columns.
Proof.
  unfold normalize_from. case_bool_decide as He; [| done].
  rewrite He. unfold rename_columns.
  induction columns as [|h t IH]; simpl; [done |].
  rewrite lookup_empty. simpl. f_equal.
  clear -t. induction t as [|h' t IH]; simpl; [done |].
  rewrite lookup_empty. simpl. by f_equal.
Qed.

Lemma normalize_lookup i c :
  normalize_from tbl columns !! i = Some c <->
  (exists h, columns !! i = Some h /\
     default h (build_renames_from tbl columns !! h) = c).
Proof.
  rewrite normalize_rename. unfold rename_columns.
  change (map ?f ?l) with (f <$> l). rewrite list_lookup_fmap.
  destruct (columns !! i) as [h|]; simpl.
  - split; [intros [= <-]; eauto | by intros (h' & [= <-] & <-)].
  - split; [done | by intros (h' & ? & _)].
Qed.

(** A canonical name among the headers is never renamed. *)
Lemma canonical_kept c vs :
  (c, vs) ∈ tbl -> c ∈ columns -> build_renames_from tbl columns !! c = None.
Proof.
  intros He Hc. destruct (build_renames_from tbl columns !! c) as [c'|] eqn:Hr;
    [| done].
  exfalso. apply renames_lookup in Hr as (vs' & He' & Hc' & Hf).
  destruct (find_src_Some _ _ _ Hf) as (j & v' & Hj & Hl & _).
  apply list_elem_of_lookup_2 in Hj.
  destruct (norm_empty_inv_lookup _ _ _ Hl) as [_ Hn].
  destruct (canon_spelled _ _ He) as (v0 & H0 & Hn0).
  apply list_elem_of_lookup_2 in H0.
  assert (Heq : (c, vs) = (c', vs')).
  { apply (same_entry tbl _ _ v0 v'); auto. simpl. congruence. }
  injection Heq as -> ->. done.
Qed.

(** A variant among the headers makes the inner loop find a column. *)
Lemma find_src_present c vs h v :
  (c, vs) ∈ tbl -> h ∈ columns -> v ∈ vs -> variant_of h v ->
  is_Some (find_src lm vs).
Proof.
  intros He Hh Hv Hvar. destruct (find_src lm vs) as [s|] eqn:Hf; [eauto |].
  exfalso. destruct (lower_map_is_Some _ _ Hh) as [s Hs].
  rewrite (variant_norm _ _ Hvar) in Hs.
  destruct (find_src_None _ _ _ Hf Hv) as [Hnone|Hemp].
  - unfold lm in Hnone. congruence.
  - by apply (lm_nonempty _ _ _ _ He Hv Hemp).
Qed.

(** The normalised labels hold a canonical name exactly when the headers
    supply that field. *)
Lemma normalize_resolved c vs :
  (c, vs) ∈ tbl ->
  c ∈ normalize_from tbl columns <-> resolved columns (c, vs).
Proof.
  intros He. split.
  - intros (i & Hi)%list_elem_of_lookup_1.
    apply normalize_lookup in Hi as (h & Hh & Hd).
    apply list_elem_of_lookup_2 in Hh.
    destruct (build_renames_from tbl columns !! h) as [c'|] eqn:Hr; simpl in Hd.
    + subst c'. apply renames_lookup in Hr as (vs' & He' & Hc & Hf).
      rewrite <- (same_canon _ _ _ He He') in Hf.
      destruct (find_src_Some _ _ _ Hf) as (j & v & Hj & Hl & _).
      apply list_elem_of_lookup_2 in Hj.
      destruct (norm_empty_inv_lookup _ _ _ Hl) as [_ Hn].
      right. exists h, v. repeat split; try done.
      apply norm_variant; [| done].
      by destruct (spellings_plain _ _ _ He Hj).
    + subst h. by left.
  - intros [Hc|(h & v & Hh & Hv & Hvar)]; simpl in *.
    + apply list_elem_of_lookup_1 in Hc as Hi. destruct Hi as [i Hi].
      apply (list_elem_of_lookup_2 _ i), normalize_lookup.
      exists c. split; [done |]. by rewrite (canonical_kept _ _ He Hc).
    + destruct (decide (c ∈ columns)) as [Hc|Hc].
      * apply list_elem_of_lookup_1 in Hc as Hi. destruct Hi as [i Hi].
        apply (list_elem_of_lookup_2 _ i), normalize_lookup.
        exists c. split; [done |]. by rewrite (canonical_kept _ _ He Hc).
      * destruct (find_src_present _ _ _ _ He Hh Hv Hvar) as [s Hs].
        destruct (find_src_Some _ _ _ Hs) as (j & v' & Hj & Hl & _).
        destruct (norm_empty_inv_lookup _ _ _ Hl) as [Hin _].
        apply list_elem_of_lookup_1 in Hin as [i Hi].
        apply (list_elem_of_lookup_2 _ i), normalize_lookup.
        exists s. split; [done |].
        assert (Hr : build_renames_from tbl columns !! s = Some c).
        { apply renames_lookup. eauto. }
        by rewrite Hr.
Qed.

(** The column that takes a canonical name is a variant of the earliest
    spelling present, and no other column takes that name. *)
Lemma normalize_chosen c vs j v :
  (c, vs) ∈ tbl -> earliest_present columns vs j v ->
  exists chosen, chosen ∈ columns /\ variant_of chosen v /\
    forall i, normalize_from tbl columns !! i = Some c <->
              columns !! i = Some chosen.
Proof.
  intros He (Hj & (h & Hh & Hvar) & Hearly).
  assert (Hvin : v ∈ vs) by by apply list_elem_of_lookup_2 in Hj.
  destruct (decide (c ∈ columns)) as [Hc|Hc].
  - (* the canonical name itself is a header *)
    destruct (canon_spelled _ _ He) as (v0 & H0 & Hn0).
    assert (Hv0 : v0 ∈ vs) by by apply list_elem_of_lookup_2 in H0.
    assert (Hcv0 : variant_of c v0).
    { apply norm_variant; [| done]. by destruct (spellings_plain _ _ _ He Hv0). }
    assert (j = 0) as ->.
    { destruct j as [|j]; [done |]. exfalso.
      apply (Hearly 0 v0 c); [lia | done | done | done]. }
    assert (v0 = v) as -> by congruence.
    exists c. repeat split; try done.
    + intros (h' & Hh' & Hd)%normalize_lookup.
      destruct (build_renames_from tbl columns !! h') as [c'|] eqn:Hr;
        simpl in Hd; [| congruence].
      subst c'. apply renames_lookup in Hr as (? & _ & Hc' & _). done.
    + intros Hi. apply normalize_lookup. exists c. split; [done |].
      by rewrite (canonical_kept _ _ He Hc).
  - destruct (find_src_present _ _ _ _ He Hh Hvin Hvar) as [s Hs].
    destruct (find_src_Some _ _ _ Hs) as (j1 & v1 & Hj1 & Hl1 & Hne & Hbefore).
    assert (Hv1 : v1 ∈ vs) by by apply list_elem_of_lookup_2 in Hj1.
    destruct (norm_empty_inv_lookup _ _ _ Hl1) as [Hsin Hsn].
    assert (Hsv1 : variant_of s v1).
    { apply norm_variant; [| done]. by destruct (spellings_plain _ _ _ He Hv1). }
    assert (j1 = j) as ->.
    { destruct (Nat.lt_trichotomy j1 j) as [Hlt|[->|Hgt]]; [| done |].
      - exfalso. by apply (Hearly j1 v1 s).
      - exfalso. destruct (Hbefore j v Hgt Hj) as [Hnone|Hemp].
        + destruct (lower_map_is_Some _ _ Hh) as [s' Hs'].
          rewrite (variant_norm _ _ Hvar) in Hs'. unfold lm in Hnone. congruence.
        + by apply (lm_nonempty _ _ _ _ He Hvin Hemp). }
    assert (v1 = v) as -> by congruence.
    assert (Hr : build_renames_from tbl columns !! s = Some c).
    { apply renames_lookup. eauto. }
    exists s. repeat split; try done.
    + intros (h' & Hh' & Hd)%normalize_lookup.
      destruct (build_renames_from tbl columns !! h') as [c'|] eqn:Hr';
        simpl in Hd.
      * subst c'. apply renames_lookup in Hr' as (vs' & He' & _ & Hf').
        rewrite <- (same_canon _ _ _ He He') in Hf'. congruence.
      * subst h'. exfalso. apply Hc. by apply list_elem_of_lookup_2 in Hh'.
    + intros Hi. apply normalize_lookup. exists s. split; [done |].
      by rewrite Hr.
Qed.

End Table.


(** The facts about the table of the script. *)
Lemma aliases_canon_nodup : NoDup aliases.*1.
Proof. apply (bool_decide_unpack _). by vm_compute. Qed.

Lemma aliases_spellings_nodup : NoDup (norm <$> mjoin aliases.*2).
Proof. apply (bool_decide_unpack _). by vm_compute. Qed.

Lemma aliases_canon_spelled c vs :
  (c, vs) ∈ aliases -> exists v, vs !! 0 = Some v /\ norm c = norm v.
Proof.
  assert (H : Forall (fun e => exists v, e.2 !! 0 = Some v /\ norm e.1 = norm v)
                aliases).
  { repeat (constructor; [eexists; split; [reflexivity | by vm_compute] |]).
    constructor. }
  intros Hin. by apply (proj1 (Forall_forall _ _) H (c, vs)).
Qed.

Lemma aliases_spellings_plain c vs v :
  (c, vs) ∈ aliases -> v ∈ vs -> norm v = Py.lower v /\ norm v <> EmptyString.
Proof.
  assert (H : Forall (fun e => Forall (fun v => norm v = Py.lower v /\
                                          norm v <> EmptyString) e.2) aliases).
  { repeat (constructor; [repeat (constructor; [by vm_compute |]); constructor |]).
    constructor. }
  intros Hin Hv. apply (proj1 (Forall_forall _ _) H (c, vs)) in Hin.
  by apply (proj1 (Forall_forall _ _) Hin).
Qed.

Lemma required_cols_aliases : required_cols = aliases.*1.
Proof. reflexivity. Qed.

Lemma required_entry c : c ∈ required_cols <-> exists vs, (c, vs) ∈ aliases.
Proof.
  rewrite required_cols_aliases, list_elem_of_fmap. split.
  - intros ([c' vs] & -> & Hin). by exists vs.
  - intros (vs & Hin). by exists (c, vs).
Qed.

Lemma columns_resolved columns c vs :
  (c, vs) ∈ aliases ->
  c ∈ normalize_columns columns <-> resolved columns (c, vs).
Proof.
  apply (normalize_resolved aliases columns aliases_canon_nodup
           aliases_spellings_nodup aliases_canon_spelled
           aliases_spellings_plain).
Qed.

Lemma missing_cols_spec columns c :
  c ∈ missing_cols columns <-> c ∈ required_cols /\ c ∉ columns.
Proof. unfold missing_cols. rewrite list_elem_of_filter. tauto. Qed.

(** C2.  When the headers hold, for each of the five canonical fields, the
    canonical name or a variant (in the case of its letters and in the white
    space around it) of one of its spellings, every canonical field is among
    the normalised labels and none is missing; and the column that takes a
    canonical name is a variant of the earliest spelling, in the order of the
    list, of which the headers hold a variant. *)
Theorem normalizer_resolves (columns : list string) :
  ((forall entry, entry ∈ aliases -> resolved columns entry) ->
   missing_cols (normalize_columns columns) = [] /\
   forall c, c ∈ required_cols -> c ∈ normalize_columns columns) /\
  (forall c vs j v,
     (c, vs) ∈ aliases -> earliest_present columns vs j v ->
     exists chosen, chosen ∈ columns /\ variant_of chosen v /\
       forall i, normalize_columns columns !! i = Some c <->
                 columns !! i = Some chosen).
Proof.
  split.
  - intros Hall.
    assert (Hreq : forall c, c ∈ required_cols -> c ∈ normalize_columns columns).
    { intros c (vs & Hin)%required_entry. apply (columns_resolved _ _ vs); auto. }
    split; [| done].
    apply elem_of_nil_inv. intros c (Hc & Hn)%missing_cols_spec. auto.
  - intros c vs j v Hin Hearly.
    by apply (normalize_chosen aliases columns aliases_canon_nodup
                aliases_spellings_nodup aliases_canon_spelled
                aliases_spellings_plain c vs j v).
Qed.

Lemma missing_unresolved columns c :
  c ∈ missing_cols (normalize_columns columns) <->
  (exists vs, (c, vs) ∈ aliases /\ ~ resolved columns (c, vs)).
Proof.
  rewrite missing_cols_spec, required_entry. split.
  - intros ((vs & Hin) & Hn). exists vs. split; [done |].
    by rewrite <- columns_resolved.
  - intros (vs & Hin & Hn). split; [eauto |]. by rewrite columns_resolved.
Qed.


(** * Ledger filter *)

Lemma eqb_string_spec (a b : string) : Is_true (String.eqb a b) <-> a = b.
Proof.
  destruct (String.eqb_spec a b) as [->|Hne]; simpl; [tauto |].
  split; [done | by intros ?%Hne].
Qed.

Lemma index_of_lookup x xs j : index_of x xs = Some j -> xs !! j = Some x.
Proof.
  revert j. induction xs as [|y ys IH]; intros j; simpl; [done |].
  destruct (String.eqb_spec y x) as [->|Hne].
  - by intros [= <-].
  - destruct (index_of x ys) as [k|]; simpl; [| done].
    intros [= <-]. simpl. by apply IH.
Qed.

Lemma index_of_first x xs j i y :
  index_of x xs = Some j -> i < j -> xs !! i = Some y -> y <> x.
Proof.
  revert j i. induction xs as [|y0 ys IH]; intros j i; simpl; [done |].
  destruct (String.eqb_spec y0 x) as [->|Hne].
  - intros [= <-]. lia.
  - destruct (index_of x ys) as [k|] eqn:Hk; simpl; [| done].
    intros [= <-] Hlt. destruct i as [|i]; simpl.
    + by intros [= <-].
    + apply (IH k i); [done | lia].
Qed.

Lemma index_of_elem x xs : x ∈ xs -> is_Some (index_of x xs).
Proof.
  induction xs as [|y ys IH]; simpl; [by intros ?%elem_of_nil |].
  intros Hin. destruct (String.eqb_spec y x) as [->|Hne]; [eauto |].
  apply elem_of_cons in Hin as [->|Hin]; [done |].
  destruct (IH Hin) as [k ->]. simpl. eauto.
Qed.

Lemma index_of_None x xs : index_of x xs = None -> x ∉ xs.
Proof.
  intros Hn Hin. apply index_of_elem in Hin as [k Hk]. congruence.
Qed.

Lemma nth_set_cell j v cells : nth j (set_cell j v cells) EmptyString = v.
Proof.
  unfold set_cell, pad_to. apply nth_lookup_Some.
  apply list_lookup_insert_eq.
  rewrite length_app, length_replicate. lia.
Qed.

Lemma filter_none {A} (P : A -> Prop) `{forall x, Decision (P x)} (l : list A) :
  (forall x, x ∈ l -> ~ P x) -> filter P l = [].
Proof.
  intros Hl. apply elem_of_nil_inv. intros x [HP Hin]%list_elem_of_filter.
  by apply (Hl x).
Qed.

Lemma new_rows_df_filter (df : DataFrame) :
  "Processed" ∈ df_columns df ->
  exists j,
    index_of "Processed" (df_columns df) = Some j /\
    new_rows_df df =
      Some {| df_columns := df_columns df;
              df_rows :=
                filter (fun r => row_get (df_columns df) r.2 "Processed" <> "Yes")
                  (df_rows df) |}.
Proof.
  intros Hin. destruct (index_of_elem _ _ Hin) as [j Hj].
  exists j. split; [done |]. unfold new_rows_df. rewrite Hj. do 2 f_equal.
  apply list_filter_iff. intros r. unfold row_get. rewrite Hj.
  by rewrite negb_True, eqb_string_spec.
Qed.

(** C1.  On a frame with a [Processed] column the ledger filter returns, in
    their order, exactly the rows whose [Processed] value is not the string
    ["Yes"]; once [Processed] is set to ["Yes"] on every row it returned, it
    returns no row. *)
Theorem ledger_filter_correct (df : DataFrame) :
  "Processed" ∈ df_columns df ->
  exists sel,
    new_rows_df df = Some sel /\
    df_columns sel = df_columns df /\
    df_rows sel =
      filter (fun r => row_get (df_columns df) r.2 "Processed" <> "Yes")
        (df_rows df) /\
    df_rows sel `sublist_of` df_rows df /\
    exists again,
      new_rows_df (mark_rows df (df_rows sel).*1) = Some again /\
      df_rows again = [].
Proof.
  intros Hin. destruct (new_rows_df_filter df Hin) as (j & Hj & Hsel).
  eexists. split; [exact Hsel |]. cbn [df_columns df_rows].
  split; [done |]. split; [done |]. split; [apply sublist_filter |].
  unfold mark_rows, new_rows_df. rewrite Hj. cbn [df_columns df_rows]. rewrite Hj.
  eexists. split; [reflexivity |]. cbn [df_rows].
  apply filter_none. intros r (r0 & -> & Hr0)%list_elem_of_fmap.
  rewrite negb_True, eqb_string_spec. intros Hne. apply Hne. clear Hne.
  case_bool_decide as Hlab; cbn [snd].
  - apply nth_set_cell.
  - destruct (decide (nth j r0.2 EmptyString = "Yes")) as [Hy|Hn]; [done |].
    exfalso. apply Hlab. apply (list_elem_of_fmap_2 fst).
    apply list_elem_of_filter. split; [| done].
    unfold row_get. by rewrite Hj.
Qed.

(** The comparison is exact: another case or a space around the text is not
    the mark. *)
Example ledger_filter_exact :
  new_rows_df {| df_columns := ["Name"; "Processed"];
                 df_rows := [(0, ["a"; "Yes"]); (1, ["b"; "yes"]);
                             (2, ["c"; " Yes"]); (3, ["d"; "YES"]);
                             (4, ["e"; ""]); (5, ["f"; "Yes"])] |}
  = Some {| df_columns := ["Name"; "Processed"];
            df_rows := [(1, ["b"; "yes"]); (2, ["c"; " Yes"]);
                        (3, ["d"; "YES"]); (4, ["e"; ""])] |}.
Proof. reflexivity. Qed.


(** * Summarizer *)

Lemma slice_to_chars n s :
  list_ascii_of_string (Py.slice_to n s) = take n (list_ascii_of_string s).
Proof.
  revert s. induction n as [|n IH]; intros [|c s]; simpl; try done.
  by rewrite IH.
Qed.

Lemma replace_char_chars old new s :
  list_ascii_of_string (Py.replace_char old new s) =
  map (fun c => if Ascii.eqb c old then new else c) (list_ascii_of_string s).
Proof. induction s as [|c s IH]; simpl; [done | by rewrite IH]. Qed.

Lemma slice_to_length n s :
  String.length (Py.slice_to n s) = Nat.min n (String.length s).
Proof.
  revert s. induction n as [|n IH]; intros [|c s]; simpl; try done.
  by rewrite IH.
Qed.

Lemma slice_to_prefix n s : exists rest, s = Py.slice_to n s +:+ rest.
Proof.
  revert s. induction n as [|n IH]; intros [|c s]; simpl.
  - by exists EmptyString.
  - by exists (String c s).
  - by exists EmptyString.
  - destruct (IH s) as [rest Hrest]. exists rest.
    rewrite app_String. by f_equal.
Qed.

Lemma or_else_cases (a b : string) :
  Py.or_else a b = match a with EmptyString => b | _ => a end.
Proof. by destruct a. Qed.

Lemma setup_openai_no_key cfg w :
  OPENAI_API_KEY cfg = EmptyString -> (setup_openai cfg w).2 = false.
Proof. unfold setup_openai. by intros ->. Qed.

Section SummarizerProps.
Context {J : JsonLib}.

(** C5.  Without a backend key [ai_summarize] returns the text of the
    record whose summary is the template around the first 200 characters of
    the symptoms, each newline replaced by a space, whose urgency is the
    reported one, or ["Unknown"] when that is empty, and whose keywords are
    the empty list. *)
Theorem fallback_summary (cfg : Config) (w : World) (resp : backend_result)
    (symptoms urgency : string) :
  OPENAI_API_KEY cfg = EmptyString ->
  exists trunc,
    ai_summarize (setup_openai cfg w).2 resp symptoms urgency =
      json_dumps
        (JObj [("summary", JStr ("Reported symptoms: " +:+ trunc +:+ "..."));
               ("urgency",
                JStr (match urgency with
                      | EmptyString => "Unknown"
                      | _ => urgency
                      end));
               ("keywords", JArr [])]) /\
    list_ascii_of_string trunc =
      map (fun c => if Ascii.eqb c newline then space else c)
        (take 200 (list_ascii_of_string symptoms)) /\
    String.length trunc = Nat.min 200 (String.length symptoms) /\
    newline ∉ list_ascii_of_string trunc.
Proof.
  intros Hkey. rewrite (setup_openai_no_key _ _ Hkey).
  exists (Py.replace_char newline space (Py.slice_to 200 symptoms)).
  assert (Hsym : Py.or_else symptoms EmptyString = symptoms) by by destruct symptoms.
  split; [| split; [| split]].
  - unfold ai_summarize, summary_record. simpl negb. cbv iota.
    rewrite Hsym, or_else_cases. done.
  - by rewrite replace_char_chars, slice_to_chars.
  - rewrite <- slice_to_length.
    generalize (Py.slice_to 200 symptoms). intros s.
    induction s as [|c s IH]; simpl; [done | by rewrite IH].
  - rewrite replace_char_chars.
    intros (c & Hc & _)%list_elem_of_fmap.
    destruct (Ascii.eqb_spec c newline) as [E|Hne]; [done | congruence].
Qed.

(** The inner [try] of [ai_summarize] gets through exactly on the answers of
    the expected structure. *)
Lemma structured_expected content urgency :
  (expected_structure content ->
   exists items s,
     json_loads content = Some (JObj items) /\
     items_get items "summary" (JStr "") = JStr s /\
     structured content urgency =
       Some (JObj [("summary", JStr (Py.strip s));
                   ("urgency",
                    JStr (Py.strip
                            (match items_get items "urgency" JNull with
                             | JStr (String a u) => String a u
                             | _ => Py.or_else urgency "Unknown"
                             end)));
                   ("keywords", items_get items "keywords" (JArr []))])) /\
  (~ expected_structure content -> structured content urgency = None).
Proof.
  unfold structured, expected_structure. split.
  - intros (items & Hl & (s & Hs) & Hu). exists items, s.
    split; [done |]. split; [done |].
    rewrite Hl. cbn [mbind option_bind json_get]. rewrite Hs.
    cbn [json_strip mbind option_bind].
    destruct (json_truthy (items_get items "urgency" JNull)) eqn:Ht.
    + destruct (Hu eq_refl) as [u Hj]. rewrite Hj in Ht |- *.
      cbn [json_strip mbind option_bind].
      by destruct u.
    + cbn [json_strip mbind option_bind].
      destruct (items_get items "urgency" JNull) as [| | |[|a u]| |]; try done.
  - intros Hn. destruct (json_loads content) as [[| | | | |items]|] eqn:Hl;
      try done.
    cbn [mbind option_bind json_get].
    destruct (items_get items "summary" (JStr "")) as [| | |s| |] eqn:Hs;
      try done.
    cbn [json_strip mbind option_bind].
    destruct (json_truthy (items_get items "urgency" JNull)) eqn:Ht.
    + destruct (items_get items "urgency" JNull) as [| | |u| |] eqn:Hj;
        try done.
      exfalso. apply Hn. exists items. split; [done |]. split; [eauto |].
      intros _. rewrite Hj. eauto.
    + exfalso. apply Hn. exists items. split; [done |]. split; [eauto |].
      intros Ht'. congruence.
Qed.

(** C4, as the script has it.  Every call returns the text of a record with
    a summary, an urgency and keywords.  When the content of the response is
    not of the expected structure, the summary is the first 600 characters
    of the stripped content, the urgency is the reported one, or ["Unknown"]
    when that is empty, and there are no keywords.  When it is of the
    expected structure, the summary is the stripped summary of the answer
    and the keywords are those of the answer. *)
Theorem summarize_total (use_openai : bool) (resp : backend_result)
    (symptoms urgency : string) :
  (exists summary urg keywords,
     ai_summarize use_openai resp symptoms urgency =
       json_dumps (JObj [("summary", JStr summary); ("urgency", JStr urg);
                         ("keywords", keywords)])) /\
  (forall raw more,
     use_openai = true -> resp = BackendReturns (Some raw :: more) ->
     ~ expected_structure (Py.strip raw) ->
     exists summary,
       ai_summarize use_openai resp symptoms urgency =
         json_dumps
           (JObj [("summary", JStr summary);
                  ("urgency",
                   JStr (match urgency with
                         | EmptyString => "Unknown"
                         | _ => urgency
                         end));
                  ("keywords", JArr [])]) /\
       list_ascii_of_string summary =
         take 600 (list_ascii_of_string (Py.strip raw))) /\
  (forall raw more,
     use_openai = true -> resp = BackendReturns (Some raw :: more) ->
     expected_structure (Py.strip raw) ->
     exists items s urg,
       json_loads (Py.strip raw) = Some (JObj items) /\
       items_get items "summary" (JStr "") = JStr s /\
       ai_summarize use_openai resp symptoms urgency =
         json_dumps
           (JObj [("summary", JStr (Py.strip s)); ("urgency", JStr urg);
                  ("keywords", items_get items "keywords" (JArr []))])).
Proof.
  split; [| split].
  - unfold ai_summarize, summary_record. destruct use_openai; simpl; [| eauto].
    destruct resp as [e|[|[raw|] more]]; eauto.
    destruct (structured (Py.strip raw) urgency) as [out|] eqn:Hs; [| eauto].
    unfold structured in Hs.
    destruct (json_loads (Py.strip raw)) as [parsed|]; simpl in Hs; [| done].
    destruct (json_get parsed "summary" (JStr "")) as [s|]; simpl in Hs; [| done].
    destruct (json_strip s) as [summary|]; simpl in Hs; [| done].
    destruct (json_get parsed "urgency" JNull) as [u|]; simpl in Hs; [| done].
    destruct (json_strip _) as [urg|]; simpl in Hs; [| done].
    destruct (json_get parsed "keywords" (JArr [])) as [k|]; simpl in Hs; [| done].
    injection Hs as <-. unfold summary_record. eauto.
  - intros raw more -> -> Hn.
    exists (Py.slice_to 600 (Py.strip raw)). split.
    + unfold ai_summarize. simpl.
      rewrite (proj2 (structured_expected (Py.strip raw) urgency) Hn).
      by rewrite or_else_cases.
    + apply slice_to_chars.
  - intros raw more -> -> He.
    destruct (proj1 (structured_expected (Py.strip raw) urgency) He)
      as (items & s & Hl & Hs & Hst).
    exists items, s. eexists. split; [done |]. split; [done |].
    unfold ai_summarize. simpl. rewrite Hst. reflexivity.
Qed.

Lemma structured_record content urgency out :
  structured content urgency = Some out ->
  exists summary urg items,
    out = summary_record summary urg (items_get items "keywords" (JArr [])) /\
    json_loads content = Some (JObj items).
Proof.
  unfold structured. intros Hs.
  destruct (json_loads content) as [parsed|]; simpl in Hs; [| done].
  destruct parsed as [| | | |?|items]; simpl in Hs; try done.
  destruct (json_strip (items_get items "summary" (JStr ""))) as [summary|];
    simpl in Hs; [| done].
  destruct (json_strip _) as [urg|]; simpl in Hs; [| done].
  injection Hs as <-. eauto.
Qed.

(** The values of a [dict] without equal keys are of that kind too. *)
Lemma dict_like_items_get (items : list (string * json number)) key dflt :
  dict_like (JObj items) = true -> dict_like dflt = true ->
  dict_like (items_get items key dflt) = true.
Proof.
  intros Hd Hdf. cbn [dict_like] in Hd. apply andb_true_iff in Hd as [_ Hd].
  induction items as [|[k v] items IH]; [done |].
  cbn [forallb snd] in Hd. apply andb_true_iff in Hd as [Hv Hd].
  cbn [items_get]. destruct (String.eqb k key); auto.
Qed.

Lemma dict_like_record summary urg (keywords : json number) :
  dict_like keywords = true ->
  dict_like (JObj [("summary", JStr summary); ("urgency", JStr urg);
                   ("keywords", keywords)]) = true.
Proof.
  intros Hk. cbn [dict_like forallb map fst snd]. rewrite Hk.
  rewrite bool_decide_eq_true_2; [done |].
  repeat (apply NoDup_cons; split;
    [intros Hin; repeat (apply elem_of_cons in Hin as [Hin|Hin];
                         [discriminate Hin |]); by apply elem_of_nil in Hin |]).
  apply NoDup_nil_2.
Qed.

Lemma reparse_record summary urg keywords urgency :
  loads_dumps J -> dict_like keywords = true ->
  reparse (json_dumps (summary_record summary urg keywords)) urgency =
  (JStr summary, JStr urg, false).
Proof.
  intros HJ Hk. unfold reparse, summary_record.
  by rewrite (HJ _ (dict_like_record summary urg keywords Hk)).
Qed.

(** C10.  With a [json] module that reads back what it writes and builds
    [dict]s, the text [ai_summarize] returns is always that of an object
    with the keys [summary], [urgency] and [keywords]; the keywords are the
    empty list unless the response was of the expected structure, and then
    they are what the response holds under [keywords] (the empty list when
    it holds nothing); the re-parse before the archive append never takes
    its [except] branch. *)
Theorem summary_text_parses (use_openai : bool) (resp : backend_result)
    (symptoms urgency : string) :
  loads_dumps J -> loads_dict_like J ->
  exists summary urg keywords,
    json_loads (ai_summarize use_openai resp symptoms urgency) =
      Some (JObj [("summary", JStr summary); ("urgency", JStr urg);
                  ("keywords", keywords)]) /\
    (keywords = JArr [] \/
     use_openai = true /\
     exists raw more items,
       resp = BackendReturns (Some raw :: more) /\
       json_loads (Py.strip raw) = Some (JObj items) /\
       expected_structure (Py.strip raw) /\
       keywords = items_get items "keywords" (JArr [])) /\
    reparse (ai_summarize use_openai resp symptoms urgency) urgency =
      (JStr summary, JStr urg, false).
Proof.
  intros HJ HD.
  assert (Hrec : forall s u k, dict_like k = true ->
    json_loads (json_dumps (summary_record s u k)) =
      Some (JObj [("summary", JStr s); ("urgency", JStr u); ("keywords", k)]) /\
    reparse (json_dumps (summary_record s u k)) urgency = (JStr s, JStr u, false)).
  { intros s u k Hk. split; [| by apply reparse_record].
    apply HJ. by apply dict_like_record. }
  assert (Hplain : forall s u,
    exists summary urg keywords,
      json_loads (json_dumps (summary_record s u (JArr []))) =
        Some (JObj [("summary", JStr summary); ("urgency", JStr urg);
                    ("keywords", keywords)]) /\
      (keywords = JArr [] \/
       use_openai = true /\
       exists raw more items,
         resp = BackendReturns (Some raw :: more) /\
         json_loads (Py.strip raw) = Some (JObj items) /\
         expected_structure (Py.strip raw) /\
         keywords = items_get items "keywords" (JArr [])) /\
      reparse (json_dumps (summary_record s u (JArr []))) urgency =
        (JStr summary, JStr urg, false)).
  { intros s u. destruct (Hrec s u (JArr []) eq_refl) as [E1 E2].
    exists s, u, (JArr []). split; [done |]. split; [by left | done]. }
  unfold ai_summarize. destruct use_openai; cbn [negb]; [| apply Hplain].
  destruct resp as [e|[|[raw|] more]]; try apply Hplain.
  cbv zeta.
  destruct (structured (Py.strip raw) urgency) as [rec|] eqn:Hs;
    [| apply Hplain].
  destruct (structured_record _ _ _ Hs) as (summary & urg & items & -> & Hl).
  assert (Hk : dict_like (items_get items "keywords" (JArr [])) = true).
  { apply dict_like_items_get; [| done]. by apply (HD (Py.strip raw)). }
  destruct (Hrec summary urg _ Hk) as [E1 E2].
  exists summary, urg, (items_get items "keywords" (JArr [])).
  split; [done |]. split; [| done].
  right. split; [done |]. exists raw, more, items.
  split; [done |]. split; [done |]. split; [| done].
  destruct (structured_expected (Py.strip raw) urgency) as [_ Hne].
  destruct (json_loads (Py.strip raw)) as [v|] eqn:Hv; [| done].
  injection Hl as ->.
  (* the inner [try] got through, so the answer is of the expected structure *)
  unfold structured in Hs. rewrite Hv in Hs. cbn [mbind option_bind json_get] in Hs.
  exists items. split; [done |].
  destruct (items_get items "summary" (JStr "")) as [| | |s| |] eqn:Hsum;
    try done.
  split; [eauto |]. intros Ht. rewrite Ht in Hs.
  cbn [json_strip mbind option_bind] in Hs.
  destruct (items_get items "urgency" JNull) as [| | |u| |]; try done. eauto.
Qed.

End SummarizerProps.


(** * Worksheets *)

Lemma trim_row_split cells :
  exists k, cells = trim_row cells ++ replicate k EmptyString.
Proof.
  induction cells as [|c cells [k Hk]]; simpl.
  - by exists 0.
  - destruct (trim_row cells) as [|c' t] eqn:Ht.
    + destruct c as [|a c]; simpl.
      * exists (S k). simpl. by f_equal.
      * exists k. by f_equal.
    + exists k. simpl. by f_equal.
Qed.

Lemma trim_row_blank k : trim_row (replicate k EmptyString) = [].
Proof. induction k as [|k IH]; simpl; [done | by rewrite IH]. Qed.

Lemma trim_row_app_ne a b :
  trim_row b <> [] -> trim_row (a ++ b) = a ++ trim_row b.
Proof.
  intros Hb. induction a as [|c a IH]; simpl; [done |].
  rewrite IH. destruct (a ++ trim_row b) eqn:E; [| done].
  by apply app_eq_nil in E as [_ ?].
Qed.

Lemma trim_row_snoc t v k :
  v <> EmptyString ->
  trim_row (t ++ v :: replicate k EmptyString) = t ++ [v].
Proof.
  intros Hv.
  assert (Hb : trim_row (v :: replicate k EmptyString) = [v]).
  { simpl. rewrite trim_row_blank. by destruct v. }
  rewrite trim_row_app_ne; rewrite Hb; done.
Qed.

(** Writing a header in the first free cell of a row adds it to the row's
    values. *)
Lemma trim_row_add cells v :
  v <> EmptyString ->
  trim_row (<[length (trim_row cells) := v]>
              (pad_to (length (trim_row cells) + 1) EmptyString cells)) =
  trim_row cells ++ [v].
Proof.
  intros Hv. destruct (trim_row_split cells) as [k Hk].
  set (t := trim_row cells) in *. clearbody t. subst cells.
  unfold pad_to. rewrite length_app, length_replicate, <- app_assoc.
  rewrite <- replicate_add.
  replace (k + (length t + 1 - (length t + k))) with (S (Nat.pred (Nat.max k 1)))
    by lia.
  simpl. rewrite insert_app_r_alt by lia. rewrite Nat.sub_diag. simpl.
  by apply trim_row_snoc.
Qed.

Lemma index_of_snoc x xs : x ∉ xs -> index_of x (xs ++ [x]) = Some (length xs).
Proof.
  induction xs as [|y ys IH]; simpl; intros Hn.
  - by rewrite String.eqb_refl.
  - destruct (String.eqb_spec y x) as [->|Hne].
    + exfalso. apply Hn. by left.
    + rewrite IH; [done |]. intros ?. apply Hn. by right.
Qed.

Lemma update_cell_head hdr rest c v :
  update_cell (hdr :: rest) 1 c v =
  <[Nat.pred c := v]> (pad_to c EmptyString hdr) :: rest.
Proof.
  unfold update_cell, pad_to. simpl. by rewrite app_nil_r.
Qed.

(** [ensure_column] when the header is there: nothing is written. *)
Lemma ensure_column_present ws name :
  name ∈ row_values ws 1 ->
  exists j, ensure_column ws name = (ws, Some (S j)) /\
            index_of name (row_values ws 1) = Some j.
Proof.
  intros Hin. unfold ensure_column. rewrite bool_decide_eq_true_2 by done.
  destruct (index_of_elem _ _ Hin) as [j Hj]. exists j. by rewrite Hj.
Qed.

(** [ensure_column] when the header is missing: it is written after the last
    header, and no other row changes. *)
Lemma ensure_column_absent hdr rest name :
  name <> EmptyString -> name ∉ trim_row hdr ->
  exists hdr',
    ensure_column (hdr :: rest) name =
      (hdr' :: rest, Some (S (length (trim_row hdr)))) /\
    trim_row hdr' = trim_row hdr ++ [name].
Proof.
  intros Hne Hnin. unfold ensure_column, row_values. simpl nth.
  rewrite bool_decide_eq_false_2 by done.
  rewrite update_cell_head. simpl nth.
  replace (Nat.pred (length (trim_row hdr) + 1)) with (length (trim_row hdr))
    by lia.
  rewrite trim_row_add by done. rewrite index_of_snoc by done.
  eexists. split; [reflexivity |]. by apply trim_row_add.
Qed.

(** Workbooks *)

Lemma wb_write_sheet1_same wb : wb_write Sheet1 (wb_read Sheet1 wb) wb = wb.
Proof. by destruct wb as [[t ws] others]. Qed.

Lemma wb_read_write_sheet1 ws wb : wb_read Sheet1 (wb_write Sheet1 ws wb) = ws.
Proof. done. Qed.

Lemma wb_read_sheet1_write_other i ws wb :
  wb_read Sheet1 (wb_write (Other i) ws wb) = wb_read Sheet1 wb.
Proof. done. Qed.

Lemma wb_others_write_sheet1 ws wb :
  wb_others (wb_write Sheet1 ws wb) = wb_others wb.
Proof. done. Qed.

Lemma open_archive_sheet1 cfg wb :
  wb_sheet1 (open_archive cfg wb).1 = wb_sheet1 wb.
Proof.
  unfold open_archive. destruct (wb_worksheet _ wb); [done |].
  by destruct wb.
Qed.

Lemma open_archive_others cfg wb :
  (is_Some (wb_worksheet (PROCESSED_SHEET cfg) wb) /\
   (open_archive cfg wb).1 = wb) \/
  (wb_worksheet (PROCESSED_SHEET cfg) wb = None /\
   (open_archive cfg wb).1 =
     {| wb_sheet1 := wb_sheet1 wb;
        wb_others := wb_others wb ++ [(PROCESSED_SHEET cfg, [archive_header])] |}).
Proof.
  unfold open_archive. destruct (wb_worksheet _ wb) as [h|] eqn:Hh.
  - left. eauto.
  - right. split; [done |]. destruct wb as [s1 others]. simpl. f_equal.
    apply list_eq. intros k.
    destruct (decide (length others = k)) as [<-|Hne].
    + rewrite list_lookup_alter_eq.
      rewrite !lookup_app_r by lia. rewrite Nat.sub_diag. reflexivity.
    + rewrite list_lookup_alter_ne by done.
      destruct (decide (k < length others)) as [Hlt|Hge].
      * by rewrite !lookup_app_l.
      * rewrite !(proj2 (lookup_ge_None _ _)); [done | |];
          rewrite length_app; simpl; lia.
Qed.

(** The values of a worksheet *)

Lemma blank_row_trim cells : blank_row cells = true <-> trim_row cells = [].
Proof. unfold blank_row. by destruct (trim_row cells). Qed.

Lemma blank_row_false cells : blank_row cells = false <-> trim_row cells <> [].
Proof. unfold blank_row. by destruct (trim_row cells). Qed.

(** The rows left out are rows without a value, after the last row that
    holds one. *)
Lemma used_rows_rest ws :
  exists rest, ws = used_rows ws ++ rest /\
               Forall (fun r => blank_row r = true) rest.
Proof.
  induction ws as [|r rs (rest & Hrs & Hrest)]; [by exists [] |].
  cbn [used_rows]. destruct (used_rows rs) as [|r' rs'] eqn:E.
  - destruct (blank_row r) eqn:Hb.
    + exists (r :: rs). split; [done |]. simpl in Hrs. subst rs. by constructor.
    + exists rest. simpl in *. by subst rs.
  - exists rest. split; [| done]. simpl. by rewrite Hrs at 1.
Qed.

Lemma used_rows_lookup ws i r : used_rows ws !! i = Some r -> ws !! i = Some r.
Proof.
  intros Hi. destruct (used_rows_rest ws) as (rest & Hws & _).
  rewrite Hws. by apply lookup_app_l_Some.
Qed.

Lemma used_rows_nil ws :
  used_rows ws = [] <-> Forall (fun r => blank_row r = true) ws.
Proof.
  induction ws as [|r rs IH]; [done |]. cbn [used_rows]. split.
  - destruct (used_rows rs) eqn:E; [| done].
    destruct (blank_row r) eqn:Hb; [| done]. intros _.
    constructor; [done |]. by apply IH.
  - intros [Hr Hrs]%Forall_cons. rewrite (proj2 IH Hrs). by rewrite Hr.
Qed.

Lemma used_rows_last_cons r rs :
  used_rows rs <> [] -> used_rows (r :: rs) = r :: used_rows rs.
Proof. intros H. cbn [used_rows]. by destruct (used_rows rs). Qed.

Lemma has_records_cons hdr rest :
  has_records (hdr :: rest) <-> used_rows rest <> [].
Proof.
  unfold has_records. cbn [tail]. rewrite used_rows_nil. split.
  - intros (cells & Hin & Hb) Hall.
    apply (proj1 (Forall_forall _ _) Hall) in Hin. congruence.
  - intros Hn. apply not_Forall_Exists in Hn; [| intros x; apply _].
    apply Exists_exists in Hn as (cells & Hin & Hb).
    exists cells. split; [done |]. by apply not_true_is_false.
Qed.

Lemma used_rows_records ws h d data :
  used_rows ws = h :: d :: data -> has_records ws.
Proof.
  destruct ws as [|hdr rest]; [done |]. intros E. apply has_records_cons.
  cbn [used_rows] in E.
  destruct (used_rows rest); [by destruct (blank_row hdr) | done].
Qed.

Lemma has_records_shape ws :
  has_records ws <->
  exists hdr d data rest,
    ws = hdr :: rest /\ used_rows rest = d :: data /\
    used_rows ws = hdr :: d :: data.
Proof.
  destruct ws as [|hdr rest].
  - split; [by intros (c & ?%elem_of_nil & _) | by intros (? & ? & ? & ? & ? & _)].
  - rewrite has_records_cons. split.
    + intros Hn. destruct (used_rows rest) as [|d data] eqn:E; [done |].
      exists hdr, d, data, rest. split; [done |]. split; [done |].
      rewrite used_rows_last_cons; by rewrite E.
    + intros (hdr' & d & data & rest' & [= <- <-] & E & _). by rewrite E.
Qed.

Lemma no_data_no_records ws : no_data_rows ws -> ~ has_records ws.
Proof.
  unfold no_data_rows, has_records. intros -> (c & ?%elem_of_nil & _). done.
Qed.

Lemma sheet_width_cons r rs :
  sheet_width (r :: rs) = Nat.max (length (trim_row r)) (sheet_width rs).
Proof. done. Qed.

Lemma sheet_width_ge ws r : r ∈ ws -> length (trim_row r) <= sheet_width ws.
Proof.
  induction ws as [|r' rs IH]; [by intros ?%elem_of_nil |].
  rewrite sheet_width_cons. intros [->|Hin]%elem_of_cons; [lia |].
  specialize (IH Hin). lia.
Qed.

Lemma sheet_width_records ws : has_records ws -> 0 < sheet_width ws.
Proof.
  intros (cells & Hin & Hb). apply blank_row_false in Hb.
  assert (Hc : cells ∈ ws).
  { destruct ws as [|hdr rest]; [by apply elem_of_nil in Hin | by right]. }
  pose proof (sheet_width_ge ws cells Hc).
  destruct (trim_row cells); [done |]. simpl in *. lia.
Qed.

Lemma length_fill_row w cells : length (fill_row w cells) = w.
Proof.
  unfold fill_row, pad_to.
  rewrite length_take, length_app, length_replicate. lia.
Qed.

(** A row filled up to the width: its values, then empty cells. *)
Lemma fill_row_trim w cells :
  length (trim_row cells) <= w ->
  fill_row w cells =
  trim_row cells ++ replicate (w - length (trim_row cells)) EmptyString.
Proof.
  intros Hw. destruct (trim_row_split cells) as [k Hk].
  set (t := trim_row cells) in *. clearbody t. subst cells.
  unfold fill_row, pad_to. rewrite <- app_assoc, <- replicate_add.
  rewrite take_app_ge by lia. f_equal.
  rewrite take_replicate. f_equal.
  rewrite length_app, length_replicate. lia.
Qed.

Lemma length_header_keys ws : length (header_keys ws) = sheet_width ws.
Proof. apply length_fill_row. Qed.

Lemma header_keys_cons hdr rest :
  header_keys (hdr :: rest) =
  trim_row hdr ++
  replicate (sheet_width (hdr :: rest) - length (trim_row hdr)) EmptyString.
Proof.
  unfold header_keys. cbn [nth]. apply fill_row_trim.
  rewrite sheet_width_cons. lia.
Qed.

Lemma header_keys_prefix ws : row_values ws 1 `prefix_of` header_keys ws.
Proof.
  destruct ws as [|hdr rest].
  - unfold row_values, header_keys. simpl. apply prefix_nil.
  - rewrite header_keys_cons. unfold row_values. cbn [nth Nat.pred].
    by apply prefix_app_r.
Qed.

Lemma elem_of_header_keys ws h :
  h <> EmptyString -> h ∈ header_keys ws <-> h ∈ row_values ws 1.
Proof.
  intros Hh. destruct ws as [|hdr rest].
  - unfold row_values, header_keys, fill_row, pad_to. simpl. done.
  - rewrite header_keys_cons. unfold row_values. cbn [nth Nat.pred].
    rewrite elem_of_app. split; [| by left].
    intros [H|H%elem_of_replicate]; [done |]. by destruct H.
Qed.

Lemma index_of_app_l x (l k : list string) j :
  index_of x l = Some j -> index_of x (l ++ k) = Some j.
Proof.
  revert j. induction l as [|y l IH]; intros j; simpl; [done |].
  destruct (String.eqb y x); [done |].
  destruct (index_of x l) as [i|]; [| done].
  intros [= <-]. by rewrite (IH i).
Qed.

Lemma index_of_header_keys ws x j :
  index_of x (row_values ws 1) = Some j ->
  index_of x (header_keys ws) = Some j.
Proof.
  intros Hj. destruct (header_keys_prefix ws) as [k ->].
  by apply index_of_app_l.
Qed.

(** Data frames read from a worksheet *)


Lemma records_raise_no_data ws : no_data_rows ws -> records_raise ws = false.
Proof.
  unfold no_data_rows, records_raise. destruct ws as [|hdr [|d data]]; try done.
  intros _. cbn [used_rows]. by destruct (blank_row hdr).
Qed.

Lemma load_df_records ws :
  has_records ws ->
  exists hdr d data rest,
    ws = hdr :: rest /\ used_rows rest = d :: data /\
    load_df ws =
      {| df_columns := header_keys ws;
         df_rows := imap (fun i cells => (i, fill_row (sheet_width ws) cells))
                      (d :: data) |}.
Proof.
  intros Hr. pose proof Hr as (hdr & d & data & rest & Hws & Hd & Hu)%has_records_shape.
  exists hdr, d, data, rest. split; [done |]. split; [done |].
  unfold load_df. by rewrite Hu.
Qed.

Lemma load_df_empty ws : df_empty (load_df ws) = false <-> has_records ws.
Proof.
  split.
  - intros He. apply has_records_shape. unfold load_df in He.
    destruct ws as [|hdr rest]; [done |].
    destruct (used_rows (hdr :: rest)) as [|h [|d data]] eqn:E; try done.
    exists hdr, d, data, rest. split; [done |].
    cbn [used_rows] in E. destruct (used_rows rest) as [|d' data'] eqn:E'.
    + by destruct (blank_row hdr).
    + by injection E as <- <- <-.
  - intros Hr. destruct (load_df_records ws Hr) as (hdr & d & data & rest & _ & _ & ->).
    unfold df_empty. cbn [df_columns df_rows].
    pose proof (sheet_width_records ws Hr) as Hw.
    pose proof (length_fill_row (sheet_width ws) (nth 0 ws [])) as Hl.
    fold (header_keys ws) in Hl.
    destruct (header_keys ws); [simpl in Hl; lia | done].
Qed.

Lemma records_raise_spec ws :
  records_raise ws = true <-> has_records ws /\ ~ NoDup (header_keys ws).
Proof.
  unfold records_raise. split.
  - intros Hr.
    destruct (used_rows ws) as [|h [|d data]] eqn:E; try done.
    apply negb_true_iff, bool_decide_eq_false in Hr. split; [| done].
    apply load_df_empty. unfold load_df. rewrite E.
    unfold df_empty. cbn [df_columns df_rows].
    assert (Hl : length (header_keys ws) = sheet_width ws)
      by apply length_fill_row.
    assert (Hne : header_keys ws <> []).
    { intros Hk. apply Hr. rewrite Hk. apply NoDup_nil_2. }
    by destruct (header_keys ws).
  - intros [(hdr & d & data & rest & _ & _ & ->)%has_records_shape Hn].
    apply negb_true_iff. by apply bool_decide_eq_false.
Qed.

Lemma records_raise_false ws :
  records_raise ws = false <-> (has_records ws -> NoDup (header_keys ws)).
Proof.
  destruct (records_raise ws) eqn:E.
  - apply records_raise_spec in E as [Hr Hn]. split; [done |].
    intros H. by destruct (Hn (H Hr)).
  - split; [| done]. intros _ Hr.
    destruct (decide (NoDup (header_keys ws))) as [|Hn]; [done |].
    assert (records_raise ws = true) by by apply records_raise_spec.
    congruence.
Qed.

Lemma load_df_not_empty ws :
  df_empty (load_df ws) = false ->
  exists hdr d data, ws = hdr :: d :: data /\ has_records ws.
Proof.
  intros He. pose proof (proj1 (load_df_empty ws) He) as Hr.
  destruct ws as [|hdr [|d data]].
  - by destruct Hr as (c & ?%elem_of_nil & _).
  - by destruct Hr as (c & ?%elem_of_nil & _).
  - by exists hdr, d, data.
Qed.

(** A row of the frame is the sheet row two below its label, filled up to
    the number of columns. *)
Lemma load_df_row ws idx row :
  (idx, row) ∈ df_rows (load_df ws) ->
  exists cells,
    ws !! (S idx) = Some cells /\
    row = take (sheet_width ws) (pad_to (sheet_width ws) EmptyString cells) /\
    length (df_columns (load_df ws)) = sheet_width ws.
Proof.
  intros Hin.
  assert (He : has_records ws).
  { unfold load_df in Hin.
    destruct (used_rows ws) as [|h [|d data]] eqn:E; cbn [df_rows] in Hin;
      try by apply elem_of_nil in Hin.
    by eapply used_rows_records. }
  destruct (load_df_records ws He) as (hdr & d & data & rest & -> & Hd & Hl).
  rewrite Hl in Hin |- *. cbn [df_rows df_columns] in *.
  apply elem_of_lookup_imap in Hin as (i & cells & [= -> ->] & Hi).
  exists cells. split; [| split; [done | apply length_fill_row]].
  cbn [lookup list_lookup]. apply used_rows_lookup. by rewrite Hd.
Qed.


(** * The run up to the selection of the rows *)

Lemma df_columns_load ws :
  df_empty (load_df ws) = false -> df_columns (load_df ws) = header_keys ws.
Proof.
  intros He%load_df_empty.
  by destruct (load_df_records ws He) as (? & ? & ? & ? & _ & _ & ->).
Qed.

Lemma records_raise_empty ws :
  df_empty (load_df ws) = true -> records_raise ws = false.
Proof.
  intros He. apply records_raise_false. intros Hr%load_df_empty. congruence.
Qed.

Lemma blank_not_spelling c vs v :
  (c, vs) ∈ aliases -> v ∈ vs -> norm EmptyString <> norm v.
Proof.
  assert (H : Forall (fun e => Forall (fun v => norm EmptyString <> norm v) e.2)
                aliases).
  { repeat (constructor; [repeat (constructor; [by vm_compute |]); constructor |]).
    constructor. }
  intros Hin Hv. apply (proj1 (Forall_forall _ _) H (c, vs)) in Hin.
  by apply (proj1 (Forall_forall _ _) Hin).
Qed.

Lemma blank_not_canonical c vs : (c, vs) ∈ aliases -> c <> EmptyString.
Proof.
  assert (H : Forall (fun e => e.1 <> EmptyString) aliases).
  { repeat (constructor; [done |]). constructor. }
  intros Hin. by apply (proj1 (Forall_forall _ _) H (c, vs)).
Qed.

(** Empty keys supply no canonical field. *)
Lemma resolved_blank_pad columns k entry :
  entry ∈ aliases ->
  resolved (columns ++ replicate k EmptyString) entry <-> resolved columns entry.
Proof.
  destruct entry as [c vs]. intros Hin. unfold resolved. simpl. split.
  - intros [Hc|(h & v & Hh & Hv & Hvar)].
    + left. apply elem_of_app in Hc as [Hc|[Hc _]%elem_of_replicate]; [done |].
      by destruct (blank_not_canonical _ _ Hin).
    + right. apply elem_of_app in Hh as [Hh|[Hh _]%elem_of_replicate].
      * by exists h, v.
      * subst h. apply variant_norm in Hvar.
        by destruct (blank_not_spelling _ _ _ Hin Hv).
  - intros [Hc|(h & v & Hh & Hv & Hvar)].
    + left. apply elem_of_app. by left.
    + right. exists h, v. split; [| done]. apply elem_of_app. by left.
Qed.

(** The keys of a sheet resolve the fields its header cells resolve. *)
Lemma resolved_header_keys ws entry :
  entry ∈ aliases ->
  resolved (header_keys ws) entry <-> resolved (row_values ws 1) entry.
Proof.
  intros Hin. destruct ws as [|hdr rest].
  - unfold header_keys, row_values, fill_row, pad_to. simpl. done.
  - rewrite header_keys_cons. unfold row_values. cbn [nth Nat.pred].
    by apply resolved_blank_pad.
Qed.

Lemma processed_not_spelling c vs v :
  (c, vs) ∈ aliases -> v ∈ vs -> norm "Processed" <> norm v.
Proof.
  assert (H : Forall (fun e => Forall (fun v => norm "Processed" <> norm v) e.2)
                aliases).
  { repeat (constructor; [repeat (constructor; [by vm_compute |]); constructor |]).
    constructor. }
  intros Hin Hv. apply (proj1 (Forall_forall _ _) H (c, vs)) in Hin.
  by apply (proj1 (Forall_forall _ _) Hin).
Qed.

Lemma processed_not_canonical c vs : (c, vs) ∈ aliases -> c <> "Processed".
Proof.
  assert (H : Forall (fun e => e.1 <> "Processed") aliases).
  { repeat (constructor; [done |]). constructor. }
  intros Hin. by apply (proj1 (Forall_forall _ _) H (c, vs)).
Qed.

(** The [Processed] header supplies no canonical field. *)
Lemma resolved_with_processed columns entry :
  entry ∈ aliases ->
  resolved (columns ++ ["Processed"]) entry <-> resolved columns entry.
Proof.
  destruct entry as [c vs]. intros Hin. unfold resolved. simpl. split.
  - intros [Hc|(h & v & Hh & Hv & Hvar)].
    + left. apply elem_of_app in Hc as [Hc|Hc%list_elem_of_singleton]; [done |].
      by destruct (processed_not_canonical _ _ Hin).
    + right. apply elem_of_app in Hh as [Hh|Hh%list_elem_of_singleton].
      * by exists h, v.
      * subst h. apply variant_norm in Hvar.
        by destruct (processed_not_spelling _ _ _ Hin Hv).
  - intros [Hc|(h & v & Hh & Hv & Hvar)].
    + left. apply elem_of_app. by left.
    + right. exists h, v. split; [| done]. apply elem_of_app. by left.
Qed.

(** The [Processed] column keeps its label and its place. *)
Lemma processed_kept columns i :
  normalize_columns columns !! i = Some "Processed" <->
  columns !! i = Some "Processed".
Proof.
  unfold normalize_columns.
  rewrite (normalize_lookup aliases columns).
  split.
  - intros (h & Hh & Hd).
    destruct (build_renames_from aliases columns !! h) as [c|] eqn:Hr;
      simpl in Hd; [| congruence].
    subst c. exfalso.
    apply (renames_lookup aliases columns aliases_canon_nodup
             aliases_spellings_nodup) in Hr as (vs & Hin & _).
    by destruct (processed_not_canonical _ _ Hin).
  - intros Hi. exists "Processed". split; [done |].
    destruct (build_renames_from aliases columns !! "Processed") as [c|] eqn:Hr;
      [| done].
    exfalso.
    apply (renames_lookup aliases columns aliases_canon_nodup
             aliases_spellings_nodup) in Hr as (vs & Hin & _ & Hf).
    destruct (find_src_Some _ _ _ Hf) as (j & v & Hj & Hl & _).
    apply list_elem_of_lookup_2 in Hj.
    destruct (norm_empty_inv_lookup _ _ _ Hl) as [_ Hn].
    by destruct (processed_not_spelling _ _ _ Hin Hj).
Qed.

Lemma processed_in_normalized columns :
  "Processed" ∈ columns -> "Processed" ∈ normalize_columns columns.
Proof.
  intros [i Hi]%list_elem_of_lookup_1.
  apply (list_elem_of_lookup_2 _ i). by apply processed_kept.
Qed.

Lemma length_normalize columns :
  length (normalize_columns columns) = length columns.
Proof.
  unfold normalize_columns, normalize_from. case_bool_decide; [done |].
  unfold rename_columns. apply length_map.
Qed.

Lemma NoDup_replicate_blank k : NoDup (replicate k EmptyString) -> k <= 1.
Proof.
  destruct k as [|[|k]]; [lia | lia |]. simpl.
  intros [Hn _]%NoDup_cons. destruct Hn. by left.
Qed.

(** The keys after a [Processed] header was added behind distinct keys. *)
Lemma header_keys_added hdr hdr' rest :
  trim_row hdr' = trim_row hdr ++ ["Processed"] ->
  "Processed" ∉ trim_row hdr ->
  NoDup (header_keys (hdr :: rest)) ->
  header_keys (hdr' :: rest) = trim_row hdr ++ ["Processed"] /\
  NoDup (header_keys (hdr' :: rest)).
Proof.
  intros Ht Hp Hn. rewrite header_keys_cons in Hn.
  apply NoDup_app in Hn as (Hn1 & _ & Hk%NoDup_replicate_blank).
  rewrite sheet_width_cons in Hk.
  assert (E : header_keys (hdr' :: rest) = trim_row hdr ++ ["Processed"]).
  { rewrite header_keys_cons, sheet_width_cons, Ht, length_app. simpl.
    replace (_ - _) with 0 by lia. simpl. by rewrite app_nil_r. }
  split; [done |]. rewrite E. apply NoDup_app. split; [done |]. split.
  - intros x Hx ->%list_elem_of_singleton. done.
  - apply NoDup_singleton.
Qed.

(** What "ensure a Processed column" does on a sheet that holds records under
    distinct keys. *)
Lemma ensure_processed_ok st :
  df_empty (load_df (wb_read Sheet1 (book st))) = false ->
  records_raise (wb_read Sheet1 (book st)) = false ->
  exists st',
    ensure_processed Sheet1 st (load_df (wb_read Sheet1 (book st))) =
      inr (st', load_df (wb_read Sheet1 (book st'))) /\
    out st' = out st /\ updates_made st' = updates_made st /\
    wb_others (book st') = wb_others (book st) /\
    (wb_sheet1 (book st')).1 = (wb_sheet1 (book st)).1 /\
    tail (wb_read Sheet1 (book st')) = tail (wb_read Sheet1 (book st)) /\
    df_empty (load_df (wb_read Sheet1 (book st'))) = false /\
    records_raise (wb_read Sheet1 (book st')) = false /\
    "Processed" ∈ row_values (wb_read Sheet1 (book st')) 1 /\
    (st' = st \/
     ("Processed" ∉ row_values (wb_read Sheet1 (book st)) 1) /\
     row_values (wb_read Sheet1 (book st')) 1 =
       row_values (wb_read Sheet1 (book st)) 1 ++ ["Processed"] /\
     header_keys (wb_read Sheet1 (book st')) =
       row_values (wb_read Sheet1 (book st)) 1 ++ ["Processed"]).
Proof.
  intros Hne Hrr. unfold ensure_processed.
  rewrite (df_columns_load _ Hne).
  destruct (load_df_not_empty _ Hne) as (hdr & d & data & Hws & Hrec).
  pose proof (proj1 (records_raise_false _) Hrr Hrec) as Hnd.
  case_bool_decide as Hp.
  - exists st. repeat split; auto.
    by apply elem_of_header_keys in Hp.
  - rewrite elem_of_header_keys in Hp by done.
    rewrite Hws in Hp, Hrec, Hnd |- *.
    unfold row_values in Hp. cbn [nth Nat.pred] in Hp.
    destruct (ensure_column_absent hdr (d :: data) "Processed")
      as (hdr' & -> & Ht); [done | done |].
    cbv beta iota zeta.
    assert (Hrv : row_values (hdr' :: d :: data) 1 = trim_row hdr ++ ["Processed"]).
    { unfold row_values. cbn [nth Nat.pred]. exact Ht. }
    destruct (header_keys_added hdr hdr' (d :: data) Ht Hp Hnd) as [Hk Hnd'].
    assert (Hrec' : has_records (hdr' :: d :: data)).
    { apply has_records_cons. by apply has_records_cons in Hrec. }
    assert (Hrr' : records_raise (hdr' :: d :: data) = false).
    { by apply records_raise_false. }
    cbn [set_book book out updates_made wb_write wb_read wb_sheet1 wb_others
         fst snd].
    rewrite Hrr'.
    exists (set_book (wb_write Sheet1 (hdr' :: d :: data) (book st)) st).
    cbn [set_book book out updates_made wb_write wb_read wb_sheet1 wb_others
         fst snd].
    repeat split; auto.
    + by apply load_df_empty.
    + rewrite Hrv. apply elem_of_app. right. by apply list_elem_of_singleton.
Qed.

Section SelectProps.
Context {J : JsonLib}.

(** The run on a sheet whose records have no distinct keys. *)
Lemma select_raise cfg wb :
  records_raise (wb_sheet1 wb).2 = true ->
  select cfg wb =
    inl {| res_status := Uncaught;
           res_state := {| book := (open_archive cfg wb).1;
                           out := []; updates_made := 0 |} |}.
Proof.
  intros He. unfold select.
  pose proof (open_archive_sheet1 cfg wb) as Hs.
  destruct (open_archive cfg wb) as [wb1 h]. simpl in Hs.
  unfold wb_read. rewrite Hs, He. done.
Qed.

(** The run on a sheet without records. *)
Lemma select_no_data cfg wb :
  df_empty (load_df (wb_sheet1 wb).2) = true ->
  select cfg wb =
    inl {| res_status := Exit 0;
           res_state := {| book := (open_archive cfg wb).1;
                           out := [PrintSheetEmpty]; updates_made := 0 |} |}.
Proof.
  intros He. unfold select.
  pose proof (open_archive_sheet1 cfg wb) as Hs.
  destruct (open_archive cfg wb) as [wb1 h]. simpl in Hs.
  unfold wb_read. rewrite Hs, (records_raise_empty _ He), He. done.
Qed.

(** The run on a sheet with records under distinct keys, up to the
    selection. *)
Lemma select_data cfg wb :
  df_empty (load_df (wb_sheet1 wb).2) = false ->
  records_raise (wb_sheet1 wb).2 = false ->
  exists st1,
    out st1 = [] /\ updates_made st1 = 0 /\
    wb_others (book st1) = wb_others (open_archive cfg wb).1 /\
    (wb_sheet1 (book st1)).1 = (wb_sheet1 wb).1 /\
    tail (wb_read Sheet1 (book st1)) = tail (wb_sheet1 wb).2 /\
    df_empty (load_df (wb_read Sheet1 (book st1))) = false /\
    records_raise (wb_read Sheet1 (book st1)) = false /\
    "Processed" ∈ row_values (wb_read Sheet1 (book st1)) 1 /\
    (wb_read Sheet1 (book st1) = (wb_sheet1 wb).2 \/
     ("Processed" ∉ row_values (wb_sheet1 wb).2 1) /\
     row_values (wb_read Sheet1 (book st1)) 1 =
       row_values (wb_sheet1 wb).2 1 ++ ["Processed"] /\
     header_keys (wb_read Sheet1 (book st1)) =
       row_values (wb_sheet1 wb).2 1 ++ ["Processed"]) /\
    select cfg wb =
      let cols := normalize_columns (header_keys (wb_read Sheet1 (book st1))) in
      match missing_cols cols with
      | _ :: _ =>
          inl (die (DieMissingColumns (missing_cols cols))
                 (emit (PrintColumnsPresent cols) st1))
      | [] =>
          match new_rows_df
                  {| df_columns := cols;
                     df_rows := df_rows (load_df (wb_read Sheet1 (book st1))) |}
          with
          | None => inl {| res_status := Uncaught; res_state := st1 |}
          | Some sel =>
              if df_empty sel then
                inl {| res_status := Exit 0;
                       res_state := emit PrintNoNewInquiries st1 |}
              else inr (st1, (open_archive cfg wb).2, sel)
          end
      end.
Proof.
  intros Hne Hrr. unfold select.
  pose proof (open_archive_sheet1 cfg wb) as Hs.
  destruct (open_archive cfg wb) as [wb1 h]. simpl in Hs.
  set (st0 := {| book := wb1; out := []; updates_made := 0 |}).
  assert (Hrd : wb_read Sheet1 (book st0) = (wb_sheet1 wb).2).
  { simpl. by rewrite Hs. }
  change (wb_read Sheet1 wb1) with (wb_read Sheet1 (book st0)).
  rewrite <- Hrd in Hne, Hrr. rewrite Hrr, Hne.
  destruct (ensure_processed_ok st0 Hne Hrr)
    as (st1 & -> & Ho & Hu & Hot & Ht & Htl & Hne1 & Hrr1 & Hp & Hcase).
  exists st1. rewrite Ho, Hu, Hot, Ht, Htl, Hrd. simpl fst. simpl snd.
  rewrite Hs. repeat split; try done.
  - destruct Hcase as [->|(Hn & Hr & Hk)]; [left | right].
    + done.
    + by rewrite <- Hrd.
  - rewrite (df_columns_load _ Hne1). cbn [df_columns df_rows]. reflexivity.
Qed.

End SelectProps.


(** * Runs that end before the loop *)


Section EarlyExit.
Context {J : JsonLib}.



End EarlyExit.


(** * The loop *)

Lemma appends_comp f g es1 n1 es2 n2 :
  appends f es1 n1 -> appends g es2 n2 ->
  appends (fun st => g (f st)) (es1 ++ es2) (n1 + n2).
Proof.
  intros Hf Hg st. destruct (Hf st) as [Ho Hu]. destruct (Hg (f st)) as [Ho' Hu'].
  rewrite Ho', Hu', Ho, Hu. split; [by rewrite app_assoc | lia].
Qed.

Lemma appends_blank f es n : appends f es n -> out (f blank_state) = es.
Proof. intros Hf. by destruct (Hf blank_state) as [-> _]. Qed.

Lemma appends_ext f g es n :
  (forall st, f st = g st) -> appends g es n -> appends f es n.
Proof. intros Hfg Hg st. rewrite Hfg. apply Hg. Qed.

Lemma emit_appends e : appends (emit e) [e] 0.
Proof. intros st. simpl. split; [done | lia]. Qed.

Lemma count_one_appends : appends count_one [] 1.
Proof. intros st. simpl. split; [by rewrite app_nil_r | lia]. Qed.

Section Loop.
Context {J : JsonLib}.
Variable cfg : Config.
Variable w : World.

Lemma backend_step_appends uo symptoms urgency :
  appends (backend_step uo symptoms urgency)
    (if uo then [CallCompletion symptoms urgency] else []) 0.
Proof.
  intros st. unfold backend_step. destruct uo; simpl;
    (split; [by rewrite ?app_nil_r | lia]).
Qed.

Lemma email_step_appends yag idx name subject body :
  appends (email_step cfg w yag idx name subject body)
    (if yag then
       [CallSend (EMAIL_USER cfg) subject body;
        match yag_send w idx with
        | None => PrintEmailSent (Py.or_else name "(no name)")
        | Some e => PrintEmailSendFailed (Py.or_else name "(no name)") e
        end]
     else [PrintSkippingEmail (Py.or_else name "(no name)")]) 0.
Proof.
  intros st. unfold email_step. destruct yag; [destruct (yag_send w idx) |];
    simpl; (split; [by rewrite <- ?app_assoc | lia]).
Qed.

Lemma slack_notify_appends slack idx text :
  appends (slack_notify cfg w slack idx text)
    (if slack then
       CallPostMessage (SLACK_CHANNEL_ID cfg) text ::
       match chat_postMessage w idx with
       | None => []
       | Some e => [PrintSlackSendFailed e]
       end
     else []) 0.
Proof.
  intros st. unfold slack_notify.
  destruct slack; [destruct (chat_postMessage w idx) |];
    simpl; (split; [by rewrite <- ?app_assoc, ?app_nil_r | lia]).
Qed.

Lemma mark_step_appends sheet pcol idx :
  appends (mark_step w sheet pcol idx)
    (CallUpdateCell sheet (idx + 2) pcol "Yes" ::
     match mark_update w idx with
     | None => []
     | Some e => [PrintCouldNotMark (idx + 2) e]
     end) 0.
Proof.
  intros st. unfold mark_step. destruct (mark_update w idx);
    simpl; (split; [by rewrite <- ?app_assoc | lia]).
Qed.

Lemma append_step_appends h idx values :
  appends (append_step cfg w h idx values)
    (CallAppendRow h values ::
     match archive_append w idx with
     | None => []
     | Some e => [PrintCouldNotAppend (PROCESSED_SHEET cfg) e]
     end) 0.
Proof.
  intros st. unfold append_step. destruct (archive_append w idx);
    simpl; (split; [by rewrite <- ?app_assoc | lia]).
Qed.

(** The events of one row, step by step. *)
Lemma process_row_appends columns yag slack uo sheet h pcol idx row :
  let name := Py.strip (row_get columns row "Name") in
  let email := Py.strip (row_get columns row "Email") in
  let symptoms := Py.strip (row_get columns row "Symptoms") in
  let urgency := Py.strip (row_get columns row "Urgency") in
  let timestamp := Py.strip (row_get columns row "Timestamp") in
  let ai_json := ai_summarize uo (completion w idx) symptoms urgency in
  let subject := email_subject urgency name in
  let body := email_body name email urgency ai_json timestamp symptoms in
  let values :=
    [timestamp; name; email; cell_text (reparse ai_json urgency).1.1;
     cell_text (reparse ai_json urgency).1.2; "Processed"] in
  appends
    (fun st => process_row cfg w columns yag slack uo sheet h pcol st (idx, row))
    ((if uo then [CallCompletion symptoms urgency] else []) ++
     (if yag then
        [CallSend (EMAIL_USER cfg) subject body;
         match yag_send w idx with
         | None => PrintEmailSent (Py.or_else name "(no name)")
         | Some e => PrintEmailSendFailed (Py.or_else name "(no name)") e
         end]
      else [PrintSkippingEmail (Py.or_else name "(no name)")]) ++
     (if slack then
        CallPostMessage (SLACK_CHANNEL_ID cfg)
          (slack_text subject timestamp name email ai_json) ::
        match chat_postMessage w idx with
        | None => []
        | Some e => [PrintSlackSendFailed e]
        end
      else []) ++
     (CallUpdateCell sheet (idx + 2) pcol "Yes" ::
      match mark_update w idx with
      | None => []
      | Some e => [PrintCouldNotMark (idx + 2) e]
      end) ++
     (CallAppendRow h values ::
      match archive_append w idx with
      | None => []
      | Some e => [PrintCouldNotAppend (PROCESSED_SHEET cfg) e]
      end)) 1.
Proof.
  intros name email symptoms urgency timestamp ai_json subject body values.
  apply (appends_ext _ (fun st => count_one (append_step cfg w h idx
      values (mark_step w sheet pcol idx (slack_notify cfg w slack idx
      (slack_text subject timestamp name email ai_json)
      (email_step cfg w yag idx name subject body
      (backend_step uo symptoms urgency st))))))).
  { intros st. unfold process_row. subst values.
    fold name email symptoms urgency timestamp. fold ai_json. fold subject.
    fold body. by destruct (reparse ai_json urgency) as [[s u] b]. }
  pose proof (appends_comp _ _ _ _ _ _ (backend_step_appends uo symptoms urgency)
    (appends_comp _ _ _ _ _ _ (email_step_appends yag idx name subject body)
    (appends_comp _ _ _ _ _ _ (slack_notify_appends slack idx
       (slack_text subject timestamp name email ai_json))
    (appends_comp _ _ _ _ _ _ (mark_step_appends sheet pcol idx)
    (appends_comp _ _ _ _ _ _ (append_step_appends h idx values)
       count_one_appends))))) as H.
  rewrite app_nil_r in H. exact H.
Qed.

Lemma row_events_eq columns yag slack uo sheet h pcol idx row :
  let name := Py.strip (row_get columns row "Name") in
  let email := Py.strip (row_get columns row "Email") in
  let symptoms := Py.strip (row_get columns row "Symptoms") in
  let urgency := Py.strip (row_get columns row "Urgency") in
  let timestamp := Py.strip (row_get columns row "Timestamp") in
  let ai_json := ai_summarize uo (completion w idx) symptoms urgency in
  let subject := email_subject urgency name in
  let body := email_body name email urgency ai_json timestamp symptoms in
  row_events cfg w columns yag slack uo sheet h pcol (idx, row) =
    (if uo then [CallCompletion symptoms urgency] else []) ++
    (if yag then
       [CallSend (EMAIL_USER cfg) subject body;
        match yag_send w idx with
        | None => PrintEmailSent (Py.or_else name "(no name)")
        | Some e => PrintEmailSendFailed (Py.or_else name "(no name)") e
        end]
     else [PrintSkippingEmail (Py.or_else name "(no name)")]) ++
    (if slack then
       CallPostMessage (SLACK_CHANNEL_ID cfg)
         (slack_text subject timestamp name email ai_json) ::
       match chat_postMessage w idx with
       | None => []
       | Some e => [PrintSlackSendFailed e]
       end
     else []) ++
    (CallUpdateCell sheet (idx + 2) pcol "Yes" ::
     match mark_update w idx with
     | None => []
     | Some e => [PrintCouldNotMark (idx + 2) e]
     end) ++
    (CallAppendRow h (archive_values w columns uo (idx, row)) ::
     match archive_append w idx with
     | None => []
     | Some e => [PrintCouldNotAppend (PROCESSED_SHEET cfg) e]
     end).
Proof.
  intros. unfold row_events.
  apply (appends_blank _ _ 1 (process_row_appends columns yag slack uo sheet h
                                pcol idx row)).
Qed.

Lemma process_row_events columns yag slack uo sheet h pcol r :
  appends
    (fun st => process_row cfg w columns yag slack uo sheet h pcol st r)
    (row_events cfg w columns yag slack uo sheet h pcol r) 1.
Proof.
  destruct r as [idx row]. rewrite row_events_eq.
  apply process_row_appends.
Qed.

Lemma loop_appends columns yag slack uo sheet h pcol rows :
  appends
    (fun st => foldl (process_row cfg w columns yag slack uo sheet h pcol) st rows)
    (flat_map (row_events cfg w columns yag slack uo sheet h pcol) rows)
    (length rows).
Proof.
  induction rows as [|r rows IH]; intros st; simpl.
  - split; [by rewrite app_nil_r | lia].
  - destruct (IH (process_row cfg w columns yag slack uo sheet h pcol st r))
      as [-> ->].
    destruct (process_row_events columns yag slack uo sheet h pcol r st)
      as [-> ->].
    split; [by rewrite app_assoc | lia].
Qed.

(** Every row gets both writes attempted, and each channel that is set up
    gets its call, whatever the other calls do. *)
Lemma row_events_mark columns yag slack uo sheet h pcol idx row :
  CallUpdateCell sheet (idx + 2) pcol "Yes"
    ∈ row_events cfg w columns yag slack uo sheet h pcol (idx, row).
Proof.
  rewrite row_events_eq. rewrite !elem_of_app. do 3 right. left.
  apply elem_of_cons. by left.
Qed.

Lemma row_events_append columns yag slack uo sheet h pcol idx row :
  CallAppendRow h (archive_values w columns uo (idx, row))
    ∈ row_events cfg w columns yag slack uo sheet h pcol (idx, row).
Proof.
  rewrite row_events_eq. rewrite !elem_of_app. do 4 right.
  apply elem_of_cons. by left.
Qed.

Lemma row_events_post columns yag uo sheet h pcol idx row :
  exists text,
    CallPostMessage (SLACK_CHANNEL_ID cfg) text
      ∈ row_events cfg w columns yag true uo sheet h pcol (idx, row).
Proof.
  rewrite row_events_eq. eexists. rewrite !elem_of_app. do 2 right. left.
  apply elem_of_cons. by left.
Qed.

Lemma row_events_send columns slack uo sheet h pcol idx row :
  exists subject body,
    CallSend (EMAIL_USER cfg) subject body
      ∈ row_events cfg w columns true slack uo sheet h pcol (idx, row).
Proof.
  rewrite row_events_eq. do 2 eexists. rewrite !elem_of_app. right. left.
  apply elem_of_cons. by left.
Qed.

Lemma row_events_failures columns yag slack uo sheet h pcol idx row :
  filter is_write_failure
    (row_events cfg w columns yag slack uo sheet h pcol (idx, row)) =
  match mark_update w idx with
  | Some e => [PrintCouldNotMark (idx + 2) e]
  | None => []
  end ++
  match archive_append w idx with
  | Some e => [PrintCouldNotAppend (PROCESSED_SHEET cfg) e]
  | None => []
  end.
Proof.
  rewrite row_events_eq. rewrite !filter_app.
  destruct uo, yag, slack, (yag_send w idx), (chat_postMessage w idx),
    (mark_update w idx), (archive_append w idx); reflexivity.
Qed.

Lemma row_events_updates columns yag slack uo sheet h pcol idx row :
  filter is_update_call
    (row_events cfg w columns yag slack uo sheet h pcol (idx, row)) =
  [CallUpdateCell sheet (idx + 2) pcol "Yes"].
Proof.
  rewrite row_events_eq. rewrite !filter_app.
  destruct uo, yag, slack, (yag_send w idx), (chat_postMessage w idx),
    (mark_update w idx), (archive_append w idx); reflexivity.
Qed.

Lemma filter_flat_map {A B} (P : B -> Prop) `{forall x, Decision (P x)}
    (f : A -> list B) (g : A -> list B) (l : list A) :
  (forall x, x ∈ l -> filter P (f x) = g x) ->
  filter P (flat_map f l) = flat_map g l.
Proof.
  induction l as [|x l IH]; intros Hfg; simpl; [done |].
  rewrite filter_app, Hfg, IH; [done | | by left].
  intros y Hy. apply Hfg. by right.
Qed.

End Loop.


(** * The run through the loop *)

Lemma set_book_same st :
  set_book (wb_write Sheet1 (wb_read Sheet1 (book st)) (book st)) st = st.
Proof. by destruct st as [[[t ws] others] o u]. Qed.

Section RunProps.
Context {J : JsonLib}.
Variable cfg : Config.
Variable w : World.

Lemma process_row_book columns yag slack uo sheet h pcol st idx row :
  book (process_row cfg w columns yag slack uo sheet h pcol st (idx, row)) =
  ledger_step w sheet h pcol idx (archive_values w columns uo (idx, row))
    (book st).
Proof.
  unfold process_row, ledger_step, archive_values. cbn [fst snd].
  destruct (reparse _ _) as [[s u] b]. cbn [fst snd].
  unfold append_step, mark_step, slack_notify, email_step, backend_step.
  destruct uo, yag, slack, (yag_send w idx), (chat_postMessage w idx),
    (mark_update w idx), (archive_append w idx); reflexivity.
Qed.

Lemma loop_book columns yag slack uo sheet h pcol rows st :
  book (foldl (process_row cfg w columns yag slack uo sheet h pcol) st rows) =
  foldl (fun b r => ledger_step w sheet h pcol r.1
                      (archive_values w columns uo r) b) (book st) rows.
Proof.
  revert st. induction rows as [|[idx row] rows IH]; intros st; [done |].
  cbn [foldl]. by rewrite IH, process_row_book.
Qed.

(** What the run selected, read off the state it goes on with. *)
Lemma select_inr wb st h sel :
  select cfg wb = inr (st, h, sel) ->
  out st = [] /\ updates_made st = 0 /\
  "Processed" ∈ row_values (wb_read Sheet1 (book st)) 1 /\
  tail (wb_read Sheet1 (book st)) = tail (wb_sheet1 wb).2 /\
  h = (open_archive cfg wb).2 /\
  df_columns sel = normalize_columns (header_keys (wb_read Sheet1 (book st))) /\
  df_rows sel =
    filter (fun r => row_get (df_columns sel) r.2 "Processed" <> "Yes")
      (df_rows (load_df (wb_read Sheet1 (book st)))) /\
  df_rows sel <> [] /\
  missing_cols (df_columns sel) = [] /\
  records_raise (wb_read Sheet1 (book st)) = false /\
  records_raise (wb_sheet1 wb).2 = false.
Proof.
  intros Hsel.
  destruct (records_raise (wb_sheet1 wb).2) eqn:Hrr.
  { rewrite (select_raise cfg wb Hrr) in Hsel. done. }
  destruct (df_empty (load_df (wb_sheet1 wb).2)) eqn:He.
  { rewrite (select_no_data cfg wb He) in Hsel. done. }
  destruct (select_data cfg wb He Hrr)
    as (st1 & Ho & Hu & Hot & Ht & Htl & Hne1 & Hrr1 & Hp & Hcase & Heq).
  rewrite Heq in Hsel. cbv zeta in Hsel.
  set (cols := normalize_columns (header_keys (wb_read Sheet1 (book st1)))) in *.
  destruct (missing_cols cols) as [|m ms] eqn:Hm; [| done].
  set (df := {| df_columns := cols;
                df_rows := df_rows (load_df (wb_read Sheet1 (book st1))) |}) in *.
  assert (Hpc : "Processed" ∈ df_columns df).
  { apply processed_in_normalized. by apply elem_of_header_keys. }
  destruct (new_rows_df_filter df Hpc) as (j & _ & Hn).
  rewrite Hn in Hsel.
  set (sel' := {| df_columns := df_columns df; df_rows := _ |}) in Hsel.
  destruct (df_empty sel') eqn:Hes; [done |].
  injection Hsel as <- <- <-.
  repeat split; try done.
  intros Hnil. unfold df_empty in Hes. rewrite Hnil in Hes.
  by destruct (df_columns sel').
Qed.

(** The run from the selection to its end. *)
Lemma script_loop wb st h sel :
  select cfg wb = inr (st, h, sel) ->
  exists j,
    index_of "Processed" (row_values (wb_read Sheet1 (book st)) 1) = Some j /\
    res_status (script cfg w wb) = Exit 0 /\
    out (res_state (script cfg w wb)) =
      ((setup_email cfg w).1 ++ (setup_slack cfg w).1 ++ (setup_openai cfg w).1)
      ++ flat_map (run_row_events cfg w sel h (S j)) (df_rows sel)
      ++ [PrintAllProcessed (length (df_rows sel))] /\
    updates_made (res_state (script cfg w wb)) = length (df_rows sel) /\
    book (res_state (script cfg w wb)) =
      foldl (fun b r => ledger_step w Sheet1 h (S j) r.1
                          (archive_values w (df_columns sel)
                             (setup_openai cfg w).2 r) b)
        (book st) (df_rows sel).
Proof.
  intros Hsel. destruct (select_inr _ _ _ _ Hsel) as (Ho & Hu & Hp & _).
  unfold script. rewrite Hsel. unfold process, run_row_events.
  destruct (setup_email cfg w) as [pe yag].
  destruct (setup_slack cfg w) as [ps slack].
  destruct (setup_openai cfg w) as [po uo]. cbn [fst snd].
  cbn [emit_all book].
  destruct (ensure_column_present _ _ Hp) as (j & -> & Hj).
  exists j. split; [done |].
  cbn [res_status res_state].
  set (st3 := emit_all po (emit_all ps (emit_all pe st))).
  change (book st) with (book st3). rewrite set_book_same.
  destruct (loop_appends cfg w (df_columns sel) yag slack uo Sheet1 h (S j)
              (df_rows sel) st3) as [Hout Hupd].
  cbn [emit out updates_made book]. rewrite Hout, Hupd, loop_book.
  subst st3. cbn [emit_all out updates_made book]. rewrite Ho, Hu.
  repeat split; try done.
  by rewrite <- !app_assoc.
Qed.

End RunProps.


(** * Cells written by the loop *)

Lemma nth_pad_rows (ws : worksheet) n i : nth i (pad_to n [] ws) [] = nth i ws [].
Proof.
  unfold pad_to. rewrite !nth_lookup.
  destruct (decide (i < length ws)) as [Hlt|Hge].
  - by rewrite lookup_app_l.
  - rewrite lookup_app_r by lia.
    rewrite (proj2 (lookup_ge_None ws i)) by lia.
    destruct (replicate _ _ !! _) as [x|] eqn:Hx; [| done].
    by apply lookup_replicate_1 in Hx as [-> _].
Qed.

Lemma cell_at_update_same ws r c v :
  0 < r -> 0 < c -> cell_at (update_cell ws r c v) r c = v.
Proof.
  intros Hr Hc. unfold cell_at, update_cell.
  assert (Hlen : Nat.pred r < length (pad_to r [] ws)).
  { unfold pad_to. rewrite length_app, length_replicate. lia. }
  destruct (lookup_lt_is_Some_2 _ _ Hlen) as [cells Hcells].
  rewrite (nth_lookup_Some _ _ _ (<[Nat.pred c:=v]> (pad_to c EmptyString cells))).
  - apply nth_lookup_Some, list_lookup_insert_eq.
    unfold pad_to. rewrite length_app, length_replicate. lia.
  - by rewrite list_lookup_alter_eq, Hcells.
Qed.

Lemma cell_at_update_other ws r r' c c' v :
  r <> r' -> 0 < r -> 0 < r' ->
  cell_at (update_cell ws r' c' v) r c = cell_at ws r c.
Proof.
  intros Hne Hr Hr'. unfold cell_at, update_cell. f_equal.
  rewrite nth_lookup, list_lookup_alter_ne by lia.
  rewrite <- nth_lookup. apply nth_pad_rows.
Qed.

Lemma cell_at_update_yes ws r r' c :
  0 < r -> 0 < r' -> 0 < c ->
  cell_at ws r c = "Yes" -> cell_at (update_cell ws r' c "Yes") r c = "Yes".
Proof.
  intros Hr Hr' Hc Hy. destruct (decide (r = r')) as [<-|Hne].
  - by apply cell_at_update_same.
  - by rewrite cell_at_update_other.
Qed.

Lemma cell_at_append ws r c values :
  cell_at ws r c <> EmptyString ->
  cell_at (append_row ws values) r c = cell_at ws r c.
Proof.
  unfold cell_at, append_row. intros Hne.
  destruct (decide (Nat.pred r < length ws)) as [Hlt|Hge].
  - by rewrite app_nth1.
  - exfalso. apply Hne. rewrite (nth_overflow ws) by lia. by destruct (Nat.pred c).
Qed.

Section Cells.
Variable w : World.

Lemma ledger_step_keeps h c idx values b r :
  0 < r -> 0 < c ->
  cell_at (wb_read Sheet1 b) r c = "Yes" ->
  cell_at (wb_read Sheet1 (ledger_step w Sheet1 h c idx values b)) r c = "Yes".
Proof.
  intros Hr Hc Hy. unfold ledger_step.
  set (b1 := match mark_update w idx with
             | None => _ | Some _ => b end).
  assert (H1 : cell_at (wb_read Sheet1 b1) r c = "Yes").
  { subst b1. destruct (mark_update w idx); [done |].
    rewrite wb_read_write_sheet1. apply cell_at_update_yes; auto. lia. }
  clearbody b1. destruct (archive_append w idx); [done |].
  destruct h as [|i].
  - rewrite wb_read_write_sheet1, cell_at_append; [done |]. by rewrite H1.
  - by rewrite wb_read_sheet1_write_other.
Qed.

Lemma ledger_step_marks h c idx values b :
  0 < c -> mark_update w idx = None ->
  cell_at (wb_read Sheet1 (ledger_step w Sheet1 h c idx values b)) (idx + 2) c
  = "Yes".
Proof.
  intros Hc Hm. unfold ledger_step. rewrite Hm.
  set (b1 := wb_write Sheet1 _ b).
  assert (H1 : cell_at (wb_read Sheet1 b1) (idx + 2) c = "Yes").
  { subst b1. rewrite wb_read_write_sheet1. apply cell_at_update_same; lia. }
  clearbody b1. destruct (archive_append w idx); [done |].
  destruct h as [|i].
  - rewrite wb_read_write_sheet1, cell_at_append; [done |]. by rewrite H1.
  - by rewrite wb_read_sheet1_write_other.
Qed.

Lemma ledger_loop_keeps h c (vals : nat * list string -> list string) rows b r :
  0 < r -> 0 < c ->
  cell_at (wb_read Sheet1 b) r c = "Yes" ->
  cell_at (wb_read Sheet1
             (foldl (fun b x => ledger_step w Sheet1 h c x.1 (vals x) b) b rows))
    r c = "Yes".
Proof.
  intros Hr Hc. revert b. induction rows as [|x rows IH]; intros b Hy; [done |].
  cbn [foldl]. apply IH. by apply ledger_step_keeps.
Qed.

Lemma ledger_loop_marks h c (vals : nat * list string -> list string) rows b x :
  0 < c -> x ∈ rows -> mark_update w x.1 = None ->
  cell_at (wb_read Sheet1
             (foldl (fun b x => ledger_step w Sheet1 h c x.1 (vals x) b) b rows))
    (x.1 + 2) c = "Yes".
Proof.
  intros Hc (l1 & l2 & ->)%list_elem_of_split Hm.
  rewrite foldl_app. cbn [foldl].
  apply ledger_loop_keeps; [lia | done |]. by apply ledger_step_marks.
Qed.

End Cells.


(** * The loop: reports, notifications, marks *)

Lemma setup_quiet cfg w :
  filter is_write_failure
    ((setup_email cfg w).1 ++ (setup_slack cfg w).1 ++ (setup_openai cfg w).1)
    = [] /\
  filter is_update_call
    ((setup_email cfg w).1 ++ (setup_slack cfg w).1 ++ (setup_openai cfg w).1)
    = [].
Proof.
  unfold setup_email, setup_slack, setup_openai.
  destruct (Py.truthy (EMAIL_USER cfg) && Py.truthy (EMAIL_PASS cfg)),
    (smtp_ssl_465 w), (smtp_starttls_587 w),
    (Py.truthy (SLACK_BOT_TOKEN cfg) && Py.truthy (SLACK_CHANNEL_ID cfg)),
    (slack_sdk w), (Py.truthy (OPENAI_API_KEY cfg)), (openai_sdk w);
    split; reflexivity.
Qed.

Lemma select_same_sheet cfg cfg' wb :
  PROCESSED_SHEET cfg = PROCESSED_SHEET cfg' -> select cfg wb = select cfg' wb.
Proof. intros H. unfold select, open_archive. by rewrite H. Qed.

Lemma foldl_ext_in {A B} (f g : A -> B -> A) (l : list B) (a : A) :
  (forall a x, x ∈ l -> f a x = g a x) -> foldl f a l = foldl g a l.
Proof.
  revert a. induction l as [|x l IH]; intros a Hfg; [done |].
  cbn [foldl]. rewrite Hfg by by left. apply IH.
  intros a' y Hy. apply Hfg. by right.
Qed.

Section LoopTheorems.
Context {J : JsonLib}.

(** C6, as the script has it.  Once rows are selected the run ends with exit
    code 0 and reports as its count the number of selected rows.  Every
    selected row gets its mark and its archive append attempted, whatever
    failed before.  The reports of failed writes are, row by row: for a mark
    that failed, one report with the sheet row of the row (its label plus
    2); for an append that failed, one report with the name of the archive
    sheet. *)
Theorem write_failures_reported (cfg : Config) (w : World) (wb : workbook)
    (st : state) (h : handle) (sel : DataFrame) :
  select cfg wb = inr (st, h, sel) ->
  exists pcol,
    res_status (script cfg w wb) = Exit 0 /\
    out (res_state (script cfg w wb)) =
      ((setup_email cfg w).1 ++ (setup_slack cfg w).1 ++ (setup_openai cfg w).1)
      ++ flat_map (run_row_events cfg w sel h pcol) (df_rows sel)
      ++ [PrintAllProcessed (length (df_rows sel))] /\
    updates_made (res_state (script cfg w wb)) = length (df_rows sel) /\
    filter is_write_failure (out (res_state (script cfg w wb))) =
      write_failures cfg w (df_rows sel) /\
    forall idx row, (idx, row) ∈ df_rows sel ->
      CallUpdateCell Sheet1 (idx + 2) pcol "Yes"
        ∈ run_row_events cfg w sel h pcol (idx, row) /\
      CallAppendRow h
        (archive_values w (df_columns sel) (setup_openai cfg w).2 (idx, row))
        ∈ run_row_events cfg w sel h pcol (idx, row).
Proof.
  intros Hsel.
  destruct (script_loop cfg w wb st h sel Hsel) as (j & Hj & Hs & Ho & Hu & Hb).
  exists (S j). split; [done |]. split; [done |]. split; [done |]. split.
  - rewrite Ho, filter_app. destruct (setup_quiet cfg w) as [-> _].
    rewrite filter_app. cbn [app]. rewrite app_nil_r. unfold write_failures.
    apply filter_flat_map. intros [idx row] _.
    unfold run_row_events. by rewrite row_events_failures.
  - intros idx row _. unfold run_row_events. split.
    + apply row_events_mark.
    + apply row_events_append.
Qed.

(** C7.  Once rows are selected, whatever the mail relay and the chat
    service do, every selected row gets its mark and its archive append
    attempted; a channel that is set up gets its call for every row,
    whatever the other channel does; and a run that differs only in its
    notification channels ends with the same workbook, the same exit code
    and the same count. *)
Theorem notifications_never_block (cfg : Config) (w : World) (wb : workbook)
    (st : state) (h : handle) (sel : DataFrame) :
  select cfg wb = inr (st, h, sel) ->
  exists pcol,
    res_status (script cfg w wb) = Exit 0 /\
    out (res_state (script cfg w wb)) =
      ((setup_email cfg w).1 ++ (setup_slack cfg w).1 ++ (setup_openai cfg w).1)
      ++ flat_map (run_row_events cfg w sel h pcol) (df_rows sel)
      ++ [PrintAllProcessed (length (df_rows sel))] /\
    (forall idx row, (idx, row) ∈ df_rows sel ->
       CallUpdateCell Sheet1 (idx + 2) pcol "Yes"
         ∈ run_row_events cfg w sel h pcol (idx, row) /\
       CallAppendRow h
         (archive_values w (df_columns sel) (setup_openai cfg w).2 (idx, row))
         ∈ run_row_events cfg w sel h pcol (idx, row) /\
       ((setup_slack cfg w).2 = true ->
        exists text,
          CallPostMessage (SLACK_CHANNEL_ID cfg) text
            ∈ run_row_events cfg w sel h pcol (idx, row)) /\
       ((setup_email cfg w).2 = true ->
        exists subject body,
          CallSend (EMAIL_USER cfg) subject body
            ∈ run_row_events cfg w sel h pcol (idx, row))) /\
    forall cfg' w', same_ledger_side cfg cfg' w w' ->
      res_status (script cfg' w' wb) = Exit 0 /\
      book (res_state (script cfg' w' wb)) = book (res_state (script cfg w wb)) /\
      updates_made (res_state (script cfg' w' wb)) =
        updates_made (res_state (script cfg w wb)).
Proof.
  intros Hsel.
  destruct (script_loop cfg w wb st h sel Hsel) as (j & Hj & Hs & Ho & Hu & Hb).
  exists (S j). split; [done |]. split; [done |]. split.
  - intros idx row _. unfold run_row_events.
    split; [apply row_events_mark |]. split; [apply row_events_append |]. split.
    + intros ->. apply row_events_post.
    + intros ->. apply row_events_send.
  - intros cfg' w' (Hps & Hkey & Hsdk & Hcomp & Hmark & Happ).
    assert (Hsel' : select cfg' wb = inr (st, h, sel)).
    { by rewrite <- (select_same_sheet cfg cfg'). }
    destruct (script_loop cfg' w' wb st h sel Hsel')
      as (j' & Hj' & Hs' & Ho' & Hu' & Hb').
    assert (j' = j) as -> by congruence.
    split; [done |]. split; [| congruence].
    rewrite Hb, Hb'.
    assert (Huo : (setup_openai cfg' w').2 = (setup_openai cfg w).2).
    { unfold setup_openai. by rewrite Hkey, Hsdk. }
    rewrite Huo. apply foldl_ext_in. intros b [idx row] _.
    unfold ledger_step, archive_values. cbn [fst snd].
    by rewrite Hcomp, Hmark, Happ.
Qed.

(** C9.  For every selected row the mark is written at the sheet row that
    is the row's label plus 2, in the column of the [Processed] header; the
    label is the row's position among the data rows of the sheet, so that
    sheet row is the one the row was read from, also when rows before it were
    filtered out; after a write that succeeds the cell there holds
    ["Yes"]. *)
Theorem mark_lands_on_original_row (cfg : Config) (w : World) (wb : workbook)
    (st : state) (h : handle) (sel : DataFrame) :
  select cfg wb = inr (st, h, sel) ->
  exists j,
    index_of "Processed" (row_values (wb_read Sheet1 (book st)) 1) = Some j /\
    filter is_update_call (out (res_state (script cfg w wb))) =
      map (fun r => CallUpdateCell Sheet1 (r.1 + 2) (S j) "Yes") (df_rows sel) /\
    forall idx row, (idx, row) ∈ df_rows sel ->
      (exists cells,
         (wb_sheet1 wb).2 !! (idx + 1) = Some cells /\
         row = take (length (df_columns sel))
                 (pad_to (length (df_columns sel)) EmptyString cells)) /\
      (mark_update w idx = None ->
       cell_at (wb_read Sheet1 (book (res_state (script cfg w wb))))
         (idx + 2) (S j) = "Yes").
Proof.
  intros Hsel.
  destruct (script_loop cfg w wb st h sel Hsel) as (j & Hj & Hs & Ho & Hu & Hb).
  destruct (select_inr cfg wb st h sel Hsel)
    as (_ & _ & Hp & Htl & _ & Hcols & Hrows & _).
  exists j. split; [done |]. split.
  - rewrite Ho, filter_app. destruct (setup_quiet cfg w) as [_ ->].
    rewrite filter_app. cbn [app]. rewrite app_nil_r.
    rewrite (filter_flat_map _ _
               (fun r => [CallUpdateCell Sheet1 (r.1 + 2) (S j) "Yes"])).
    + clear. induction (df_rows sel) as [|r rs IH]; [done |]. simpl. by f_equal.
    + intros [idx row] _. unfold run_row_events. by rewrite row_events_updates.
  - intros idx row Hin. split.
    + rewrite Hrows in Hin. apply list_elem_of_filter in Hin as [_ Hin].
      destruct (load_df_row _ _ _ Hin) as (cells & Hcells & Hrow & _).
      exists cells. split.
      * replace (idx + 1) with (S idx) by lia.
        pose proof (lookup_tail (wb_sheet1 wb).2 idx) as E1.
        pose proof (lookup_tail (wb_read Sheet1 (book st)) idx) as E2.
        rewrite <- Htl in E1. unfold worksheet in *.
        etransitivity; [symmetry; exact E1 |].
        etransitivity; [exact E2 | exact Hcells].
      * by rewrite Hcols, length_normalize, length_header_keys.
    + intros Hm. rewrite Hb.
      apply (ledger_loop_marks w h (S j) _ (df_rows sel) (book st) (idx, row));
        [lia | done | done].
Qed.

End LoopTheorems.


(** * The JSON instance reads back what it writes *)

Module MiniJsonProps.
Import MiniJson.

Lemma app_assoc_string (a b c : string) : (a +:+ b) +:+ c = a +:+ (b +:+ c).
Proof.
  induction a as [|x a IH]; [reflexivity |]. rewrite !app_String. by rewrite IH.
Qed.

Lemma length_app_string (a b : string) :
  String.length (a +:+ b) = String.length a + String.length b.
Proof.
  induction a as [|x a IH]; [reflexivity |].
  rewrite app_String. cbn [String.length]. by rewrite IH.
Qed.

(** Strings *)

Lemma parse_chars_escape_char c tail :
  parse_chars (escape_char c +:+ tail) =
  '(t, rest) ← parse_chars tail; Some (String c t, rest).
Proof. destruct c as [[] [] [] [] [] [] [] []]; reflexivity. Qed.

Lemma parse_chars_escape s rest :
  parse_chars (escape s +:+ String quote rest) = Some (s, rest).
Proof.
  induction s as [|c s IH]; [done |].
  cbn [escape]. rewrite app_assoc_string, parse_chars_escape_char, IH. done.
Qed.

Lemma parse_chars_dumps_string s rest :
  exists body, dumps_string s +:+ rest = String quote body /\
               parse_chars body = Some (s, rest).
Proof.
  exists (escape s +:+ String quote rest). split.
  - unfold dumps_string. rewrite app_String, app_assoc_string. done.
  - apply parse_chars_escape.
Qed.

Lemma length_dumps_string s : 2 <= String.length (dumps_string s).
Proof.
  unfold dumps_string. cbn [String.length]. rewrite length_app_string. simpl. lia.
Qed.

(** Integers *)

Lemma digits_of_uint d : Py.all_chars is_digit (NilEmpty.string_of_uint d) = true.
Proof. induction d; simpl; auto. Qed.

Lemma span_digits_app ds rest :
  Py.all_chars is_digit ds = true -> no_digit_ahead rest ->
  span_digits (ds +:+ rest) = (ds, rest).
Proof.
  intros Hds Hrest. induction ds as [|c ds IH]; simpl in *.
  - destruct rest as [|c r]; simpl in *; [done |]. by rewrite Hrest.
  - apply andb_true_iff in Hds as [-> Hds]. by rewrite IH.
Qed.

Lemma to_uint_not_nil p : Pos.to_uint p <> Decimal.Nil.
Proof. apply Unsigned.to_uint_nonnil. Qed.

Lemma digit_not_minus c : is_digit c = true -> Ascii.eqb c "-" = false.
Proof. destruct c as [[] [] [] [] [] [] [] []]; try done. Qed.

Lemma parse_uint_app d rest :
  d <> Decimal.Nil -> no_digit_ahead rest ->
  exists c s,
    NilEmpty.string_of_uint d +:+ rest = String c s /\ is_digit c = true /\
    span_digits (NilEmpty.string_of_uint d +:+ rest) =
      (NilEmpty.string_of_uint d, rest) /\
    NilEmpty.string_of_uint d <> EmptyString.
Proof.
  intros Hd Hrest. pose proof (digits_of_uint d) as Hall.
  pose proof (span_digits_app _ _ Hall Hrest) as Hspan.
  destruct (NilEmpty.string_of_uint d) as [|c s] eqn:Hs.
  - by destruct d.
  - simpl in Hall. apply andb_true_iff in Hall as [Hc _].
    exists c, (s +:+ rest). done.
Qed.

Lemma to_int_not_nil z d :
  Z.to_int z = Decimal.Pos d \/ Z.to_int z = Decimal.Neg d -> d <> Decimal.Nil.
Proof.
  destruct z as [|p|p]; cbn [Z.to_int]; intros [H|H]; try discriminate;
    injection H as <-; try apply to_uint_not_nil. done.
Qed.

(** The digits of an integer are plain. *)
Lemma to_uint_plain p : plain_digits (Pos.to_uint p).
Proof.
  pose proof (DecimalPos.Unsigned.to_of (Pos.to_uint p)) as H.
  rewrite DecimalPos.Unsigned.of_to in H. cbn [N.to_uint] in H.
  pose proof (Unsigned.to_uint_nonzero p) as Hnz.
  assert (Hh : Decimal.nzhead (Pos.to_uint p) <> Decimal.Nil).
  { intros Hh. apply Hnz. rewrite H. by apply unorm_0. }
  rewrite (unorm_nzhead _ Hh) in H.
  pose proof (nzhead_nonzero (Pos.to_uint p)) as Hd.
  rewrite <- H in Hd.
  destruct (Pos.to_uint p) as [|d| | | | | | | | |]; try done.
  by destruct (Hd d).
Qed.

Lemma to_int_plain z d :
  Z.to_int z = Decimal.Pos d \/ Z.to_int z = Decimal.Neg d -> plain_digits d.
Proof.
  destruct z as [|p|p]; cbn [Z.to_int]; intros [H|H]; try discriminate;
    injection H as <-; try apply to_uint_plain. done.
Qed.

Lemma leading_zero_plain d :
  plain_digits d -> leading_zero (NilEmpty.string_of_uint d) = false.
Proof.
  destruct d as [|d|d|d|d|d|d|d|d|d|d]; cbn [NilEmpty.string_of_uint]; try done;
    try (intros _; unfold leading_zero;
         by destruct (NilEmpty.string_of_uint d)).
  by destruct d.
Qed.

Lemma parse_int_dumps z rest :
  no_digit_ahead rest -> parse_int (dumps_int z +:+ rest) = Some (z, rest).
Proof.
  intros Hrest. unfold dumps_int.
  pose proof (DecimalZ.of_to z) as Hz.
  destruct (Z.to_int z) as [d|d] eqn:Hd; cbn [NilEmpty.string_of_int].
  - assert (Hnil : d <> Decimal.Nil) by (apply (to_int_not_nil z); auto).
    destruct (parse_uint_app d rest Hnil Hrest) as (c & s & Hcs & Hc & Hspan & Hne).
    unfold parse_int. rewrite Hcs, (digit_not_minus c Hc), <- Hcs, Hspan.
    destruct (NilEmpty.string_of_uint d) as [|c' s'] eqn:Hs; [done |].
    rewrite <- Hs, (leading_zero_plain d (to_int_plain z d ltac:(auto))).
    rewrite NilEmpty.usu. cbn -[Z.of_int]. by rewrite Hz.
  - assert (Hnil : d <> Decimal.Nil) by (apply (to_int_not_nil z); auto).
    destruct (parse_uint_app d rest Hnil Hrest) as (c & s & Hcs & Hc & Hspan & Hne).
    rewrite app_String. unfold parse_int.
    change (Ascii.eqb "-" "-") with true. cbv iota. rewrite Hspan.
    destruct (NilEmpty.string_of_uint d) as [|c' s'] eqn:Hs; [done |].
    rewrite <- Hs, (leading_zero_plain d (to_int_plain z d ltac:(auto))).
    rewrite NilEmpty.usu. cbn -[Z.of_int]. by rewrite Hz.
Qed.

Lemma dumps_int_head z :
  exists c s, dumps_int z = String c s /\
    (is_digit c = true \/ c = "-"%char).
Proof.
  unfold dumps_int. destruct (Z.to_int z) as [d|d] eqn:Hd;
    cbn [NilEmpty.string_of_int].
  - assert (Hnil : d <> Decimal.Nil) by (apply (to_int_not_nil z); auto).
    pose proof (digits_of_uint d) as Hall.
    destruct (NilEmpty.string_of_uint d) as [|c s] eqn:Hs; [by destruct d |].
    simpl in Hall. apply andb_true_iff in Hall as [Hc _]. eauto.
  - eauto.
Qed.

(** The first character of a value says what it is. *)
Lemma number_head c :
  is_digit c = true \/ c = "-"%char ->
  is_ws c = false /\ Ascii.eqb c quote = false /\ Ascii.eqb c "[" = false /\
  Ascii.eqb c "{" = false /\ Ascii.eqb c "n" = false /\
  Ascii.eqb c "t" = false /\ Ascii.eqb c "f" = false /\
  Ascii.eqb c "]" = false /\ Ascii.eqb c "}" = false.
Proof.
  intros [Hc| ->]; [| by repeat split].
  destruct c as [[] [] [] [] [] [] [] []]; try done.
Qed.

Lemma app_nil_string (a : string) : a +:+ EmptyString = a.
Proof. induction a as [|x a IH]; [done |]. rewrite app_String. by rewrite IH. Qed.

Lemma json_ind_nested (P : json Z -> Prop) :
  P JNull -> (forall b, P (JBool b)) -> (forall n, P (JNum n)) ->
  (forall s, P (JStr s)) ->
  (forall l, Forall P l -> P (JArr l)) ->
  (forall l, Forall (fun kv => P kv.2) l -> P (JObj l)) ->
  forall v, P v.
Proof.
  intros Hnull Hbool Hnum Hstr Harr Hobj.
  fix IH 1. intros [| b | n | s | l | l].
  - exact Hnull.
  - apply Hbool.
  - apply Hnum.
  - apply Hstr.
  - apply Harr. induction l as [|x l IHl]; constructor; [apply IH | exact IHl].
  - apply Hobj. induction l as [|[k x] l IHl]; constructor;
      [apply IH | exact IHl].
Qed.

Lemma dumps_head v :
  exists c s, dumps v = String c s /\ is_ws c = false /\
    Ascii.eqb c "]" = false /\ Ascii.eqb c "}" = false.
Proof.
  destruct v as [| [] | n | s | l | l]; try by (do 2 eexists).
  destruct (dumps_int_head n) as (c & s & Hcs & Hc).
  exists c, s. split; [done |].
  destruct (number_head c Hc) as (? & _ & _ & _ & _ & _ & _ & ? & ?). done.
Qed.

Lemma app_empty_string (a : string) : EmptyString +:+ a = a.
Proof. reflexivity. Qed.

Lemma skip_ws_head c s : is_ws c = false -> skip_ws (String c s) = String c s.
Proof. intros H. simpl. by rewrite H. Qed.

Lemma parse_value_space fuel s :
  parse_value fuel (String " " s) = parse_value fuel s.
Proof. by destruct fuel. Qed.

Lemma parse_items_space fuel s :
  parse_items fuel (String " " s) = parse_items fuel s.
Proof. destruct fuel; [done |]. cbn [parse_items]. by rewrite parse_value_space. Qed.

Lemma parse_members_space fuel s :
  parse_members fuel (String " " s) = parse_members fuel s.
Proof. by destruct fuel. Qed.

(** Exposes the literal characters in front of the text to read, and lets
    the reader look at the first of them. *)
Ltac next_char :=
  rewrite ?app_String, ?app_empty_string;
  cbv beta iota delta [mbind option_bind];
  rewrite ?skip_ws_head by reflexivity;
  cbv beta iota;
  repeat match goal with
  | |- context [Ascii.eqb ?a ?b] =>
      let r := eval vm_compute in (Ascii.eqb a b) in
      match r with
      | true => change (Ascii.eqb a b) with true
      | false => change (Ascii.eqb a b) with false
      end
  end;
  cbv beta iota.

Lemma eqb_ascii_same c : Ascii.eqb c c = true.
Proof. apply Ascii.eqb_refl. Qed.

Lemma reads_back_items l :
  Forall reads_back l -> l <> [] ->
  forall rest fuel,
    String.length (join_items dumps "]" l) <= fuel ->
    parse_items fuel (join_items dumps "]" l +:+ rest) = Some (l, rest).
Proof.
  induction l as [|x l IH]; [done |].
  intros [Hx Hl]%Forall_cons _ rest fuel Hfuel.
  destruct l as [|y l].
  - cbn [join_items] in *. rewrite length_app_string in Hfuel.
    destruct fuel as [|fuel]; [cbn [String.length] in Hfuel; lia |].
    cbn [parse_items]. rewrite app_assoc_string.
    rewrite Hx; [| done | cbn [String.length] in Hfuel; lia].
    next_char. reflexivity.
  - change (join_items dumps "]" (x :: y :: l))
      with (dumps x +:+ ", " +:+ join_items dumps "]" (y :: l)) in *.
    rewrite !length_app_string in Hfuel.
    destruct fuel as [|fuel]; [cbn [String.length] in Hfuel; lia |].
    cbn [parse_items]. rewrite !app_assoc_string.
    rewrite Hx; [| done | cbn [String.length] in Hfuel; lia].
    next_char. rewrite parse_items_space.
    rewrite IH; [done | done | done | cbn [String.length] in Hfuel; lia].
Qed.

Lemma reads_back_members (l : list (string * json Z)) :
  Forall (fun kv => reads_back kv.2) l -> l <> [] ->
  forall rest fuel,
    String.length
      (join_items (fun kv => dumps_string kv.1 +:+ ": " +:+ dumps kv.2) "}" l)
      <= fuel ->
    parse_members fuel
      (join_items (fun kv => dumps_string kv.1 +:+ ": " +:+ dumps kv.2) "}" l
       +:+ rest) = Some (l, rest).
Proof.
  induction l as [|[k x] l IH]; [done |].
  intros [Hx Hl]%Forall_cons _ rest fuel Hfuel. simpl in Hx.
  pose proof (length_dumps_string k) as Hk.
  destruct l as [|y l].
  - cbn [join_items fst snd] in *. rewrite !length_app_string in Hfuel.
    destruct fuel as [|fuel]; [cbn [String.length] in Hfuel; lia |].
    rewrite !app_assoc_string.
    destruct (parse_chars_dumps_string k
                (": " +:+ dumps x +:+ "}" +:+ rest)) as (body & -> & Hbody).
    cbn [parse_members]. next_char. rewrite Hbody.
    next_char. rewrite parse_value_space.
    rewrite Hx; [| done | cbn [String.length] in Hfuel; lia].
    next_char. reflexivity.
  - change (join_items (fun kv => dumps_string kv.1 +:+ ": " +:+ dumps kv.2)
              "}" ((k, x) :: y :: l))
      with ((dumps_string k +:+ ": " +:+ dumps x) +:+ ", " +:+
            join_items (fun kv => dumps_string kv.1 +:+ ": " +:+ dumps kv.2)
              "}" (y :: l)) in *.
    rewrite !length_app_string in Hfuel.
    destruct fuel as [|fuel]; [cbn [String.length] in Hfuel; lia |].
    rewrite !app_assoc_string.
    destruct (parse_chars_dumps_string k
                (": " +:+ dumps x +:+ ", " +:+
                 join_items (fun kv => dumps_string kv.1 +:+ ": " +:+ dumps kv.2)
                   "}" (y :: l) +:+ rest)) as (body & -> & Hbody).
    cbn [parse_members]. next_char. rewrite Hbody.
    next_char. rewrite parse_value_space.
    rewrite Hx; [| done | cbn [String.length] in Hfuel; lia].
    next_char. rewrite parse_members_space.
    rewrite IH; [done | done | done | cbn [String.length] in Hfuel; lia].
Qed.

(** Dicts *)

Lemma dict_set_fresh {A} k (v : A) d :
  k ∉ map fst d -> dict_set k v d = d ++ [(k, v)].
Proof.
  induction d as [|[k' v'] d IH]; [done |]. cbn [map fst dict_set].
  intros [Hk Hd]%not_elem_of_cons.
  destruct (String.eqb k' k) eqn:E; [by apply String.eqb_eq in E |].
  cbn [app]. by rewrite IH.
Qed.

Lemma dict_set_known {A} k (v : A) d :
  k ∈ map fst d -> map fst (dict_set k v d) = map fst d.
Proof.
  induction d as [|[k' v'] d IH]; [by intros ?%elem_of_nil |].
  cbn [map fst dict_set].
  destruct (String.eqb k' k) eqn:E; [done |].
  apply String.eqb_neq in E.
  intros [->|Hin]%elem_of_cons; [done |]. cbn [map fst]. by rewrite IH.
Qed.

Lemma dict_of_from {A} (d l : list (string * A)) :
  NoDup (map fst (d ++ l)) ->
  foldl (fun d kv => dict_set (fst kv) (snd kv) d) d l = d ++ l.
Proof.
  revert d. induction l as [|[k v] l IH]; intros d Hn.
  - by rewrite app_nil_r.
  - cbn [foldl fst snd]. rewrite dict_set_fresh.
    + rewrite IH; rewrite <- app_assoc; done.
    + rewrite map_app in Hn. apply NoDup_app in Hn as (_ & Hn & _).
      intros Hk. apply (Hn k Hk). cbn [map fst]. by left.
Qed.

(** Members with distinct keys are the items of their dict. *)
Lemma dict_of_nodup {A} (l : list (string * A)) :
  NoDup (map fst l) -> dict_of l = l.
Proof. intros Hn. unfold dict_of. by rewrite dict_of_from. Qed.

Lemma dict_set_keys {A} k (v : A) d :
  NoDup (map fst d) -> NoDup (map fst (dict_set k v d)).
Proof.
  intros Hd. destruct (decide (k ∈ map fst d)) as [Hin|Hn].
  - by rewrite dict_set_known.
  - rewrite dict_set_fresh by done. rewrite map_app.
    apply NoDup_app. split; [done |]. split.
    + intros x Hx ->%list_elem_of_singleton. done.
    + apply NoDup_singleton.
Qed.

Lemma dict_set_values {A} (P : A -> bool) k v d :
  P v = true -> forallb (fun kv => P kv.2) d = true ->
  forallb (fun kv => P kv.2) (dict_set k v d) = true.
Proof.
  intros Hv. induction d as [|[k' v'] d IH]; cbn [dict_set forallb snd].
  - by rewrite Hv.
  - intros [H1 H2]%andb_true_iff.
    destruct (String.eqb k' k); cbn [forallb snd].
    + by rewrite Hv, H2.
    + by rewrite H1, IH.
Qed.

(** The keys of a dict are distinct. *)
Lemma dict_of_dict_like (members : list (string * json Z)) :
  forallb (fun kv => dict_like kv.2) members = true ->
  dict_like (JObj (dict_of members)) = true.
Proof.
  intros Hm. unfold dict_of.
  assert (H : forall d,
    NoDup (map fst d) -> forallb (fun kv => dict_like kv.2) d = true ->
    let d' := foldl (fun d kv => dict_set (fst kv) (snd kv) d) d members in
    NoDup (map fst d') /\ forallb (fun kv => dict_like kv.2) d' = true).
  { induction members as [|[k v] l IH]; intros d Hk Hv; [done |].
    cbn [forallb snd] in Hm. apply andb_true_iff in Hm as [Hv1 Hl].
    cbn [foldl fst snd]. apply (IH Hl).
    - by apply dict_set_keys.
    - by apply dict_set_values. }
  destruct (H [] (NoDup_nil_2) eq_refl) as [Hk Hv].
  cbn [dict_like]. apply andb_true_iff. split; [| done].
  by apply bool_decide_eq_true.
Qed.

Ltac open_pairs :=
  repeat match goal with
  | H : context [let '(_, _) := ?p in _] |- _ => destruct p
  end;
  simplify_eq.

(** What the reader returns is made of dicts. *)
Lemma parse_dict_like fuel :
  (forall s v rest, parse_value fuel s = Some (v, rest) -> dict_like v = true) /\
  (forall s vs rest, parse_items fuel s = Some (vs, rest) ->
     forallb dict_like vs = true) /\
  (forall s ms rest, parse_members fuel s = Some (ms, rest) ->
     forallb (fun kv => dict_like kv.2) ms = true).
Proof.
  induction fuel as [|fuel (IHv & IHi & IHm)]; [done |].
  split; [| split].
  - intros s v rest H. cbn [parse_value] in H.
    repeat (try done;
            first [case_match | progress simplify_option_eq | progress open_pairs]);
      try done.
    + match goal with
      | H : parse_items _ _ = Some _ |- _ => apply IHi in H
      end. done.
    + match goal with
      | H : parse_members _ _ = Some _ |- _ => apply IHm in H
      end. by apply dict_of_dict_like.
  - intros s vs rest H. cbn [parse_items] in H.
    repeat (try done;
            first [case_match | progress simplify_option_eq | progress open_pairs]);
      try done.
    all: cbn [forallb];
      repeat match goal with
      | H : parse_value _ _ = Some _ |- _ => apply IHv in H
      | H : parse_items _ _ = Some _ |- _ => apply IHi in H
      end; by rewrite ?andb_true_iff.
  - intros s ms rest H. cbn [parse_members] in H.
    repeat (try done;
            first [case_match | progress simplify_option_eq | progress open_pairs]);
      try done.
    all: cbn [forallb snd];
      repeat match goal with
      | H : parse_value _ _ = Some _ |- _ => apply IHv in H
      | H : parse_members _ _ = Some _ |- _ => apply IHm in H
      end; by rewrite ?andb_true_iff.
Qed.

Lemma reads_back_all v : dict_like v = true -> reads_back v.
Proof.
  induction v as [| b | n | s | l IH | l IH] using json_ind_nested;
    intros Hdl rest fuel Hrest Hfuel.
  - destruct fuel as [|fuel]; [cbn [dumps String.length] in Hfuel; lia | done].
  - destruct fuel as [|fuel]; [destruct b; cbn [dumps String.length] in Hfuel; lia |].
    by destruct b.
  - destruct (dumps_int_head n) as (c & s & Hcs & Hc).
    destruct (number_head c Hc) as (Hws & H1 & H2 & H3 & H4 & H5 & H6 & _).
    pose proof (parse_int_dumps n rest Hrest) as Hp.
    cbn [dumps] in *. rewrite Hcs in Hfuel, Hp |- *.
    destruct fuel as [|fuel]; [cbn [dumps String.length] in Hfuel; lia |].
    rewrite app_String in Hp |- *. cbn [parse_value].
    rewrite skip_ws_head by done. rewrite H1, H2, H3, H4, H5, H6, Hp. done.
  - pose proof (length_dumps_string s) as Hlen. cbn [dumps] in *.
    destruct fuel as [|fuel]; [lia |].
    destruct (parse_chars_dumps_string s rest) as (body & Hb & Hbody).
    rewrite Hb. cbn [parse_value]. next_char. rewrite Hbody. reflexivity.
  - cbn [dumps] in *. rewrite app_String, app_empty_string in Hfuel |- *.
    cbn [String.length] in Hfuel.
    destruct fuel as [|fuel]; [lia |].
    destruct l as [|x l]; [done |].
    assert (Hhead : exists c s,
              join_items dumps "]" (x :: l) +:+ rest = String c s /\
              is_ws c = false /\ Ascii.eqb c "]" = false).
    { destruct (dumps_head x) as (c & s & Hcs & Hws & Hb & _).
      destruct l as [|y l]; cbn [join_items]; rewrite Hcs;
        do 2 eexists; (split; [by rewrite !app_String | done]). }
    destruct Hhead as (c & s & Hcs & Hws & Hb).
    assert (IH' : Forall reads_back (x :: l)).
    { cbn [dict_like] in Hdl. rewrite forallb_forall in Hdl.
      apply Forall_forall. intros y Hy.
      apply (proj1 (Forall_forall _ _) IH y Hy).
      apply Hdl. by apply list_elem_of_In. }
    pose proof (reads_back_items (x :: l) IH' ltac:(done) rest fuel ltac:(lia))
      as Hitems.
    cbn [parse_value]. next_char. rewrite Hcs in Hitems |- *.
    rewrite (skip_ws_head c s Hws), Hb, Hitems. reflexivity.
  - cbn [dumps] in *. rewrite app_String, app_empty_string in Hfuel |- *.
    cbn [String.length] in Hfuel.
    destruct fuel as [|fuel]; [lia |].
    destruct l as [|[k x] l]; [done |].
    set (pr := fun kv : string * json Z => dumps_string kv.1 +:+ ": " +:+ dumps kv.2)
      in *.
    assert (Hhead : exists c s,
              join_items pr "}" ((k, x) :: l) +:+ rest = String c s /\
              is_ws c = false /\ Ascii.eqb c "}" = false).
    { destruct l as [|y l]; cbn [join_items]; unfold pr at 1; cbn [fst snd];
        unfold dumps_string; do 2 eexists;
        (split; [by rewrite !app_String | done]). }
    destruct Hhead as (c & s & Hcs & Hws & Hb).
    cbn [dict_like] in Hdl. apply andb_true_iff in Hdl as [Hkeys Hvals].
    apply bool_decide_eq_true in Hkeys.
    assert (IH' : Forall (fun kv => reads_back kv.2) ((k, x) :: l)).
    { rewrite forallb_forall in Hvals.
      apply Forall_forall. intros y Hy.
      apply (proj1 (Forall_forall _ _) IH y Hy).
      apply Hvals. by apply list_elem_of_In. }
    pose proof (reads_back_members ((k, x) :: l) IH' ltac:(done) rest fuel
                  ltac:(fold pr; lia)) as Hitems.
    fold pr in Hitems.
    cbn [parse_value]. next_char. rewrite Hcs in Hitems |- *.
    rewrite (skip_ws_head c s Hws), Hb, Hitems.
    cbv beta iota delta [mbind option_bind].
    by rewrite (dict_of_nodup _ Hkeys).
Qed.

(** The instance meets what the script relies on. *)
Lemma loads_dumps_lib : loads_dumps lib.
Proof.
  intros v Hv. change (loads (dumps v) = Some v). unfold loads.
  rewrite <- (app_nil_string (dumps v)) at 2.
  rewrite reads_back_all; [done | done | done | lia].
Qed.

Lemma loads_dict_like_lib : loads_dict_like lib.
Proof.
  intros s v. change (loads s = Some v -> dict_like v = true). unfold loads.
  destruct (parse_value _ s) as [[v' rest]|] eqn:E; [| done].
  cbv beta iota delta [mbind option_bind].
  destruct (skip_ws rest); [| done]. intros [= <-].
  by apply (proj1 (parse_dict_like _) _ _ _ E).
Qed.

End MiniJsonProps.


(** * The properties on sample runs *)


Lemma resolved_by_norm columns c vs h v :
  h ∈ columns -> v ∈ vs -> norm v = Py.lower v -> norm h = norm v ->
  resolved columns (c, vs).
Proof.
  intros Hh Hv Hp Hn. right. exists h, v. split; [done |]. split; [done |].
  by apply norm_variant.
Qed.

(** Membership in a list that is written out. *)
Ltac in_list :=
  repeat first [ apply list_elem_of_here | apply list_elem_of_further ].

Module Witness.
Import Sample.
#[local] Existing Instance MiniJson.lib.

(** C1 on a frame of three rows. *)
Lemma ledger_filter_correct_witness :
  "Processed" ∈ df_columns frame /\
  exists sel,
    new_rows_df frame = Some sel /\
    df_columns sel = df_columns frame /\
    df_rows sel =
      filter (fun r => row_get (df_columns frame) r.2 "Processed" <> "Yes")
        (df_rows frame) /\
    df_rows sel `sublist_of` df_rows frame /\
    exists again,
      new_rows_df (mark_rows frame (df_rows sel).*1) = Some again /\
      df_rows again = [].
Proof.
  assert (H : "Processed" ∈ df_columns frame) by (unfold frame; simpl; in_list).
  split; [exact H | exact (ledger_filter_correct frame H)].
Defined.

Lemma variant_headers_resolved entry :
  entry ∈ aliases -> resolved variant_headers entry.
Proof.
  intros Hin. unfold aliases in Hin.
  repeat (apply elem_of_cons in Hin as [->|Hin]);
    [| | | | | by apply elem_of_nil in Hin].
  - apply (resolved_by_norm _ _ _ "Date" "date");
      [unfold variant_headers; in_list | in_list | done | done].
  - apply (resolved_by_norm _ _ _ " Full Name" "full name");
      [unfold variant_headers; in_list | in_list | done | done].
  - apply (resolved_by_norm _ _ _ "E-MAIL" "e-mail");
      [unfold variant_headers; in_list | in_list | done | done].
  - apply (resolved_by_norm _ _ _ "Message" "message");
      [unfold variant_headers; in_list | in_list | done | done].
  - apply (resolved_by_norm _ _ _ "Priority" "priority");
      [unfold variant_headers; in_list | in_list | done | done].
Defined.

(** C2 on headers that spell every field in a variant: all five resolve, and
    [Message], a variant of the second spelling of [Symptoms], is the column
    that becomes [Symptoms]. *)
Lemma normalizer_resolves_witness :
  (forall entry, entry ∈ aliases -> resolved variant_headers entry) /\
  missing_cols (normalize_columns variant_headers) = [] /\
  (forall c, c ∈ required_cols -> c ∈ normalize_columns variant_headers) /\
  exists chosen,
    chosen ∈ variant_headers /\ variant_of chosen "message" /\
    forall i, normalize_columns variant_headers !! i = Some "Symptoms" <->
              variant_headers !! i = Some chosen.
Proof.
  destruct (normalizer_resolves variant_headers) as [Hall Hchosen].
  split; [exact variant_headers_resolved |].
  destruct (Hall variant_headers_resolved) as [Hm Hreq].
  split; [exact Hm |]. split; [exact Hreq |].
  apply (Hchosen "Symptoms"
           ["symptoms"; "message"; "symptoms / message"; "symptom details";
            "description"; "issue"; "problem"; "notes"; "details"; "comments";
            "messages"; "patient message"] 1 "message").
  - unfold aliases. in_list.
  - split; [reflexivity |]. split.
    + exists "Message". split; [unfold variant_headers; in_list |].
      by apply norm_variant.
    + intros j' v' h Hlt Hv' Hh Hvar. destruct j' as [|j']; [| lia].
      injection Hv' as <-. apply variant_norm in Hvar.
      unfold variant_headers in Hh.
      repeat (apply elem_of_cons in Hh as [->|Hh]); try discriminate Hvar.
      by apply elem_of_nil in Hh.
Defined.


(** A run on two header cells with the same text, and a run on a record two
    cells longer than the header row: reading the records raises, and
    nothing is printed. *)
Example repeated_keys_raise :
  res_status (script cfg calm repeated_header) = Uncaught /\
  out (res_state (script cfg calm repeated_header)) = [] /\
  header_keys (wb_sheet1 long_record).2 = ["Name"; ""; ""] /\
  res_status (script cfg calm long_record) = Uncaught /\
  out (res_state (script cfg calm long_record)) = [].
Proof. repeat split; by vm_compute. Qed.

(** A run on an empty header row above one record dies on the five missing
    fields; rows without a value after the header row are no records. *)
Example blank_header_dies :
  res_status (script cfg calm blank_header) = Exit 1 /\
  out (res_state (script cfg calm blank_header)) =
    [PrintColumnsPresent ["Processed"]; DieMissingColumns required_cols] /\
  res_status (script cfg calm blank_rows) = Exit 0 /\
  out (res_state (script cfg calm blank_rows)) = [PrintSheetEmpty].
Proof. repeat split; by vm_compute. Qed.

(** C4 on an answer of 700 characters that is not JSON: the summary is its
    first 600 characters. *)
Lemma summarize_total_witness :
  ~ expected_structure (J := MiniJson.lib) (Py.strip long_answer) /\
  String.length long_answer = 700 /\
  exists summary,
    ai_summarize (J := MiniJson.lib) true (BackendReturns [Some long_answer])
      "cough" "High" =
      json_dumps (JObj [("summary", JStr summary); ("urgency", JStr "High");
                        ("keywords", JArr [])]) /\
    list_ascii_of_string summary =
      take 600 (list_ascii_of_string (Py.strip long_answer)) /\
    String.length summary = 600.
Proof.
  assert (H : ~ expected_structure (J := MiniJson.lib) (Py.strip long_answer)).
  { intros (items & Hl & _). vm_compute in Hl. discriminate Hl. }
  split; [exact H |]. split; [reflexivity |].
  destruct (summarize_total (J := MiniJson.lib) true
              (BackendReturns [Some long_answer]) "cough" "High")
    as (_ & Hu & _).
  destruct (Hu long_answer [] eq_refl eq_refl H) as (summary & Heq & Hchars).
  exists summary. split; [exact Heq |]. split; [exact Hchars |].
  rewrite <- (string_of_list_ascii_of_string summary), Hchars.
  vm_compute. reflexivity.
Defined.

(** C5 with the sample settings, which hold no backend key, on symptoms of
    250 characters with a line break: the summary holds the first 200, with
    a space for the line break. *)
Lemma fallback_summary_witness :
  OPENAI_API_KEY cfg = EmptyString /\
  String.length long_symptoms = 250 /\
  nth 5 (list_ascii_of_string long_symptoms) space = newline /\
  exists trunc,
    ai_summarize (J := MiniJson.lib) (setup_openai cfg calm).2
      (BackendRaises "unused") long_symptoms "" =
      json_dumps
        (JObj [("summary", JStr ("Reported symptoms: " +:+ trunc +:+ "..."));
               ("urgency", JStr "Unknown"); ("keywords", JArr [])]) /\
    list_ascii_of_string trunc =
      map (fun c => if Ascii.eqb c newline then space else c)
        (take 200 (list_ascii_of_string long_symptoms)) /\
    String.length trunc = 200 /\
    nth 5 (list_ascii_of_string trunc) newline = space /\
    newline ∉ list_ascii_of_string trunc.
Proof.
  split; [reflexivity |]. split; [reflexivity |]. split; [reflexivity |].
  destruct (fallback_summary (J := MiniJson.lib) cfg calm (BackendRaises "unused")
              long_symptoms "" eq_refl) as (trunc & Heq & Hchars & Hlen & Hnl).
  exists trunc. split; [exact Heq |]. split; [exact Hchars |].
  split; [exact Hlen |]. split; [| exact Hnl].
  rewrite Hchars. reflexivity.
Defined.


(** C10 with the JSON instance of this file, on an answer of the expected
    structure that supplies a keyword. *)
Lemma summary_text_parses_witness :
  loads_dumps MiniJson.lib /\ loads_dict_like MiniJson.lib /\
  exists summary urg keywords,
    json_loads
      (ai_summarize (J := MiniJson.lib) true
         (BackendReturns [Some structured_answer]) "cough" "Low") =
      Some (JObj [("summary", JStr summary); ("urgency", JStr urg);
                  ("keywords", keywords)]) /\
    reparse (J := MiniJson.lib)
      (ai_summarize (J := MiniJson.lib) true
         (BackendReturns [Some structured_answer]) "cough" "Low") "Low" =
      (JStr summary, JStr urg, false).
Proof.
  split; [exact MiniJsonProps.loads_dumps_lib |].
  split; [exact MiniJsonProps.loads_dict_like_lib |].
  destruct (summary_text_parses (J := MiniJson.lib) true
              (BackendReturns [Some structured_answer]) "cough" "Low"
              MiniJsonProps.loads_dumps_lib MiniJsonProps.loads_dict_like_lib)
    as (summary & urg & keywords & Hl & _ & Hr).
  exists summary, urg, keywords. split; [exact Hl | exact Hr].
Defined.

(** The same answer, read back: the keyword of the answer is kept. *)
Example structured_answer_kept :
  json_loads
    (ai_summarize (J := MiniJson.lib) true
       (BackendReturns [Some structured_answer]) "cough" "Low") =
    Some (JObj [("summary", JStr "mild fever"); ("urgency", JStr "High");
                ("keywords", JArr [JStr "fever"])]).
Proof. by vm_compute. Qed.


(** C6 on a run in which both writes fail for both rows. *)
Lemma write_failures_reported_witness :
  exists st h sel,
    select cfg_full two_rows = inr (st, h, sel) /\
    res_status (script cfg_full stormy two_rows) = Exit 0 /\
    updates_made (res_state (script cfg_full stormy two_rows)) =
      length (df_rows sel) /\
    filter is_write_failure (out (res_state (script cfg_full stormy two_rows))) =
      write_failures cfg_full stormy (df_rows sel).
Proof.
  eexists _, _, _. split; [vm_compute; reflexivity |].
  destruct (write_failures_reported cfg_full stormy two_rows _ _ _ eq_refl)
    as (pcol & Hs & _ & Hu & Hf & _).
  split; [exact Hs |]. split; [exact Hu | exact Hf].
Defined.

(** C7 on two runs that differ in their notification channels only. *)
Lemma notifications_never_block_witness :
  exists st h sel,
    select cfg_full two_rows = inr (st, h, sel) /\
    same_ledger_side cfg_full cfg_muted calm noisy /\
    res_status (script cfg_muted noisy two_rows) = Exit 0 /\
    book (res_state (script cfg_muted noisy two_rows)) =
      book (res_state (script cfg_full calm two_rows)).
Proof.
  eexists _, _, _. split; [vm_compute; reflexivity |].
  assert (Hside : same_ledger_side cfg_full cfg_muted calm noisy).
  { repeat split. }
  split; [exact Hside |].
  destruct (notifications_never_block cfg_full calm two_rows _ _ _ eq_refl)
    as (pcol & _ & _ & _ & Hni).
  destruct (Hni cfg_muted noisy Hside) as (Hs & Hb & _).
  split; [exact Hs | exact Hb].
Defined.

(** C9 on a sheet whose first row was processed before: the mark of the
    second row goes to sheet row 3. *)
Lemma mark_lands_on_original_row_witness :
  exists st h sel,
    select cfg second_row_new = inr (st, h, sel) /\
    exists j,
      filter is_update_call (out (res_state (script cfg calm second_row_new))) =
        map (fun r => CallUpdateCell Sheet1 (r.1 + 2) (S j) "Yes") (df_rows sel).
Proof.
  eexists _, _, _. split; [vm_compute; reflexivity |].
  destruct (mark_lands_on_original_row cfg calm second_row_new _ _ _ eq_refl)
    as (j & _ & Hcalls & _).
  exists j. exact Hcalls.
Defined.

Example second_row_marked :
  filter is_update_call (out (res_state (script cfg calm second_row_new))) =
    [CallUpdateCell Sheet1 3 6 "Yes"] /\
  cell_at (wb_read Sheet1 (book (res_state (script cfg calm second_row_new))))
    3 6 = "Yes".
Proof. by vm_compute. Qed.

End Witness.

(** * What the script does where the specification says otherwise *)

Module Diverges.
Import Sample.
#[local] Existing Instance MiniJson.lib.


(** C4 as stated fails: for the response [" oops"] and an empty reported
    urgency the summary is ["oops"], not the raw text, and the urgency is
    ["Unknown"], not the reported one. *)
Lemma unparsed_summary_differs :
  ~ expected_structure (Py.strip " oops") /\
  json_loads (ai_summarize true (BackendReturns [Some " oops"]) "cough" "") =
    Some (JObj [("summary", JStr "oops"); ("urgency", JStr "Unknown");
                ("keywords", JArr [])]) /\
  ai_summarize true (BackendReturns [Some " oops"]) "cough" "" <>
    json_dumps (JObj [("summary", JStr (Py.slice_to 600 " oops"));
                      ("urgency", JStr ""); ("keywords", JArr [])]).
Proof.
  split; [| split; by vm_compute].
  intros (items & Hl & _). vm_compute in Hl. discriminate Hl.
Qed.

(** C6 as stated fails: the report of an archive append that failed names
    the archive sheet and the error, and no row: the reports for the rows at
    sheet rows 2 and 3 are the same. *)
Lemma append_failure_names_no_row :
  filter is_write_failure (out (res_state (script cfg_full stormy two_rows))) =
    [PrintCouldNotMark 2 "quota"; PrintCouldNotAppend "Processed" "quota";
     PrintCouldNotMark 3 "quota"; PrintCouldNotAppend "Processed" "quota"] /\
  reported_row <$>
    filter is_write_failure (out (res_state (script cfg_full stormy two_rows))) =
    [Some 2; None; Some 3; None].
Proof. split; by vm_compute. Qed.


End Diverges.


(** * More on the header normalizer *)

Lemma aliases_renames_lookup columns src c :
  build_renames columns !! src = Some c <->
  (exists vs, (c, vs) ∈ aliases /\ (c ∉ columns) /\
     find_src (lower_map columns) vs = Some src).
Proof.
  apply (renames_lookup aliases columns aliases_canon_nodup
           aliases_spellings_nodup).
Qed.

Lemma normalize_columns_lookup columns i c :
  normalize_columns columns !! i = Some c <->
  (exists h, columns !! i = Some h /\ default h (build_renames columns !! h) = c).
Proof. apply (normalize_lookup aliases columns). Qed.

Lemma normalize_columns_fmap columns :
  normalize_columns columns =
  (fun h => default h (build_renames columns !! h)) <$> columns.
Proof. apply (normalize_rename aliases columns). Qed.

(** The source column of a rename is a header, a variant of a spelling of
    the entry it is renamed for. *)
Lemma rename_source columns src c :
  build_renames columns !! src = Some c ->
  exists vs v, (c, vs) ∈ aliases /\ (c ∉ columns) /\ v ∈ vs /\
    src ∈ columns /\ norm src = norm v /\
    find_src (lower_map columns) vs = Some src.
Proof.
  intros (vs & Hin & Hc & Hf)%aliases_renames_lookup.
  destruct (find_src_Some _ _ _ Hf) as (j & v & Hj & Hl & _).
  apply list_elem_of_lookup_2 in Hj.
  destruct (norm_empty_inv_lookup _ _ _ Hl) as [Hs Hn].
  exists vs, v. done.
Qed.

(** X1.  Distinct headers stay distinct. *)
Theorem normalize_keeps_distinct (columns : list string) :
  NoDup columns -> NoDup (normalize_columns columns).
Proof.
  intros Hnd. rewrite normalize_columns_fmap.
  apply NoDup_fmap_2_strong; [| done].
  intros h1 h2 Hh1 Hh2 Heq.
  destruct (build_renames columns !! h1) as [c1|] eqn:H1;
    destruct (build_renames columns !! h2) as [c2|] eqn:H2; simpl in Heq.
  - subst c2.
    destruct (rename_source _ _ _ H1) as (vs1 & v1 & Hin1 & _ & _ & _ & _ & Hf1).
    destruct (rename_source _ _ _ H2) as (vs2 & v2 & Hin2 & _ & _ & _ & _ & Hf2).
    rewrite (nodup_fst_same aliases c1 vs1 vs2 aliases_canon_nodup Hin1 Hin2)
      in Hf1.
    congruence.
  - subst h2. by destruct (rename_source _ _ _ H1) as (? & ? & _ & Hc & _).
  - subst h1. by destruct (rename_source _ _ _ H2) as (? & ? & _ & Hc & _).
  - done.
Qed.

(** X2.  Normalising normalised labels changes nothing. *)
Theorem normalize_idempotent (columns : list string) :
  normalize_columns (normalize_columns columns) = normalize_columns columns.
Proof.
  set (ncols := normalize_columns columns).
  assert (Hempty : build_renames ncols = ∅).
  { apply map_empty. intros src.
    destruct (build_renames ncols !! src) as [c|] eqn:Hr; [| done].
    exfalso.
    destruct (rename_source _ _ _ Hr) as (vs & v & Hin & Hc & Hv & Hs & Hn & _).
    apply list_elem_of_lookup_1 in Hs as [i Hi].
    apply normalize_columns_lookup in Hi as (h & Hh & Hd).
    apply list_elem_of_lookup_2 in Hh.
    destruct (build_renames columns !! h) as [c0|] eqn:H0; simpl in Hd.
    - subst c0.
      destruct (rename_source _ _ _ H0) as (vs0 & v0 & Hin0 & _ & _ & _ & _ & Hf0).
      destruct (aliases_canon_spelled _ _ Hin0) as (u & Hu & Hnu).
      apply list_elem_of_lookup_2 in Hu.
      assert (Heq : (src, vs0) = (c, vs)).
      { apply (same_entry aliases _ _ u v aliases_spellings_nodup); auto.
        simpl. congruence. }
      injection Heq as -> ->. apply Hc.
      apply (columns_resolved columns c vs Hin).
      destruct (find_src_Some _ _ _ Hf0) as (j & v1 & Hj & Hl & _).
      apply list_elem_of_lookup_2 in Hj.
      destruct (norm_empty_inv_lookup _ _ _ Hl) as [_ Hn1].
      right. exists h, v1. repeat split; try done.
      apply norm_variant; [| done].
      by destruct (aliases_spellings_plain _ _ _ Hin Hj).
    - subst h. apply Hc. apply (columns_resolved columns c vs Hin).
      right. exists src, v. repeat split; try done.
      apply norm_variant; [| done].
      by destruct (aliases_spellings_plain _ _ _ Hin Hv). }
  unfold normalize_columns at 1, normalize_from.
  fold (build_renames ncols). rewrite Hempty.
  by rewrite bool_decide_eq_true_2.
Qed.

(** X3.  Among several headers that are variants of the spelling that wins,
    the last one is renamed. *)
Theorem last_variant_renamed (columns : list string) (c : string)
    (vs : list string) (j : nat) (v : string) :
  (c, vs) ∈ aliases -> c ∉ columns -> earliest_present columns vs j v ->
  exists before chosen after,
    columns = before ++ chosen :: after /\
    variant_of chosen v /\
    (forall h, h ∈ after -> ~ variant_of h v) /\
    normalize_columns columns !! length before = Some c.
Proof.
  intros Hin Hc (Hj & (h & Hh & Hvar) & Hearly).
  assert (Hv : v ∈ vs) by by apply list_elem_of_lookup_2 in Hj.
  destruct (find_src_present aliases columns aliases_spellings_plain
              c vs h v Hin Hh Hv Hvar) as [s Hs].
  destruct (find_src_Some _ _ _ Hs) as (j1 & v1 & Hj1 & Hl1 & Hne & Hbefore).
  assert (Hv1 : v1 ∈ vs) by by apply list_elem_of_lookup_2 in Hj1.
  destruct (norm_empty_inv_lookup _ _ _ Hl1) as [Hsin Hsn].
  assert (Hplain : forall u, u ∈ vs -> norm u = Py.lower u).
  { intros u Hu. by destruct (aliases_spellings_plain _ _ _ Hin Hu). }
  assert (j1 = j) as ->.
  { destruct (Nat.lt_trichotomy j1 j) as [Hlt|[->|Hgt]]; [| done |].
    - exfalso. apply (Hearly j1 v1 s Hlt Hj1 Hsin).
      apply norm_variant; auto.
    - exfalso. destruct (Hbefore j v Hgt Hj) as [Hnone|Hemp].
      + destruct (lower_map_is_Some _ _ Hh) as [s' Hs'].
        rewrite (variant_norm _ _ Hvar) in Hs'. congruence.
      + destruct (norm_empty_inv_lookup _ _ _ Hemp) as [_ Hn0].
        destruct (aliases_spellings_plain _ _ _ Hin Hv) as [_ Hnn].
        apply Hnn. by rewrite <- Hn0. }
  assert (v1 = v) as -> by congruence.
  destruct (lower_map_last _ _ _ Hl1) as (before & after & Hsplit & Hafter).
  exists before, s, after. split; [done |]. split.
  { apply norm_variant; auto. }
  split.
  { intros h' Hh' Hvar'. apply (Hafter h' Hh'). by apply variant_norm. }
  apply normalize_columns_lookup. exists s. split.
  - rewrite Hsplit. rewrite lookup_app_r by lia. by rewrite Nat.sub_diag.
  - assert (Hr : build_renames columns !! s = Some c).
    { apply aliases_renames_lookup. eauto. }
    by rewrite Hr.
Qed.

Lemma index_of_same_places x (l1 l2 : list string) :
  length l1 = length l2 ->
  (forall i, l1 !! i = Some x <-> l2 !! i = Some x) ->
  index_of x l1 = index_of x l2.
Proof.
  revert l2. induction l1 as [|a l1 IH]; intros [|b l2] Hlen Hsame;
    simpl in *; try done; try lia.
  destruct (String.eqb_spec a x) as [->|Ha];
    destruct (String.eqb_spec b x) as [->|Hb].
  - done.
  - pose proof (proj1 (Hsame 0) eq_refl) as E. simpl in E. congruence.
  - pose proof (proj2 (Hsame 0) eq_refl) as E. simpl in E. congruence.
  - rewrite (IH l2); [done | lia |]. intros i. apply (Hsame (S i)).
Qed.

Lemma index_of_processed_normalize columns :
  index_of "Processed" (normalize_columns columns) =
  index_of "Processed" columns.
Proof.
  apply index_of_same_places; [apply length_normalize |].
  intros i. apply processed_kept.
Qed.

(** X4.  The normalizer leaves the [Processed] column where it is, so the
    column the ledger filter reads is the column of the sheet header. *)
Theorem processed_column_fixed (columns : list string) :
  index_of "Processed" (normalize_columns columns) =
  index_of "Processed" columns /\
  length (normalize_columns columns) = length columns.
Proof.
  split; [apply index_of_processed_normalize | apply length_normalize].
Qed.


(** * More on [ensure_column] and on the archive worksheet *)

Lemma index_of_lookup_first x xs j :
  index_of x xs = Some j ->
  xs !! j = Some x /\ forall i, i < j -> xs !! i <> Some x.
Proof.
  intros Hj. split; [by apply index_of_lookup |].
  intros i Hlt Hi. by apply (index_of_first x xs j i x Hj Hlt Hi).
Qed.

(** What [ensure_column] does, on any worksheet. *)
Lemma ensure_column_spec ws name :
  name <> EmptyString ->
  exists ws' j,
    ensure_column ws name = (ws', Some (S j)) /\
    index_of name (row_values ws' 1) = Some j /\
    tail ws' = tail ws /\
    (name ∈ row_values ws 1 /\ ws' = ws \/
     (name ∉ row_values ws 1) /\
     row_values ws' 1 = row_values ws 1 ++ [name]).
Proof.
  intros Hne. destruct (decide (name ∈ row_values ws 1)) as [Hin|Hnin].
  - destruct (ensure_column_present ws name Hin) as (j & He & Hj).
    exists ws, j. split; [done |]. split; [done |]. split; [done |]. by left.
  - destruct ws as [|hdr rest].
    + exists [[name]], 0. unfold ensure_column, row_values, update_cell, pad_to.
      simpl. destruct name as [|a name]; [done |]. simpl.
      rewrite Ascii.eqb_refl, String.eqb_refl. simpl.
      split; [done |]. split; [done |]. split; [done |].
      right. split; [apply not_elem_of_nil | done].
    + unfold row_values in Hnin. cbn [nth Nat.pred] in Hnin.
      destruct (ensure_column_absent hdr rest name Hne Hnin) as (hdr' & He & Ht).
      exists (hdr' :: rest), (length (trim_row hdr)).
      unfold row_values. cbn [nth Nat.pred]. rewrite Ht.
      repeat split; auto.
      by apply index_of_snoc.
Qed.

(** X5.  [ensure_column] returns the position, counted from 1, of the first
    header with the name; it leaves the data rows as they are and the
    headers that were there in their places. *)
Theorem ensure_column_position (ws : worksheet) (name : string) :
  name <> EmptyString ->
  exists j,
    (ensure_column ws name).2 = Some (S j) /\
    row_values (ensure_column ws name).1 1 !! j = Some name /\
    (forall i, i < j -> row_values (ensure_column ws name).1 1 !! i <> Some name) /\
    tail (ensure_column ws name).1 = tail ws /\
    row_values ws 1 `prefix_of` row_values (ensure_column ws name).1 1.
Proof.
  intros Hne.
  destruct (ensure_column_spec ws name Hne) as (ws' & j & -> & Hj & Ht & Hcase).
  exists j. cbn [fst snd].
  destruct (index_of_lookup_first _ _ _ Hj) as [Hl Hfirst].
  repeat split; auto.
  destruct Hcase as [[_ ->]|[_ ->]]; [done |]. by apply prefix_app_r.
Qed.

(** X6.  A second [ensure_column] writes nothing and returns the same
    position. *)
Theorem ensure_column_idempotent (ws : worksheet) (name : string) :
  name <> EmptyString ->
  ensure_column (ensure_column ws name).1 name = ensure_column ws name.
Proof.
  intros Hne.
  destruct (ensure_column_spec ws name Hne) as (ws' & j & -> & Hj & _).
  cbn [fst].
  assert (Hin : name ∈ row_values ws' 1).
  { apply (list_elem_of_lookup_2 _ j). by apply index_of_lookup. }
  destruct (ensure_column_present ws' name Hin) as (j' & -> & Hj').
  congruence.
Qed.

Lemma open_archive_new_handle cfg wb :
  wb_worksheet (PROCESSED_SHEET cfg) wb = None ->
  (open_archive cfg wb).2 = Other (length (wb_others wb)).
Proof. intros H. unfold open_archive. by rewrite H. Qed.

Lemma wb_worksheet_created title (wb : workbook) ws :
  wb_worksheet title wb = None ->
  wb_worksheet title
    {| wb_sheet1 := wb_sheet1 wb; wb_others := wb_others wb ++ [(title, ws)] |} =
  Some (Other (length (wb_others wb))).
Proof.
  unfold wb_worksheet. cbn [wb_sheet1 wb_others].
  destruct (String.eqb (wb_sheet1 wb).1 title); [done |].
  destruct (index_of title (map fst (wb_others wb))) as [k|] eqn:Hk; [done |].
  intros _. apply index_of_None in Hk.
  rewrite map_app. cbn [map fst].
  rewrite index_of_snoc by done. by rewrite length_map.
Qed.

Lemma open_archive_found cfg wb :
  wb_worksheet (PROCESSED_SHEET cfg) (open_archive cfg wb).1 =
  Some (open_archive cfg wb).2.
Proof.
  destruct (open_archive_others cfg wb) as [[[h Hs] Hb]|[Hn Hb]].
  - rewrite Hb. unfold open_archive. by rewrite Hs.
  - rewrite Hb, (open_archive_new_handle cfg wb Hn).
    exact (wb_worksheet_created _ wb [archive_header] Hn).
Qed.

Lemma open_archive_known cfg wb h :
  wb_worksheet (PROCESSED_SHEET cfg) wb = Some h -> open_archive cfg wb = (wb, h).
Proof. intros H. unfold open_archive. by rewrite H. Qed.

Lemma open_archive_again cfg wb :
  open_archive cfg (open_archive cfg wb).1 = open_archive cfg wb.
Proof.
  rewrite (open_archive_known _ _ _ (open_archive_found cfg wb)).
  by destruct (open_archive cfg wb).
Qed.

(** X7.  "ensure Processed sheet exists" is idempotent; a worksheet of that
    title is used as it is, and one created holds the header row only. *)
Theorem open_archive_idempotent (cfg : Config) (wb : workbook) :
  open_archive cfg (open_archive cfg wb).1 = open_archive cfg wb /\
  (is_Some (wb_worksheet (PROCESSED_SHEET cfg) wb) ->
   (open_archive cfg wb).1 = wb) /\
  (wb_worksheet (PROCESSED_SHEET cfg) wb = None ->
   wb_read (open_archive cfg wb).2 (open_archive cfg wb).1 = [archive_header]).
Proof.
  split; [apply open_archive_again |]. split.
  - intros [h Hs]. by rewrite (open_archive_known _ _ _ Hs).
  - intros Hn.
    destruct (open_archive_others cfg wb) as [[[h Hs] Hb]|[_ Hb]]; [congruence |].
    rewrite Hb, (open_archive_new_handle cfg wb Hn). cbn [wb_read wb_others].
    rewrite lookup_app_r by (unfold worksheet; lia).
    unfold worksheet. by rewrite Nat.sub_diag.
Qed.


(** * The run as a whole *)

Section Outcome.
Context {J : JsonLib}.
Variable cfg : Config.

(** The three ways the run goes on from a sheet that holds records under
    distinct keys. *)
Lemma select_outcome wb :
  df_empty (load_df (wb_sheet1 wb).2) = false ->
  records_raise (wb_sheet1 wb).2 = false ->
  exists st1 j,
    out st1 = [] /\ updates_made st1 = 0 /\
    wb_others (book st1) = wb_others (open_archive cfg wb).1 /\
    (wb_sheet1 (book st1)).1 = (wb_sheet1 wb).1 /\
    tail (wb_read Sheet1 (book st1)) = tail (wb_sheet1 wb).2 /\
    df_empty (load_df (wb_read Sheet1 (book st1))) = false /\
    records_raise (wb_read Sheet1 (book st1)) = false /\
    index_of "Processed" (row_values (wb_read Sheet1 (book st1)) 1) = Some j /\
    (forall c, c ∈ missing_cols
                 (normalize_columns (header_keys (wb_read Sheet1 (book st1)))) <->
       exists vs, (c, vs) ∈ aliases /\
                  ~ resolved (row_values (wb_sheet1 wb).2 1) (c, vs)) /\
    (book st1 = (open_archive cfg wb).1 \/
     "Processed" ∉ row_values (wb_sheet1 wb).2 1) /\
    select cfg wb =
      let cols := normalize_columns (header_keys (wb_read Sheet1 (book st1))) in
      let rows :=
        filter (fun r => row_get cols r.2 "Processed" <> "Yes")
          (df_rows (load_df (wb_read Sheet1 (book st1)))) in
      match missing_cols cols with
      | _ :: _ =>
          inl (die (DieMissingColumns (missing_cols cols))
                 (emit (PrintColumnsPresent cols) st1))
      | [] =>
          match rows with
          | [] => inl {| res_status := Exit 0;
                         res_state := emit PrintNoNewInquiries st1 |}
          | _ :: _ => inr (st1, (open_archive cfg wb).2,
                           {| df_columns := cols; df_rows := rows |})
          end
      end.
Proof.
  intros Hne Hrr.
  pose proof (open_archive_sheet1 cfg wb) as Hs1.
  unfold select.
  destruct (open_archive cfg wb) as [wb1 h] eqn:Hoa. cbn [fst snd] in *.
  set (st0 := {| book := wb1; out := []; updates_made := 0 |}).
  assert (Hrd : wb_read Sheet1 (book st0) = (wb_sheet1 wb).2).
  { simpl. by rewrite Hs1. }
  change (wb_read Sheet1 wb1) with (wb_read Sheet1 (book st0)).
  rewrite <- Hrd in Hne, Hrr. rewrite Hrr, Hne.
  destruct (ensure_processed_ok st0 Hne Hrr)
    as (st1 & -> & Ho & Hu & Hot & Ht & Htl & Hne1 & Hrr1 & Hp & Hcase).
  destruct (index_of_elem _ _ Hp) as [j Hj].
  exists st1, j. rewrite Ho, Hu, Hot, Ht, Htl, Hrd. cbn [book st0].
  rewrite Hs1.
  split; [done |]. split; [done |]. split; [done |]. split; [done |].
  split; [done |]. split; [done |]. split; [done |]. split; [done |].
  split; [| split].
  - intros c. rewrite missing_unresolved.
    assert (Hres : forall e, e ∈ aliases ->
              resolved (header_keys (wb_read Sheet1 (book st1))) e <->
              resolved (row_values (wb_sheet1 wb).2 1) e).
    { intros e He. destruct Hcase as [->|(_ & _ & ->)].
      - rewrite Hrd. by apply resolved_header_keys.
      - rewrite Hrd. by apply resolved_with_processed. }
    split; intros (vs & Hc & Hn); exists vs; (split; [done |]).
    + by rewrite <- Hres.
    + by rewrite Hres.
  - destruct Hcase as [->|(Hn & _)]; [by left | right]. by rewrite <- Hrd.
  - rewrite (df_columns_load _ Hne1). cbn [df_columns df_rows]. cbv zeta.
    set (cols := normalize_columns _).
    destruct (missing_cols cols) as [|m ms]; [| done].
    set (df := {| df_columns := cols; df_rows := _ |}).
    assert (Hpc : "Processed" ∈ df_columns df).
    { apply processed_in_normalized. by apply elem_of_header_keys. }
    destruct (new_rows_df_filter df Hpc) as (j' & _ & ->).
    cbn [df_columns df_rows]. unfold df_empty. cbn [df_columns df_rows].
    destruct cols as [|c0 cols']; [by apply elem_of_nil in Hpc |].
    by destruct (filter _ _).
Qed.


End Outcome.


(** * What the loop writes, sheet by sheet *)

Lemma length_update_cell (ws : worksheet) r c v :
  length (update_cell ws r c v) = Nat.max (length ws) r.
Proof.
  unfold update_cell, pad_to.
  rewrite length_alter, length_app, length_replicate. lia.
Qed.

Lemma head_update_cell (ws : worksheet) r c v :
  2 <= r -> nth 0 (update_cell ws r c v) [] = nth 0 ws [].
Proof.
  intros Hr. unfold update_cell.
  rewrite nth_lookup, list_lookup_alter_ne by lia.
  rewrite <- nth_lookup. apply nth_pad_rows.
Qed.

Lemma nth_pad_cells (cells : list string) n i :
  nth i (pad_to n EmptyString cells) EmptyString = nth i cells EmptyString.
Proof.
  unfold pad_to. rewrite !nth_lookup.
  destruct (decide (i < length cells)) as [Hlt|Hge].
  - by rewrite lookup_app_l.
  - rewrite lookup_app_r by lia.
    rewrite (proj2 (lookup_ge_None cells i)) by lia.
    destruct (replicate _ _ !! _) as [x|] eqn:Hx; [| done].
    by apply lookup_replicate_1 in Hx as [-> _].
Qed.

Lemma cell_at_update_column ws r r' c c' v :
  c <> c' -> 0 < c -> 0 < c' -> 0 < r -> 0 < r' ->
  cell_at (update_cell ws r' c' v) r c = cell_at ws r c.
Proof.
  intros Hc H0 H0' Hr Hr'. destruct (decide (r = r')) as [<-|Hne].
  - unfold cell_at, update_cell.
    assert (Hlen : Nat.pred r < length (pad_to r [] ws)).
    { unfold pad_to. rewrite length_app, length_replicate. lia. }
    destruct (lookup_lt_is_Some_2 _ _ Hlen) as [cells Hcells].
    rewrite (nth_lookup_Some _ _ _
               (<[Nat.pred c':=v]> (pad_to c' EmptyString cells))).
    + rewrite <- (nth_pad_rows ws r (Nat.pred r)).
      rewrite (nth_lookup_Some _ _ _ cells Hcells).
      rewrite nth_lookup, list_lookup_insert_ne by lia.
      rewrite <- nth_lookup. apply nth_pad_cells.
    + by rewrite list_lookup_alter_eq, Hcells.
  - by apply cell_at_update_other.
Qed.

Section LedgerParts.
Variable w : World.

(** The marks of the loop on the source worksheet. *)
Lemma ledger_step_sheet1 i c idx values b :
  wb_sheet1 (ledger_step w Sheet1 (Other i) c idx values b) =
  ((wb_sheet1 b).1,
   match mark_update w idx with
   | None => update_cell (wb_sheet1 b).2 (idx + 2) c "Yes"
   | Some _ => (wb_sheet1 b).2
   end).
Proof.
  unfold ledger_step. destruct b as [[t ws] others].
  by destruct (mark_update w idx), (archive_append w idx).
Qed.

(** The appends of the loop on the other worksheets. *)
Lemma ledger_step_others i c idx values b :
  wb_others (ledger_step w Sheet1 (Other i) c idx values b) =
  match archive_append w idx with
  | None => alter (fun p => (p.1, p.2 ++ [values])) i (wb_others b)
  | Some _ => wb_others b
  end.
Proof.
  unfold ledger_step.
  destruct (mark_update w idx), (archive_append w idx); try done;
    cbn [wb_write wb_read wb_others wb_sheet1]; unfold append_row;
    apply list_alter_ext; try done; intros x Hx;
    unfold worksheet in *; by rewrite Hx.
Qed.

Lemma ledger_loop_sheet1 i c (vals : nat * list string -> list string) rows b :
  wb_sheet1
    (foldl (fun b x => ledger_step w Sheet1 (Other i) c x.1 (vals x) b) b rows) =
  ((wb_sheet1 b).1,
   foldl (fun ws x => match mark_update w x.1 with
                      | None => update_cell ws (x.1 + 2) c "Yes"
                      | Some _ => ws
                      end) (wb_sheet1 b).2 rows).
Proof.
  revert b. induction rows as [|x rows IH]; intros b;
    [cbn [foldl]; by destruct (wb_sheet1 b) |].
  cbn [foldl]. by rewrite IH, ledger_step_sheet1.
Qed.

Lemma ledger_loop_others i c (vals : nat * list string -> list string) rows b :
  wb_others
    (foldl (fun b x => ledger_step w Sheet1 (Other i) c x.1 (vals x) b) b rows) =
  alter (fun p => (p.1, p.2 ++ map vals
                          (filter (fun x => archive_append w x.1 = None) rows)))
    i (wb_others b).
Proof.
  revert b. induction rows as [|x rows IH]; intros b.
  - cbn [foldl]. symmetry. apply list_alter_id. intros [t ws]. simpl.
    by rewrite app_nil_r.
  - cbn [foldl]. rewrite IH, ledger_step_others.
    destruct (archive_append w x.1) as [e|] eqn:Ha.
    + by rewrite filter_cons_False by by rewrite Ha.
    + rewrite filter_cons_True by done. rewrite list_alter_alter_eq.
      apply list_alter_ext; [| done]. intros [t ws] _. simpl.
      by rewrite <- app_assoc.
Qed.

(** The source worksheet after the marks of the loop. *)
Lemma marks_fold (ws : worksheet) c (rows : list (nat * list string)) :
  0 < c ->
  let ws' := foldl (fun ws x => match mark_update w x.1 with
                                | None => update_cell ws (x.1 + 2) c "Yes"
                                | Some _ => ws
                                end) ws rows in
  nth 0 ws' [] = nth 0 ws [] /\
  ((forall x, x ∈ rows -> x.1 + 2 <= length ws) -> length ws' = length ws) /\
  forall r c', 0 < r -> 0 < c' ->
    cell_at ws' r c' = cell_at ws r c' \/
    c' = c /\ cell_at ws' r c' = "Yes" /\
    exists x, x ∈ rows /\ r = x.1 + 2 /\ mark_update w x.1 = None.
Proof.
  intros Hc. induction rows as [|x rows IH] using rev_ind.
  - cbn [foldl]. split; [done |]. split; [done |]. intros. by left.
  - cbv zeta in *. rewrite foldl_app. cbn [foldl].
    set (ws1 := foldl _ ws rows) in *.
    destruct IH as (Hh & Hl & Hcell).
    assert (Hcell' : forall r c', 0 < r -> 0 < c' ->
              cell_at ws1 r c' = cell_at ws r c' \/
              c' = c /\ cell_at ws1 r c' = "Yes" /\
              exists y, y ∈ rows ++ [x] /\ r = y.1 + 2 /\
                        mark_update w y.1 = None).
    { intros r c' Hr Hc'. destruct (Hcell r c' Hr Hc') as [E|(E1 & E2 & y & Hy & E3)].
      - by left.
      - right. split; [done |]. split; [done |]. exists y. split; [| done].
        apply elem_of_app. by left. }
    destruct (mark_update w x.1) as [e|] eqn:Hm.
    + split; [done |]. split; [| done].
      intros Hall. apply Hl. intros y Hy. apply Hall, elem_of_app. by left.
    + split; [by rewrite head_update_cell by lia |]. split.
      * intros Hall. rewrite length_update_cell, Hl.
        -- assert (x.1 + 2 <= length ws); [| lia].
           apply Hall, elem_of_app. right. by apply list_elem_of_singleton.
        -- intros y Hy. apply Hall, elem_of_app. by left.
      * intros r c' Hr Hc'.
        destruct (decide (r = x.1 + 2 /\ c' = c)) as [[-> ->]|Hne].
        -- right. split; [done |]. split; [apply cell_at_update_same; lia |].
           exists x. split; [| done]. apply elem_of_app. right.
           by apply list_elem_of_singleton.
        -- assert (E : cell_at (update_cell ws1 (x.1 + 2) c "Yes") r c' =
                       cell_at ws1 r c').
           { destruct (decide (c' = c)) as [->|Hcc].
             - apply cell_at_update_other; [| done | lia].
               intros ->. by apply Hne.
             - apply cell_at_update_column; try done. lia. }
           rewrite E. by apply Hcell'.
Qed.

End LedgerParts.


(** * The workbook after the loop *)

Lemma open_archive_handle_valid cfg wb i :
  (open_archive cfg wb).2 = Other i ->
  i < length (wb_others (open_archive cfg wb).1).
Proof.
  intros Hh. pose proof (open_archive_found cfg wb) as Hf.
  rewrite Hh in Hf. unfold wb_worksheet in Hf.
  destruct (String.eqb _ _); [done |].
  destruct (index_of _ _) as [k|] eqn:Hk; [| done].
  injection Hf as ->. apply index_of_lookup, lookup_lt_Some in Hk.
  by rewrite length_map in Hk.
Qed.

Lemma cell_at_tail (ws ws' : worksheet) r c :
  tail ws = tail ws' -> 2 <= r -> cell_at ws r c = cell_at ws' r c.
Proof.
  intros Ht Hr. unfold cell_at. f_equal.
  destruct r as [|[|r]]; [lia | lia |]. cbn [Nat.pred].
  destruct ws as [|a ws], ws' as [|a' ws']; simpl in *; subst; try done.
  - by destruct r.
  - by destruct r.
Qed.

Lemma length_tail_eq (ws ws' : worksheet) :
  tail ws = tail ws' -> ws <> [] -> ws' <> [] -> length ws = length ws'.
Proof.
  destruct ws, ws'; try done. simpl. by intros ->.
Qed.

Section AfterLoop.
Context {J : JsonLib}.
Variable cfg : Config.

(** More of what the run selected. *)
Lemma select_inr_more wb st h sel :
  select cfg wb = inr (st, h, sel) ->
  wb_others (book st) = wb_others (open_archive cfg wb).1 /\
  (wb_sheet1 (book st)).1 = (wb_sheet1 wb).1 /\
  df_empty (load_df (wb_sheet1 wb).2) = false /\
  df_empty (load_df (wb_read Sheet1 (book st))) = false /\
  (row_values (wb_read Sheet1 (book st)) 1 = row_values (wb_sheet1 wb).2 1 \/
   row_values (wb_read Sheet1 (book st)) 1 =
     row_values (wb_sheet1 wb).2 1 ++ ["Processed"]) /\
  (forall x, x ∈ df_rows sel ->
     x ∈ df_rows (load_df (wb_read Sheet1 (book st))) /\
     x.1 + 2 <= length (wb_read Sheet1 (book st))).
Proof.
  intros Hsel.
  destruct (records_raise (wb_sheet1 wb).2) eqn:Hrr.
  { by rewrite (select_raise cfg wb Hrr) in Hsel. }
  destruct (df_empty (load_df (wb_sheet1 wb).2)) eqn:He.
  { by rewrite (select_no_data cfg wb He) in Hsel. }
  destruct (select_data cfg wb He Hrr)
    as (st1 & Ho & Hu & Hot & Ht & Htl & Hne1 & Hrr1 & Hp & Hcase & Heq).
  destruct (select_inr cfg wb st h sel Hsel)
    as (_ & _ & _ & _ & _ & _ & Hrows & _).
  rewrite Heq in Hsel. cbv zeta in Hsel.
  destruct (missing_cols _); [| done].
  destruct (new_rows_df _) as [sel'|]; [| done].
  destruct (df_empty sel'); [done |].
  injection Hsel as <- _ _.
  split; [done |]. split; [done |]. split; [done |]. split; [done |]. split.
  { destruct Hcase as [E|(_ & E & _)]; [left; by rewrite E | by right]. }
  intros [idx row] Hx. rewrite Hrows in Hx.
  apply list_elem_of_filter in Hx as [_ Hx]. split; [done |].
  destruct (load_df_row _ _ _ Hx) as (cells & Hcells & _).
  apply lookup_lt_Some in Hcells. cbn [fst]. unfold worksheet in *. lia.
Qed.

Variable w : World.

(** The workbook at the end of a run that went through the loop with an
    archive worksheet other than the source worksheet. *)
Lemma book_after_loop wb st i sel :
  select cfg wb = inr (st, Other i, sel) ->
  exists j,
    index_of "Processed" (row_values (wb_read Sheet1 (book st)) 1) = Some j /\
    wb_sheet1 (book_after cfg w wb) =
      ((wb_sheet1 wb).1,
       foldl (fun ws x => match mark_update w x.1 with
                          | None => update_cell ws (x.1 + 2) (S j) "Yes"
                          | Some _ => ws
                          end) (wb_read Sheet1 (book st)) (df_rows sel)) /\
    wb_others (book_after cfg w wb) =
      alter (fun p => (p.1, p.2 ++
               map (archive_values w (df_columns sel) (setup_openai cfg w).2)
                 (filter (fun x => archive_append w x.1 = None) (df_rows sel))))
        i (wb_others (open_archive cfg wb).1).
Proof.
  intros Hsel.
  destruct (script_loop cfg w wb st _ sel Hsel) as (j & Hj & _ & _ & _ & Hb).
  destruct (select_inr_more wb st _ sel Hsel) as (Hot & Ht & _).
  exists j. split; [done |]. unfold book_after. rewrite Hb.
  by rewrite ledger_loop_sheet1, ledger_loop_others, Hot, Ht.
Qed.

(** X9.  The loop only appends to the archive worksheet: afterwards it holds
    what it held, followed by one row for each selected row whose append
    succeeded, in the order of the rows; no other worksheet than the source
    and the archive changes. *)
Theorem archive_append_only (wb : workbook) (st : state) (i : nat)
    (sel : DataFrame) :
  select cfg wb = inr (st, Other i, sel) ->
  wb_read (Other i) (book_after cfg w wb) =
    wb_read (Other i) (open_archive cfg wb).1 ++
    map (archive_values w (df_columns sel) (setup_openai cfg w).2)
      (filter (fun r => archive_append w r.1 = None) (df_rows sel)) /\
  forall k, k <> i ->
    wb_others (book_after cfg w wb) !! k = wb_others (open_archive cfg wb).1 !! k.
Proof.
  intros Hsel.
  destruct (book_after_loop wb st i sel Hsel) as (j & _ & _ & Ho).
  destruct (select_inr cfg wb st _ sel Hsel) as (_ & _ & _ & _ & Hh & _).
  symmetry in Hh. apply open_archive_handle_valid in Hh.
  destruct (lookup_lt_is_Some_2 _ _ Hh) as [[t ws] Hi].
  split.
  - cbn [wb_read]. rewrite Ho, list_lookup_alter_eq.
    unfold worksheet in *. by rewrite Hi.
  - intros k Hk. rewrite Ho. by rewrite list_lookup_alter_ne.
Qed.

(** X10.  On the source worksheet the loop changes nothing but the
    [Processed] cells of selected rows whose mark succeeded: the header row
    and the number of rows stay, and every other cell of a data row holds
    what the workbook held when it was opened. *)
Theorem source_sheet_frame (wb : workbook) (st : state) (i : nat)
    (sel : DataFrame) :
  select cfg wb = inr (st, Other i, sel) ->
  exists j,
    index_of "Processed" (row_values (wb_read Sheet1 (book st)) 1) = Some j /\
    row_values (wb_read Sheet1 (book_after cfg w wb)) 1 =
      row_values (wb_read Sheet1 (book st)) 1 /\
    (row_values (wb_read Sheet1 (book st)) 1 = row_values (wb_sheet1 wb).2 1 \/
     row_values (wb_read Sheet1 (book st)) 1 =
       row_values (wb_sheet1 wb).2 1 ++ ["Processed"]) /\
    length (wb_read Sheet1 (book_after cfg w wb)) = length (wb_sheet1 wb).2 /\
    forall r c, 2 <= r -> 0 < c ->
      cell_at (wb_read Sheet1 (book_after cfg w wb)) r c =
        cell_at (wb_sheet1 wb).2 r c \/
      c = S j /\
      cell_at (wb_read Sheet1 (book_after cfg w wb)) r c = "Yes" /\
      exists row, (r - 2, row) ∈ df_rows sel /\ mark_update w (r - 2) = None.
Proof.
  intros Hsel.
  destruct (book_after_loop wb st i sel Hsel) as (j & Hj & Hs & _).
  destruct (select_inr cfg wb st _ sel Hsel) as (_ & _ & _ & Htl & _).
  destruct (select_inr_more wb st _ sel Hsel) as (_ & _ & He & He1 & Hcase & Hin).
  destruct (marks_fold w (wb_read Sheet1 (book st)) (S j) (df_rows sel))
    as (Hh & Hl & Hcell); [lia |].
  exists j. split; [done |].
  cbn [wb_read]. rewrite Hs. cbn [snd].
  split; [| split; [done |]; split].
  - unfold row_values. cbn [Nat.pred]. by rewrite Hh.
  - rewrite Hl by (intros x Hx; by apply Hin).
    apply length_tail_eq; [done | |].
    + destruct (load_df_not_empty _ He1) as (? & ? & ? & -> & _). done.
    + destruct (load_df_not_empty _ He) as (? & ? & ? & -> & _). done.
  - intros r c Hr Hc.
    destruct (Hcell r c) as [E|(-> & E & [idx row] & Hx & -> & Hm)]; [lia | lia | |].
    + left. rewrite E. by apply cell_at_tail.
    + right. split; [done |]. split; [done |]. exists row.
      simpl in *. replace (idx + 2 - 2) with idx by lia. done.
Qed.

End AfterLoop.


(** * Running the script again *)

(** The values of a row and of a sheet, read cell by cell *)

Lemma trim_row_length_le cells n :
  length (trim_row cells) <= n <->
  forall i, n <= i -> nth i cells EmptyString = EmptyString.
Proof.
  revert n. induction cells as [|c cs IH]; intros n.
  - simpl. split; [intros _ i _; by destruct i | lia].
  - cbn [trim_row]. destruct (trim_row cs) as [|x cs'] eqn:E.
    + pose proof (proj1 (IH 0) ltac:(simpl; lia)) as Hcs.
      destruct c as [|a c']; cbn [Py.truthy length].
      * split; [| lia]. intros _ [|i] _; [done | apply Hcs; lia].
      * split.
        -- intros Hn [|i] Hi; [lia | apply Hcs; lia].
        -- intros H. destruct n; [by specialize (H 0 ltac:(lia)) | lia].
    + cbn [length]. destruct n as [|n].
      * split; [lia |]. intros H. exfalso.
        assert (Hle : length (x :: cs') <= 0); [| simpl in Hle; lia].
        apply IH. intros i _. apply (H (S i)). lia.
      * rewrite <- Nat.succ_le_mono, (IH n). split.
        -- intros H [|i] Hi; [lia |]. apply H. lia.
        -- intros H i Hi. apply (H (S i)). lia.
Qed.

Lemma blank_row_cells cells :
  blank_row cells = true <-> forall i, nth i cells EmptyString = EmptyString.
Proof.
  rewrite blank_row_trim. split.
  - intros E i. apply (proj1 (trim_row_length_le cells 0)); [rewrite E; simpl |]; lia.
  - intros H. assert (Hle : length (trim_row cells) <= 0).
    { apply trim_row_length_le. intros i _. apply H. }
    destruct (trim_row cells); [done | simpl in Hle; lia].
Qed.

Lemma blank_row_length cells :
  blank_row cells = true <-> length (trim_row cells) = 0.
Proof. rewrite blank_row_trim. by destruct (trim_row cells). Qed.

Lemma used_rows_length_le ws n :
  length (used_rows ws) <= n <->
  forall i, n <= i -> blank_row (nth i ws []) = true.
Proof.
  revert n. induction ws as [|r rs IH]; intros n.
  - simpl. split; [intros _ i _; by destruct i | lia].
  - cbn [used_rows]. destruct (used_rows rs) as [|x rs'] eqn:E.
    + pose proof (proj1 (IH 0) ltac:(simpl; lia)) as Hrs.
      destruct (blank_row r) eqn:Hb; cbn [length].
      * split; [| lia]. intros _ [|i] _; [done | apply Hrs; lia].
      * split.
        -- intros Hn [|i] Hi; [lia | apply Hrs; lia].
        -- intros H. destruct n; [| lia].
           specialize (H 0 ltac:(lia)). simpl in H. congruence.
    + cbn [length]. destruct n as [|n].
      * split; [lia |]. intros H. exfalso.
        assert (Hle : length (x :: rs') <= 0); [| simpl in Hle; lia].
        apply IH. intros i _. apply (H (S i)). lia.
      * rewrite <- Nat.succ_le_mono, (IH n). split.
        -- intros H [|i] Hi; [lia |]. apply H. lia.
        -- intros H i Hi. apply (H (S i)). lia.
Qed.

Lemma sheet_width_le ws n :
  sheet_width ws <= n <-> forall i, length (trim_row (nth i ws [])) <= n.
Proof.
  induction ws as [|r rs IH].
  - simpl. split; [intros _ i; destruct i; simpl; lia | lia].
  - rewrite sheet_width_cons. split.
    + intros H [|i]; [simpl; lia |]. simpl. apply IH. lia.
    + intros H. pose proof (H 0) as H0. simpl in H0.
      assert (sheet_width rs <= n); [| lia].
      apply IH. intros i. apply (H (S i)).
Qed.

Lemma has_records_used ws : has_records ws <-> 2 <= length (used_rows ws).
Proof.
  split.
  - intros (hdr & d & data & rest & _ & _ & E)%has_records_shape.
    rewrite E. simpl. lia.
  - intros Hl.
    destruct (used_rows ws) as [|h [|d data]] eqn:E; try (simpl in Hl; lia).
    by eapply used_rows_records.
Qed.

(** The [Processed] value the ledger filter reads for a row is the cell of
    the sheet two rows below the label, in the column of the header. *)
Lemma load_df_processed ws idx row j :
  (idx, row) ∈ df_rows (load_df ws) ->
  index_of "Processed" (row_values ws 1) = Some j ->
  row_get (normalize_columns (header_keys ws)) row "Processed" =
  cell_at ws (idx + 2) (S j).
Proof.
  intros Hin Hj. destruct (load_df_row _ _ _ Hin) as (cells & Hcells & -> & _).
  unfold row_get.
  rewrite index_of_processed_normalize, (index_of_header_keys _ _ _ Hj).
  assert (Hlt : j < sheet_width ws).
  { apply index_of_lookup, lookup_lt_Some in Hj.
    pose proof (prefix_length _ _ (header_keys_prefix ws)) as Hp.
    rewrite length_header_keys in Hp. lia. }
  unfold cell_at. replace (Nat.pred (idx + 2)) with (S idx) by lia.
  cbn [Nat.pred]. rewrite (nth_lookup_Some ws (S idx) [] cells Hcells).
  rewrite nth_lookup, lookup_take_lt by done.
  rewrite <- nth_lookup. apply nth_pad_cells.
Qed.

Lemma load_df_labels ws idx :
  S idx < length (used_rows ws) ->
  exists row, (idx, row) ∈ df_rows (load_df ws).
Proof.
  intros Hlt. unfold load_df.
  destruct (used_rows ws) as [|h [|d data]] eqn:E; try (simpl in Hlt; lia).
  cbn [df_rows].
  destruct (lookup_lt_is_Some_2 (d :: data) idx) as [cells Hc].
  { simpl in *. lia. }
  eexists. apply elem_of_lookup_imap. exists idx, cells. split; [reflexivity | done].
Qed.

Lemma load_df_label_bound ws idx row :
  (idx, row) ∈ df_rows (load_df ws) -> S idx < length (used_rows ws).
Proof.
  unfold load_df.
  destruct (used_rows ws) as [|h [|d data]]; cbn [df_rows];
    try by intros ?%elem_of_nil.
  intros (i & cells & [= -> _] & Hi%lookup_lt_Some)%elem_of_lookup_imap.
  simpl in *. lia.
Qed.

(** A sheet in which some cells of one column were set to a value: it has
    the records, the width and the keys of the sheet before, when the
    column is a column of the header and the cells are cells of records. *)
Lemma marked_sheet_shape (ws ws' : worksheet) j (marked : nat -> Prop) :
  nth 0 ws' [] = nth 0 ws [] ->
  j < length (row_values ws 1) ->
  (forall i k,
     nth k (nth i ws' []) EmptyString = nth k (nth i ws []) EmptyString \/
     k = j /\ nth k (nth i ws' []) EmptyString = "Yes" /\ marked i) ->
  (forall i, marked i -> i < length (used_rows ws)) ->
  length (used_rows ws') = length (used_rows ws) /\
  sheet_width ws' = sheet_width ws /\
  header_keys ws' = header_keys ws /\
  row_values ws' 1 = row_values ws 1.
Proof.
  intros Hh Hj Hcell Hmarked.
  assert (H1 : forall i, length (trim_row (nth i ws [])) <=
                         length (trim_row (nth i ws' []))).
  { intros i. apply trim_row_length_le. intros k Hk.
    pose proof (proj1 (trim_row_length_le (nth i ws' []) _) (le_n _) k Hk) as Hn.
    destruct (Hcell i k) as [E|(_ & E & _)]; congruence. }
  assert (H2 : forall i, length (trim_row (nth i ws' [])) <=
                         Nat.max (length (trim_row (nth i ws []))) (S j)).
  { intros i. apply trim_row_length_le. intros k Hk.
    destruct (Hcell i k) as [E|(-> & _)]; [| lia].
    rewrite E. apply (proj1 (trim_row_length_le (nth i ws []) _) (le_n _)). lia. }
  assert (Hw0 : length (row_values ws 1) <= sheet_width ws).
  { unfold row_values. cbn [Nat.pred].
    apply (proj1 (sheet_width_le ws _) (le_n _) 0). }
  assert (Hw : sheet_width ws' = sheet_width ws).
  { apply Nat.le_antisymm.
    - apply sheet_width_le. intros i. specialize (H2 i).
      pose proof (proj1 (sheet_width_le ws _) (le_n _) i). lia.
    - apply sheet_width_le. intros i. specialize (H1 i).
      pose proof (proj1 (sheet_width_le ws' _) (le_n _) i). lia. }
  assert (Hu : length (used_rows ws') = length (used_rows ws)).
  { apply Nat.le_antisymm.
    - apply used_rows_length_le. intros i Hi.
      pose proof (proj1 (used_rows_length_le ws _) (le_n _) i Hi) as Hb.
      apply blank_row_cells. intros k.
      destruct (Hcell i k) as [E|(_ & _ & Hm)].
      + rewrite E. by apply blank_row_cells.
      + apply Hmarked in Hm. lia.
    - apply used_rows_length_le. intros i Hi.
      pose proof (proj1 (used_rows_length_le ws' _) (le_n _) i Hi) as Hb.
      apply blank_row_length in Hb. apply blank_row_length.
      specialize (H1 i). lia. }
  split; [done |]. split; [done |]. split.
  - unfold header_keys. by rewrite Hw, Hh.
  - unfold row_values. cbn [Nat.pred]. by rewrite Hh.
Qed.

Lemma map_fst_alter {A B} (f : A * B -> B) i (l : list (A * B)) :
  map fst (alter (fun p => (p.1, f p)) i l) = map fst l.
Proof.
  revert i. induction l as [|p l IH]; intros [|i]; simpl; try done.
  f_equal. apply IH.
Qed.

Lemma wb_worksheet_titles title b b' :
  (wb_sheet1 b).1 = (wb_sheet1 b').1 ->
  map fst (wb_others b) = map fst (wb_others b') ->
  wb_worksheet title b = wb_worksheet title b'.
Proof. unfold wb_worksheet. by intros -> ->. Qed.

Section Again.
Context {J : JsonLib}.
Variable cfg : Config.

(** The run on a workbook that has its archive worksheet and its
    [Processed] column. *)
Lemma select_settled b h :
  wb_worksheet (PROCESSED_SHEET cfg) b = Some h ->
  df_empty (load_df (wb_sheet1 b).2) = false ->
  records_raise (wb_sheet1 b).2 = false ->
  "Processed" ∈ row_values (wb_sheet1 b).2 1 ->
  exists st',
    out st' = [] /\ updates_made st' = 0 /\ book st' = b /\
    select cfg b =
      let cols := normalize_columns (header_keys (wb_read Sheet1 b)) in
      let rows :=
        filter (fun r => row_get cols r.2 "Processed" <> "Yes")
          (df_rows (load_df (wb_read Sheet1 b))) in
      match missing_cols cols with
      | _ :: _ =>
          inl (die (DieMissingColumns (missing_cols cols))
                 (emit (PrintColumnsPresent cols) st'))
      | [] =>
          match rows with
          | [] => inl {| res_status := Exit 0;
                         res_state := emit PrintNoNewInquiries st' |}
          | _ :: _ => inr (st', h, {| df_columns := cols; df_rows := rows |})
          end
      end.
Proof.
  intros Hw He Hrr Hp.
  destruct (select_outcome cfg b He Hrr)
    as (st' & j & Ho & Hu & _ & _ & _ & _ & _ & _ & _ & Hbk & Hsel).
  rewrite (open_archive_known _ _ _ Hw) in Hbk, Hsel. cbn [fst snd] in Hbk, Hsel.
  destruct Hbk as [Hbk|Hn]; [| done].
  exists st'. split; [done |]. split; [done |]. split; [done |].
  rewrite Hsel, Hbk. reflexivity.
Qed.

(** X11.  A second run finds nothing to do.  When the archive worksheet is
    not the source worksheet and every mark of the first run is written, a
    run on the workbook the first run leaves behind ends as the first run
    did and leaves the workbook as it is; it processes no row, and on a
    sheet with records and resolved headers it reports that there is no new
    inquiry. *)
Theorem rerun_finds_nothing (w w' : World) (wb : workbook) :
  (wb_sheet1 wb).1 <> PROCESSED_SHEET cfg ->
  (forall idx, mark_update w idx = None) ->
  res_status (script cfg w' (book_after cfg w wb)) =
    res_status (script cfg w wb) /\
  book_after cfg w' (book_after cfg w wb) = book_after cfg w wb /\
  updates_made (res_state (script cfg w' (book_after cfg w wb))) = 0 /\
  (df_empty (load_df (wb_sheet1 wb).2) = false ->
   res_status (script cfg w wb) = Exit 0 ->
   out (res_state (script cfg w' (book_after cfg w wb))) =
     [PrintNoNewInquiries]).
Proof.
  intros Htitle Hmark.
  destruct (records_raise (wb_sheet1 wb).2) eqn:Hrr.
  { assert (E : book_after cfg w wb = (open_archive cfg wb).1).
    { unfold book_after, script. by rewrite (select_raise cfg wb Hrr). }
    assert (Es : res_status (script cfg w wb) = Uncaught).
    { unfold script. by rewrite (select_raise cfg wb Hrr). }
    rewrite E, Es.
    assert (Hrr' : records_raise (wb_sheet1 (open_archive cfg wb).1).2 = true).
    { by rewrite open_archive_sheet1. }
    unfold book_after, script. rewrite (select_raise cfg _ Hrr').
    cbn [res_state res_status book updates_made].
    by rewrite open_archive_again. }
  destruct (df_empty (load_df (wb_sheet1 wb).2)) eqn:He.
  { assert (E : book_after cfg w wb = (open_archive cfg wb).1).
    { unfold book_after, script. by rewrite (select_no_data cfg wb He). }
    assert (Es : res_status (script cfg w wb) = Exit 0).
    { unfold script. by rewrite (select_no_data cfg wb He). }
    rewrite E, Es.
    assert (He' : df_empty (load_df (wb_sheet1 (open_archive cfg wb).1).2) = true).
    { by rewrite open_archive_sheet1. }
    unfold book_after, script. rewrite (select_no_data cfg _ He').
    cbn [res_state res_status book updates_made].
    by rewrite open_archive_again. }
  destruct (select_outcome cfg wb He Hrr)
    as (st1 & j & Ho & Hu & Hot & Ht & Htl & Hne1 & Hrr1 & Hj & Hmiss & Hbk & Hsel).
  cbv zeta in Hsel.
  set (hs1 := row_values (wb_read Sheet1 (book st1)) 1) in *.
  set (ks1 := header_keys (wb_read Sheet1 (book st1))) in *.
  set (cols := normalize_columns ks1) in *.
  assert (Hp1 : "Processed" ∈ hs1).
  { apply (list_elem_of_lookup_2 _ j). by apply index_of_lookup. }
  assert (Hw1 : wb_worksheet (PROCESSED_SHEET cfg) (book st1) =
                Some (open_archive cfg wb).2).
  { rewrite <- (open_archive_found cfg wb). apply wb_worksheet_titles.
    - by rewrite Ht, open_archive_sheet1.
    - by rewrite Hot. }
  (* a run that ends where the first run stopped before its loop *)
  assert (Hstay : forall r, select cfg wb = inl r -> book (res_state r) = book st1 ->
            (missing_cols cols <> [] -> res_status r = Exit 1) ->
            (missing_cols cols = [] -> res_status r = Exit 0) ->
            (missing_cols cols = [] ->
             filter (fun r => row_get cols r.2 "Processed" <> "Yes")
               (df_rows (load_df (wb_read Sheet1 (book st1)))) = []) ->
            res_status (script cfg w' (book_after cfg w wb)) =
              res_status (script cfg w wb) /\
            book_after cfg w' (book_after cfg w wb) = book_after cfg w wb /\
            updates_made (res_state (script cfg w' (book_after cfg w wb))) = 0 /\
            (false = false -> res_status (script cfg w wb) = Exit 0 ->
             out (res_state (script cfg w' (book_after cfg w wb))) =
               [PrintNoNewInquiries])).
  { intros r Hr Hb H1 H0 Hrows.
    assert (E : book_after cfg w wb = book st1).
    { unfold book_after, script. by rewrite Hr. }
    assert (Es : res_status (script cfg w wb) = res_status r).
    { unfold script. by rewrite Hr. }
    rewrite E, Es.
    destruct (select_settled (book st1) _ Hw1 Hne1 Hrr1 Hp1)
      as (st' & Ho' & Hu' & Hb' & Hsel').
    cbv zeta in Hsel'. fold ks1 in Hsel'. fold cols in Hsel'.
    unfold book_after, script. rewrite Hsel'.
    destruct (missing_cols cols) as [|m ms] eqn:Hm.
    - rewrite Hrows by done.
      cbn [res_status res_state emit book updates_made out].
      rewrite H0 by done. rewrite Ho'. done.
    - cbn [die res_status res_state emit book updates_made out].
      rewrite H1 by done. split; [done |]. split; [done |]. split; [done |].
      intros _ [=]. }
  destruct (missing_cols cols) as [|m ms] eqn:Hm.
  2: { apply (Hstay _ Hsel); try done. }
  destruct (filter _ _) as [|r0 rows0] eqn:Hrows.
  { apply (Hstay _ Hsel); try done. }
  clear Hstay.
  (* the first run went through its loop *)
  set (sel := {| df_columns := cols; df_rows := r0 :: rows0 |}) in *.
  destruct (open_archive cfg wb).2 as [|i] eqn:Hh.
  { exfalso. pose proof (open_archive_found cfg wb) as Hf. rewrite Hh in Hf.
    unfold wb_worksheet in Hf. rewrite open_archive_sheet1 in Hf.
    destruct (String.eqb_spec (wb_sheet1 wb).1 (PROCESSED_SHEET cfg)); [done |].
    by destruct (index_of (PROCESSED_SHEET cfg) _). }
  destruct (script_loop cfg w wb st1 _ sel Hsel) as (j0 & Hj0 & Hs & _ & _ & Hb).
  assert (j0 = j) as -> by (fold hs1 in Hj0; congruence).
  destruct (book_after_loop cfg w wb st1 i sel Hsel) as (j1 & Hj1 & Hs1 & Ho1).
  assert (j1 = j) as -> by (fold hs1 in Hj1; congruence).
  destruct (select_inr_more cfg wb st1 _ sel Hsel) as (_ & _ & _ & _ & _ & Hin).
  destruct (marks_fold w (wb_read Sheet1 (book st1)) (S j) (df_rows sel))
    as (Hhd & Hl & Hcell); [lia |].
  specialize (Hl (fun x Hx => proj2 (Hin x Hx))).
  set (b := book_after cfg w wb) in *.
  set (ws' := foldl _ (wb_read Sheet1 (book st1)) (df_rows sel)) in *.
  assert (Hws' : wb_read Sheet1 b = ws') by (cbn [wb_read]; by rewrite Hs1).
  assert (Hrec1 : has_records (wb_read Sheet1 (book st1)))
    by by apply load_df_empty.
  destruct (marked_sheet_shape (wb_read Sheet1 (book st1)) ws' j
              (fun i => exists x, x ∈ df_rows sel /\ S i = x.1 + 2))
    as (Hused & Hwidth & Hkeys & Hrv'); [done | | | |].
  { fold hs1. by apply index_of_lookup, lookup_lt_Some in Hj. }
  { intros n k. destruct (Hcell (S n) (S k)) as [E|(E1 & E2 & x & Hx & E3 & _)];
      [lia | lia | by left |].
    right. split; [lia |]. split; [exact E2 |]. by exists x. }
  { intros n (x & Hx & Hn). destruct (Hin x Hx) as [Hx' _].
    destruct x as [idx row]. apply load_df_label_bound in Hx'.
    cbn [fst] in Hn. lia. }
  assert (He' : df_empty (load_df ws') = false).
  { apply load_df_empty, has_records_used. rewrite Hused.
    by apply has_records_used. }
  assert (Hrr' : records_raise ws' = false).
  { apply records_raise_false. intros _. rewrite Hkeys.
    by apply (proj1 (records_raise_false _) Hrr1). }
  assert (Hwb : wb_worksheet (PROCESSED_SHEET cfg) b = Some (Other i)).
  { rewrite <- Hh, <- (open_archive_found cfg wb). apply wb_worksheet_titles.
    - by rewrite Hs1, open_archive_sheet1.
    - rewrite Ho1. apply map_fst_alter. }
  rewrite <- Hws' in He', Hrr', Hrv', Hkeys, Hused.
  destruct (select_settled b _ Hwb He' Hrr') as (st' & Ho' & Hu' & Hb' & Hsel').
  { change (wb_sheet1 b).2 with (wb_read Sheet1 b). rewrite Hrv'. exact Hp1. }
  cbv zeta in Hsel'. rewrite Hkeys in Hsel'. fold ks1 in Hsel'.
  fold cols in Hsel'. rewrite Hm in Hsel'.
  assert (Hnone : filter (fun r => row_get cols r.2 "Processed" <> "Yes")
                    (df_rows (load_df (wb_read Sheet1 b))) = []).
  { apply filter_none. intros [idx row] Hx Hne. apply Hne. cbn [snd].
    unfold cols, ks1. rewrite <- Hkeys.
    rewrite (load_df_processed _ idx row j Hx) by (rewrite Hrv'; exact Hj).
    pose proof (load_df_label_bound _ _ _ Hx) as Hlt.
    rewrite Hused in Hlt.
    destruct (load_df_labels _ idx Hlt) as [row0 Hx0].
    destruct (decide (row_get cols row0 "Processed" = "Yes")) as [Hy|Hn].
    - unfold cols, ks1 in Hy.
      rewrite (load_df_processed _ idx row0 j Hx0 Hj) in Hy.
      rewrite Hws'.
      destruct (Hcell (idx + 2) (S j)) as [E|(_ & E & _)]; [lia | lia | |];
        [by rewrite E | done].
    - assert (Hsel0 : (idx, row0) ∈ df_rows sel).
      { cbn [sel df_rows]. rewrite <- Hrows. apply list_elem_of_filter. done. }
      unfold b, book_after. rewrite Hb.
      apply (ledger_loop_marks w (Other i) (S j) _ (df_rows sel) (book st1)
               (idx, row0)); [lia | done | apply Hmark]. }
  rewrite Hnone in Hsel'.
  assert (E2 : script cfg w' b =
                {| res_status := Exit 0;
                   res_state := emit PrintNoNewInquiries st' |}).
  { unfold script. by rewrite Hsel'. }
  unfold book_after at 1. rewrite E2, Hs.
  cbn [res_status res_state emit book updates_made out].
  rewrite Ho'. done.
Qed.

End Again.


(** * The texts of the loop and the channels *)

Lemma string_app_assoc (a b c : string) : (a +:+ b) +:+ c = a +:+ (b +:+ c).
Proof. induction a as [|x a IH]; [done |]. by rewrite !app_String, IH. Qed.

Lemma replace_with_app old new a b :
  replace_with old new (a +:+ b) =
  replace_with old new a +:+ replace_with old new b.
Proof.
  induction a as [|c a IH]; [done |]. rewrite app_String. cbn [replace_with].
  rewrite IH. destruct (Ascii.eqb c old).
  - by rewrite string_app_assoc.
  - by rewrite app_String.
Qed.

Lemma replace_with_absent old new s :
  old ∉ list_ascii_of_string s -> replace_with old new s = s.
Proof.
  induction s as [|c s IH]; [done |]. cbn [replace_with list_ascii_of_string].
  intros Hn. apply not_elem_of_cons in Hn as [Hc Hs].
  destruct (Ascii.eqb_spec c old) as [->|_]; [done |]. by rewrite IH.
Qed.

(** X12.  The raw symptoms are written into the mail without angle brackets,
    and a text without angle brackets is written as it is. *)
Theorem raw_symptoms_escaped (s : string) :
  (forall c,
     c ∈ list_ascii_of_string
           (replace_with ">"%char "&gt;" (replace_with "<"%char "&lt;" s)) ->
     c <> "<"%char /\ c <> ">"%char) /\
  (("<"%char ∉ list_ascii_of_string s) -> (">"%char ∉ list_ascii_of_string s) ->
   replace_with ">"%char "&gt;" (replace_with "<"%char "&lt;" s) = s).
Proof.
  split.
  - induction s as [|a s IH]; intros c Hc.
    + by apply elem_of_nil in Hc.
    + cbn [replace_with] in Hc.
      destruct (Ascii.eqb_spec a "<"%char) as [->|Hlt].
      * rewrite replace_with_app in Hc. cbn in Hc.
        repeat (apply elem_of_cons in Hc as [->|Hc]; [done |]).
        by apply IH.
      * cbn [replace_with] in Hc.
        destruct (Ascii.eqb_spec a ">"%char) as [->|Hgt].
        -- cbn in Hc. repeat (apply elem_of_cons in Hc as [->|Hc]; [done |]).
           by apply IH.
        -- cbn [list_ascii_of_string] in Hc.
           apply elem_of_cons in Hc as [->|Hc]; [done |]. by apply IH.
  - intros Hlt Hgt. rewrite (replace_with_absent "<"%char) by done.
    by apply replace_with_absent.
Qed.

(** X13.  [connect_yagmail] under its [try]: mail is sent from the run
    exactly when both credentials are set and the SSL connection or, after
    it failed, the STARTTLS connection is made; the second attempt is
    announced by the failure of the first, and the failure of both is
    reported once. *)
Theorem mail_channel_available (cfg : Config) (w : World) :
  ((setup_email cfg w).2 = true <->
   EMAIL_USER cfg <> EmptyString /\ EMAIL_PASS cfg <> EmptyString /\
   (smtp_ssl_465 w = None \/ smtp_starttls_587 w = None)) /\
  (forall e, PrintSsl465Failed e ∈ (setup_email cfg w).1 <->
   EMAIL_USER cfg <> EmptyString /\ EMAIL_PASS cfg <> EmptyString /\
   smtp_ssl_465 w = Some e) /\
  (forall e, PrintEmailLoginFailed e ∈ (setup_email cfg w).1 <->
   EMAIL_USER cfg <> EmptyString /\ EMAIL_PASS cfg <> EmptyString /\
   is_Some (smtp_ssl_465 w) /\ smtp_starttls_587 w = Some e) /\
  length (setup_email cfg w).1 <= 2.
Proof.
  unfold setup_email.
  destruct (EMAIL_USER cfg) as [|a u], (EMAIL_PASS cfg) as [|b p];
    cbn [Py.truthy andb fst snd].
  1-3: (split; [split; [done | by intros (? & ? & _)] |]);
       (split; [intros e; split; [by intros ?%elem_of_nil | by intros (? & ? & _)] |]);
       (split; [intros e; split; [by intros ?%elem_of_nil | by intros (? & ? & _)] |]);
       simpl; lia.
  destruct (smtp_ssl_465 w) as [e1|], (smtp_starttls_587 w) as [e2|];
    cbn [fst snd length].
  - split; [split; [done | by intros (_ & _ & [?|?])] |].
    split; [| split; [| lia]]; intros e;
      rewrite !elem_of_cons, elem_of_nil; split.
    + intros [[= ->]|[[=]|[]]]. done.
    + intros (_ & _ & [= ->]). by left.
    + intros [[=]|[[= ->]|[]]]. repeat split; eauto.
    + intros (_ & _ & _ & [= ->]). right. by left.
  - split; [split; [intros _; repeat split; auto | done] |].
    split; [| split; [| lia]]; intros e;
      rewrite !elem_of_cons, elem_of_nil; split.
    + intros [[= ->]|[]]. done.
    + intros (_ & _ & [= ->]). by left.
    + by intros [[=]|[]].
    + by intros (_ & _ & _ & [=]).
  - split; [split; [intros _; repeat split; auto | done] |].
    split; [| split; [| lia]]; intros e; rewrite elem_of_nil; split; try done.
    + by intros (_ & _ & [=]).
    + by intros (_ & _ & [? [=]] & _).
  - split; [split; [intros _; repeat split; auto | done] |].
    split; [| split; [| lia]]; intros e; rewrite elem_of_nil; split; try done.
    + by intros (_ & _ & [=]).
    + by intros (_ & _ & [? [=]] & _).
Qed.

Section Answers.
Context {J : JsonLib}.

Lemma ai_summarize_record use_openai resp symptoms urgency :
  loads_dict_like J ->
  exists summary urg keywords,
    ai_summarize use_openai resp symptoms urgency =
      json_dumps (JObj [("summary", JStr summary); ("urgency", JStr urg);
                        ("keywords", keywords)]) /\
    dict_like keywords = true /\
    (use_openai = false -> urg = Py.or_else urgency "Unknown").
Proof.
  intros HD. unfold ai_summarize, summary_record.
  destruct use_openai; simpl; [| eauto 7].
  destruct resp as [e|[|[raw|] more]];
    try (do 3 eexists; split; [reflexivity | done]).
  destruct (structured (Py.strip raw) urgency) as [out|] eqn:Hs.
  - destruct (structured_record _ _ _ Hs) as (summary & urg & items & -> & Hl).
    unfold summary_record. do 3 eexists. split; [reflexivity |].
    split; [| done]. apply dict_like_items_get; [| done].
    by apply (HD (Py.strip raw)).
  - do 3 eexists. split; [reflexivity | done].
Qed.

(** X14.  An answer of the backend that is an object with a string under
    [summary] is used: its summary stripped, its keywords as they are, and
    its urgency, stripped, when that is a string that is not empty; when
    its urgency counts as false the reported urgency is used, or
    ["Unknown"]. *)
Theorem backend_answer_used (raw : string) (more : list (option string))
    (items : list (string * json number)) (s symptoms urgency : string) :
  json_loads (Py.strip raw) = Some (JObj items) ->
  items_get items "summary" (JStr "") = JStr s ->
  (forall t, items_get items "urgency" JNull = JStr t -> t <> EmptyString ->
     ai_summarize true (BackendReturns (Some raw :: more)) symptoms urgency =
       json_dumps
         (JObj [("summary", JStr (Py.strip s)); ("urgency", JStr (Py.strip t));
                ("keywords", items_get items "keywords" (JArr []))])) /\
  (json_truthy (items_get items "urgency" JNull) = false ->
     ai_summarize true (BackendReturns (Some raw :: more)) symptoms urgency =
       json_dumps
         (JObj [("summary", JStr (Py.strip s));
                ("urgency",
                 JStr (Py.strip (match urgency with
                                 | EmptyString => "Unknown"
                                 | _ => urgency
                                 end)));
                ("keywords", items_get items "keywords" (JArr []))])).
Proof.
  intros Hl Hs. unfold ai_summarize, structured, summary_record. cbn [negb].
  rewrite Hl. cbn [mbind option_bind json_get]. rewrite Hs.
  cbn [json_strip mbind option_bind]. split.
  - intros t -> Ht. cbn [json_truthy]. by destruct t.
  - intros ->. by destruct urgency.
Qed.

(** X15.  An answer of the backend that parses but is not an object, or
    holds under [summary] a value that is not a string, or holds under
    [urgency] a value that counts as true and is not a string, is treated
    as text: the summary is its first 600 characters, the urgency the
    reported one, or ["Unknown"], and there are no keywords. *)
Theorem malformed_answer_falls_back (raw : string) (more : list (option string))
    (v : json number) (symptoms urgency : string) :
  json_loads (Py.strip raw) = Some v ->
  ((forall items, v <> JObj items) \/
   (exists items, v = JObj items /\
      forall s, items_get items "summary" (JStr "") <> JStr s) \/
   (exists items, v = JObj items /\
      json_truthy (items_get items "urgency" JNull) = true /\
      forall t, items_get items "urgency" JNull <> JStr t)) ->
  exists summary,
    ai_summarize true (BackendReturns (Some raw :: more)) symptoms urgency =
      json_dumps
        (JObj [("summary", JStr summary);
               ("urgency",
                JStr (match urgency with
                      | EmptyString => "Unknown"
                      | _ => urgency
                      end));
               ("keywords", JArr [])]) /\
    list_ascii_of_string summary =
      take 600 (list_ascii_of_string (Py.strip raw)).
Proof.
  intros Hl Hv. unfold ai_summarize, summary_record. cbn [negb].
  exists (Py.slice_to 600 (Py.strip raw)). split; [| apply slice_to_chars].
  assert (Hs : structured (Py.strip raw) urgency = None);
    [| rewrite Hs; by destruct urgency].
  unfold structured. rewrite Hl. cbn [mbind option_bind].
  destruct Hv as [Hn|[(items & -> & Hn)|(items & -> & Ht & Hn)]].
  - destruct v; try done. by destruct (Hn items).
  - cbn [json_get mbind option_bind].
    destruct (items_get items "summary" (JStr "")) as [| | |s| |] eqn:E;
      try done.
    by destruct (Hn s).
  - cbn [json_get mbind option_bind].
    destruct (json_strip (items_get items "summary" (JStr ""))) as [summary|];
      [| done].
    cbn [mbind option_bind]. rewrite Ht.
    destruct (items_get items "urgency" JNull) as [| | |t| |] eqn:E; try done.
    by destruct (Hn t).
Qed.

(** X16.  With a [json] module that reads back what it writes and builds
    [dict]s, the archive row of a frame row holds the stripped timestamp,
    name and e-mail of the row, then the summary and the urgency of the very
    record whose text is mailed, as texts, and the status; without a backend
    the urgency is the reported one, or ["Unknown"]. *)
Theorem archive_row_cells (w : World) (columns : list string)
    (use_openai : bool) (r : nat * list string) :
  loads_dumps J -> loads_dict_like J ->
  exists summary urg keywords,
    ai_summarize use_openai (completion w r.1)
      (Py.strip (row_get columns r.2 "Symptoms"))
      (Py.strip (row_get columns r.2 "Urgency")) =
      json_dumps (JObj [("summary", JStr summary); ("urgency", JStr urg);
                        ("keywords", keywords)]) /\
    archive_values w columns use_openai r =
      [Py.strip (row_get columns r.2 "Timestamp");
       Py.strip (row_get columns r.2 "Name");
       Py.strip (row_get columns r.2 "Email");
       summary; urg; "Processed"] /\
    (use_openai = false ->
     urg = Py.or_else (Py.strip (row_get columns r.2 "Urgency")) "Unknown").
Proof.
  intros HJ HD. unfold archive_values. cbv zeta.
  destruct (ai_summarize_record use_openai (completion w r.1)
              (Py.strip (row_get columns r.2 "Symptoms"))
              (Py.strip (row_get columns r.2 "Urgency")) HD)
    as (summary & urg & keywords & E & Hk & Hu).
  exists summary, urg, keywords. rewrite E.
  pose proof (reparse_record summary urg keywords
                (Py.strip (row_get columns r.2 "Urgency")) HJ Hk) as Hr.
  unfold summary_record in Hr. rewrite Hr. done.
Qed.

End Answers.


(** * An archive worksheet that is the source worksheet *)

Lemma pad_to_enough {A} n (d : A) (l : list A) : n <= length l -> pad_to n d l = l.
Proof.
  intros Hn. unfold pad_to. replace (n - length l) with 0 by lia.
  apply app_nil_r.
Qed.

Lemma update_cell_app (ws more : worksheet) r c v :
  0 < r -> r <= length ws ->
  update_cell (ws ++ more) r c v = update_cell ws r c v ++ more.
Proof.
  intros H0 Hr. unfold update_cell.
  rewrite !pad_to_enough by (rewrite ?length_app; lia).
  apply alter_app_l. lia.
Qed.

Section SameSheet.
Variable w : World.

Lemma ledger_step_same_sheet c idx values b :
  wb_others (ledger_step w Sheet1 Sheet1 c idx values b) = wb_others b /\
  wb_read Sheet1 (ledger_step w Sheet1 Sheet1 c idx values b) =
    match mark_update w idx with
    | None => update_cell (wb_read Sheet1 b) (idx + 2) c "Yes"
    | Some _ => wb_read Sheet1 b
    end ++
    match archive_append w idx with
    | None => [values]
    | Some _ => []
    end.
Proof.
  unfold ledger_step, append_row.
  destruct (mark_update w idx), (archive_append w idx);
    cbn [wb_write wb_read wb_others wb_sheet1 snd]; by rewrite ?app_nil_r.
Qed.

Lemma ledger_loop_same_sheet c (vals : nat * list string -> list string)
    (rows : list (nat * list string)) b :
  (forall x, x ∈ rows -> x.1 + 2 <= length (wb_read Sheet1 b)) ->
  wb_others
    (foldl (fun b x => ledger_step w Sheet1 Sheet1 c x.1 (vals x) b) b rows) =
    wb_others b /\
  exists ws',
    length ws' = length (wb_read Sheet1 b) /\
    wb_read Sheet1
      (foldl (fun b x => ledger_step w Sheet1 Sheet1 c x.1 (vals x) b) b rows) =
      ws' ++ map vals (filter (fun x => archive_append w x.1 = None) rows).
Proof.
  induction rows as [|x rows IH] using rev_ind; intros Hall.
  - split; [done |]. exists (wb_read Sheet1 b). split; [done |].
    cbn [foldl]. by rewrite app_nil_r.
  - rewrite foldl_app. cbn [foldl].
    destruct IH as (Ho & ws' & Hl & Hr).
    { intros y Hy. apply Hall, elem_of_app. by left. }
    set (b1 := foldl _ b rows) in *.
    destruct (ledger_step_same_sheet c x.1 (vals x) b1) as [-> ->].
    split; [done |].
    assert (Hx : x.1 + 2 <= length ws').
    { rewrite Hl. apply Hall, elem_of_app. right. by apply list_elem_of_singleton. }
    rewrite filter_app, map_app, Hr.
    exists (match mark_update w x.1 with
            | None => update_cell ws' (x.1 + 2) c "Yes"
            | Some _ => ws'
            end).
    split.
    + destruct (mark_update w x.1); [done |].
      rewrite length_update_cell. unfold worksheet in *. lia.
    + assert (Hlast : map vals (filter (fun y => archive_append w y.1 = None) [x])
                      = match archive_append w x.1 with
                        | None => [vals x]
                        | Some _ => []
                        end).
      { destruct (archive_append w x.1) as [e|] eqn:Ha.
        - by rewrite filter_cons_False by by rewrite Ha.
        - by rewrite filter_cons_True by done. }
      rewrite Hlast.
      destruct (mark_update w x.1).
      * by rewrite <- app_assoc.
      * rewrite update_cell_app by lia. by rewrite <- app_assoc.
Qed.

End SameSheet.

Section SameSheetRun.
Context {J : JsonLib}.
Variable cfg : Config.
Variable w : World.

(** X17.  When the first worksheet carries the title of the archive, the
    archive rows are appended to the source worksheet itself, below its
    records, and no other worksheet changes. *)
Theorem archive_on_source_sheet (wb : workbook) (st : state) (h : handle)
    (sel : DataFrame) :
  select cfg wb = inr (st, h, sel) ->
  (wb_sheet1 wb).1 = PROCESSED_SHEET cfg ->
  h = Sheet1 /\
  wb_others (book_after cfg w wb) = wb_others wb /\
  exists ws',
    length ws' = length (wb_sheet1 wb).2 /\
    wb_read Sheet1 (book_after cfg w wb) =
      ws' ++ map (archive_values w (df_columns sel) (setup_openai cfg w).2)
               (filter (fun r => archive_append w r.1 = None) (df_rows sel)).
Proof.
  intros Hsel Ht.
  assert (Hw : wb_worksheet (PROCESSED_SHEET cfg) wb = Some Sheet1).
  { unfold wb_worksheet. rewrite Ht. by rewrite String.eqb_refl. }
  pose proof (open_archive_known cfg wb _ Hw) as Hoa.
  destruct (select_inr cfg wb st h sel Hsel) as (_ & _ & _ & Htl & -> & _).
  destruct (select_inr_more cfg wb st _ sel Hsel) as (Hot & _ & He & He1 & _ & Hin).
  rewrite Hoa in *. cbn [fst snd] in *.
  split; [done |].
  destruct (script_loop cfg w wb st _ sel Hsel) as (j & _ & _ & _ & _ & Hb).
  unfold book_after. rewrite Hb.
  destruct (ledger_loop_same_sheet w (S j)
              (archive_values w (df_columns sel) (setup_openai cfg w).2)
              (df_rows sel) (book st)) as (Ho & ws' & Hl & Hr).
  { intros x Hx. by apply Hin. }
  split; [by rewrite Ho |].
  exists ws'. split; [| done]. rewrite Hl.
  apply length_tail_eq; [done | |].
  - destruct (load_df_not_empty _ He1) as (? & ? & ? & -> & _). done.
  - destruct (load_df_not_empty _ He) as (? & ? & ? & -> & _). done.
Qed.

End SameSheetRun.


(** * More sample runs *)

Module Instances.
Import Sample.
#[local] Existing Instance MiniJson.lib.

(** Distinct variant headers stay distinct. *)
Lemma normalize_keeps_distinct_witness :
  NoDup variant_headers /\ NoDup (normalize_columns variant_headers).
Proof.
  assert (H : NoDup variant_headers).
  { unfold variant_headers. repeat (apply NoDup_cons; split;
      [intros Hin; repeat (apply elem_of_cons in Hin as [Hin|Hin];
                           [discriminate Hin |]); by apply elem_of_nil in Hin |]).
    apply NoDup_nil_2. }
  split; [exact H | exact (normalize_keeps_distinct variant_headers H)].
Defined.

Lemma normalize_idempotent_witness :
  normalize_columns (normalize_columns variant_headers) =
  normalize_columns variant_headers.
Proof. exact (normalize_idempotent variant_headers). Defined.

(** Of two headers that are variants of [email], the later one becomes
    [Email]. *)
Lemma last_variant_renamed_witness :
  ("Email", ["email"; "e-mail"; "mail"; "your email"]) ∈ aliases /\
  ("Email" ∉ twice_spelled) /\
  earliest_present twice_spelled ["email"; "e-mail"; "mail"; "your email"]
    0 "email" /\
  exists before chosen after,
    twice_spelled = before ++ chosen :: after /\
    variant_of chosen "email" /\
    (forall h, h ∈ after -> ~ variant_of h "email") /\
    normalize_columns twice_spelled !! length before = Some "Email".
Proof.
  assert (H1 : ("Email", ["email"; "e-mail"; "mail"; "your email"]) ∈ aliases)
    by (unfold aliases; in_list).
  assert (H2 : "Email" ∉ twice_spelled).
  { intros Hin. unfold twice_spelled in Hin.
    repeat (apply elem_of_cons in Hin as [Hin|Hin]; [discriminate Hin |]).
    by apply elem_of_nil in Hin. }
  assert (H3 : earliest_present twice_spelled
                 ["email"; "e-mail"; "mail"; "your email"] 0 "email").
  { split; [reflexivity |]. split.
    - exists "EMAIL". split; [unfold twice_spelled; in_list |].
      by apply norm_variant.
    - intros j' v' h Hlt. lia. }
  split; [exact H1 |]. split; [exact H2 |]. split; [exact H3 |].
  exact (last_variant_renamed twice_spelled _ _ _ _ H1 H2 H3).
Defined.

Lemma processed_column_fixed_witness :
  index_of "Processed" (normalize_columns (variant_headers ++ ["Processed"])) =
    index_of "Processed" (variant_headers ++ ["Processed"]) /\
  length (normalize_columns (variant_headers ++ ["Processed"])) =
    length (variant_headers ++ ["Processed"]).
Proof. exact (processed_column_fixed (variant_headers ++ ["Processed"])). Defined.

(** [ensure_column] on a sheet without the column. *)
Lemma ensure_column_position_witness :
  "Processed" <> EmptyString /\
  exists j,
    (ensure_column (wb_sheet1 two_rows).2 "Processed").2 = Some (S j) /\
    row_values (ensure_column (wb_sheet1 two_rows).2 "Processed").1 1 !! j =
      Some "Processed" /\
    tail (ensure_column (wb_sheet1 two_rows).2 "Processed").1 =
      tail (wb_sheet1 two_rows).2.
Proof.
  assert (H : "Processed" <> EmptyString) by discriminate.
  split; [exact H |].
  destruct (ensure_column_position (wb_sheet1 two_rows).2 "Processed" H)
    as (j & Hj & Hl & _ & Ht & _).
  exists j. split; [exact Hj |]. split; [exact Hl | exact Ht].
Defined.

Lemma ensure_column_idempotent_witness :
  "Processed" <> EmptyString /\
  ensure_column (ensure_column (wb_sheet1 two_rows).2 "Processed").1 "Processed"
  = ensure_column (wb_sheet1 two_rows).2 "Processed".
Proof.
  assert (H : "Processed" <> EmptyString) by discriminate.
  split; [exact H |].
  exact (ensure_column_idempotent (wb_sheet1 two_rows).2 "Processed" H).
Defined.

Lemma open_archive_idempotent_witness :
  open_archive cfg (open_archive cfg two_rows).1 = open_archive cfg two_rows.
Proof. exact (proj1 (open_archive_idempotent cfg two_rows)). Defined.


(** The archive after a run on two records. *)
Lemma archive_append_only_witness :
  exists st i sel,
    select cfg two_rows = inr (st, Other i, sel) /\
    wb_read (Other i) (book_after cfg calm two_rows) =
      wb_read (Other i) (open_archive cfg two_rows).1 ++
      map (archive_values calm (df_columns sel) (setup_openai cfg calm).2)
        (filter (fun r => archive_append calm r.1 = None) (df_rows sel)).
Proof.
  eexists _, _, _. split; [vm_compute; reflexivity |].
  exact (proj1 (archive_append_only cfg calm two_rows _ _ _ eq_refl)).
Defined.

Lemma source_sheet_frame_witness :
  exists st i sel,
    select cfg two_rows = inr (st, Other i, sel) /\
    length (wb_read Sheet1 (book_after cfg calm two_rows)) =
      length (wb_sheet1 two_rows).2.
Proof.
  eexists _, _, _. split; [vm_compute; reflexivity |].
  destruct (source_sheet_frame cfg calm two_rows _ _ _ eq_refl)
    as (j & _ & _ & _ & Hl & _).
  exact Hl.
Defined.

(** A second run on the workbook of the first. *)
Lemma rerun_finds_nothing_witness :
  (wb_sheet1 two_rows).1 <> PROCESSED_SHEET cfg /\
  (forall idx, mark_update calm idx = None) /\
  res_status (script cfg noisy (book_after cfg calm two_rows)) =
    res_status (script cfg calm two_rows) /\
  book_after cfg noisy (book_after cfg calm two_rows) =
    book_after cfg calm two_rows.
Proof.
  assert (H1 : (wb_sheet1 two_rows).1 <> PROCESSED_SHEET cfg) by discriminate.
  assert (H2 : forall idx, mark_update calm idx = None) by reflexivity.
  split; [exact H1 |]. split; [exact H2 |].
  destruct (rerun_finds_nothing cfg calm noisy two_rows H1 H2) as (Hs & Hb & _).
  split; [exact Hs | exact Hb].
Defined.

(** A text without angle brackets is mailed as it is. *)
Lemma raw_symptoms_escaped_witness :
  ("<"%char ∉ list_ascii_of_string "fever") /\
  (">"%char ∉ list_ascii_of_string "fever") /\
  replace_with ">"%char "&gt;" (replace_with "<"%char "&lt;" "fever") = "fever".
Proof.
  assert (H1 : "<"%char ∉ list_ascii_of_string "fever").
  { intros Hin. cbn in Hin.
    repeat (apply elem_of_cons in Hin as [Hin|Hin]; [discriminate Hin |]).
    by apply elem_of_nil in Hin. }
  assert (H2 : ">"%char ∉ list_ascii_of_string "fever").
  { intros Hin. cbn in Hin.
    repeat (apply elem_of_cons in Hin as [Hin|Hin]; [discriminate Hin |]).
    by apply elem_of_nil in Hin. }
  split; [exact H1 |]. split; [exact H2 |].
  exact (proj2 (raw_symptoms_escaped "fever") H1 H2).
Defined.

Lemma mail_channel_available_witness :
  (setup_email cfg_full noisy).2 = true <->
  EMAIL_USER cfg_full <> EmptyString /\ EMAIL_PASS cfg_full <> EmptyString /\
  (smtp_ssl_465 noisy = None \/ smtp_starttls_587 noisy = None).
Proof. exact (proj1 (mail_channel_available cfg_full noisy)). Defined.

(** An answer with a summary and an urgency of its own. *)
Lemma backend_answer_used_witness :
  exists items,
    json_loads (Py.strip structured_answer) = Some (JObj items) /\
    items_get items "summary" (JStr "") = JStr " mild fever " /\
    items_get items "urgency" JNull = JStr "High" /\
    "High" <> EmptyString /\
    ai_summarize true (BackendReturns [Some structured_answer]) "fever" "Low" =
      json_dumps
        (JObj [("summary", JStr (Py.strip " mild fever "));
               ("urgency", JStr (Py.strip "High"));
               ("keywords", items_get items "keywords" (JArr []))]).
Proof.
  eexists.
  assert (H1 : json_loads (Py.strip structured_answer) =
               Some (JObj [("summary", JStr " mild fever ");
                           ("urgency", JStr "High");
                           ("keywords", JArr [JStr "fever"])]))
    by (vm_compute; reflexivity).
  split; [exact H1 |]. split; [reflexivity |]. split; [reflexivity |].
  assert (H2 : "High" <> EmptyString) by discriminate.
  split; [exact H2 |].
  exact (proj1 (backend_answer_used _ [] _ " mild fever " "fever" "Low"
                  H1 eq_refl) "High" eq_refl H2).
Defined.

(** An answer that is a list is treated as text. *)
Lemma malformed_answer_falls_back_witness :
  json_loads (Py.strip "[]") = Some (JArr []) /\
  exists summary,
    ai_summarize true (BackendReturns [Some "[]"]) "fever" "Low" =
      json_dumps (JObj [("summary", JStr summary); ("urgency", JStr "Low");
                        ("keywords", JArr [])]) /\
    list_ascii_of_string summary = take 600 (list_ascii_of_string (Py.strip "[]")).
Proof.
  assert (H1 : json_loads (Py.strip "[]") = Some (JArr []))
    by (vm_compute; reflexivity).
  split; [exact H1 |].
  apply (malformed_answer_falls_back "[]" [] (JArr []) "fever" "Low" H1).
  left. intros items. discriminate.
Defined.

Lemma archive_row_cells_witness :
  loads_dumps MiniJson.lib /\ loads_dict_like MiniJson.lib /\
  exists summary urg,
    archive_values calm ["Name"; "Urgency"] false (0, ["Jo"; ""]) =
      [Py.strip (row_get ["Name"; "Urgency"] ["Jo"; ""] "Timestamp");
       Py.strip (row_get ["Name"; "Urgency"] ["Jo"; ""] "Name");
       Py.strip (row_get ["Name"; "Urgency"] ["Jo"; ""] "Email");
       summary; urg; "Processed"].
Proof.
  split; [exact MiniJsonProps.loads_dumps_lib |].
  split; [exact MiniJsonProps.loads_dict_like_lib |].
  destruct (archive_row_cells calm ["Name"; "Urgency"] false (0, ["Jo"; ""])
              MiniJsonProps.loads_dumps_lib MiniJsonProps.loads_dict_like_lib)
    as (summary & urg & keywords & _ & Hv & _).
  exists summary, urg. exact Hv.
Defined.

(** The archive rows land on the source sheet that has the archive's
    title. *)
Lemma archive_on_source_sheet_witness :
  exists st h sel,
    select cfg same_sheet = inr (st, h, sel) /\
    (wb_sheet1 same_sheet).1 = PROCESSED_SHEET cfg /\
    h = Sheet1 /\
    wb_others (book_after cfg calm same_sheet) = wb_others same_sheet.
Proof.
  eexists _, _, _. split; [vm_compute; reflexivity |].
  split; [reflexivity |].
  destruct (archive_on_source_sheet cfg calm same_sheet _ _ _ eq_refl eq_refl)
    as (Hh & Ho & _).
  split; [exact Hh | exact Ho].
Defined.

End Instances.
